(** * The GitHub-activity pipeline of the portfolio site

    A shallow embedding of the two programs that make up the pipeline:

    - the proxy route [GET] (the [/api/github-activity] endpoint), which
      fetches the third-party contributions API, checks the shape of the
      body, filters, sorts, truncates and sums it;
    - the calendar widget [GitHubActivity] ([fetchData], [formatDate],
      [formatTooltip]), which reads a cached record from [localStorage],
      falls back to the proxy, and renders tooltips.

    Beside them stand the earlier version of the route ([Passthrough]) and
    of the selection the widget once made in the browser
    ([EarlierWidget]), what the widget renders ([WidgetView]), the widget
    and the route put together ([Transport]), the sitemap callbacks of the
    site configuration ([Sitemap]) and the error boundary
    ([ErrorBoundary]).

    Conventions.  A JavaScript string is a [string] whose characters stand
    for its code units; [<=] on strings is the code-unit order [String.leb].
    Numbers are the integers the upstream API and the cache hold (counts,
    totals, years, epoch milliseconds), as [Z].  The sums of the route are
    taken with [Number_add], the addition of Numbers: exact on the safe
    integers, rounded to the nearest Number beyond 2^53.  Values parsed
    from JSON are taken at their declared TypeScript types, with these
    run-time shapes modelled besides: the two fields that the proxy
    inspects ([data.contributions] and [data.total]); a body that parses
    to [null], of which no property can be read; the [data] of a cached
    record and of an answer, which may be missing.  Built-ins whose result
    is left to the host (collation, local time zone, parsing of dates
    outside the ISO date-only form, locale formatting, the messages of the
    errors the platform throws) are fields of a [Host] record; the JSON
    codec of the cache is a [Codec] record. *)

From Stdlib Require Import ZArith List String Ascii Bool Lia DecimalString.
From Stdlib Require Import Sorted Permutation.
From stdpp Require Import gmap strings.
Import ListNotations.

Open Scope string_scope.
Open Scope list_scope.
Open Scope Z_scope.

(** ** JavaScript built-ins used by both programs *)

Module JS.

(** A thrown value, as a [catch] clause inspects it: whether it is an
    [instanceof Error], and its [name] and [message]. *)
Record Thrown := {
  instanceofError : bool;
  name : string;
  message : string
}.

(** The rejection of a [fetch] whose signal was aborted: a [DOMException]
    named ["AbortError"]; [DOMException.prototype] inherits from
    [Error.prototype]. *)
Definition AbortError : Thrown :=
  {| instanceofError := true;
     name := "AbortError";
     message := "This operation was aborted" |}.

(** What a [try] block evaluates to: the value thrown inside it, or its
    result.  [x ← e; k] runs [k] on the result of [e] and passes on what [e]
    throws, as a sequence of statements does. *)
Definition Try (A : Type) : Type := (Thrown + A)%type.

#[export] Instance Try_ret : MRet Try := fun A a => inr a.

#[export] Instance Try_bind : MBind Try := fun A B f m =>
  match m with
  | inl thrown => inl thrown
  | inr a => f a
  end.

(** [`${n}`] for an integer [n]: its decimal digits, with a leading minus
    sign when negative. *)
Definition Number_toString (n : Z) : string :=
  NilZero.string_of_int (Z.to_int n).

(** [`${y}`] for the result of a [Date] getter: [None] is [NaN]. *)
Definition NumberOrNaN_toString (y : option Z) : string :=
  match y with
  | Some n => Number_toString n
  | None => "NaN"
  end.

(** [a === b] on two such results: [NaN] is not equal to itself. *)
Definition strict_equal (a b : option Z) : bool :=
  match a, b with
  | Some x, Some y => x =? y
  | _, _ => false
  end.

(** Truthiness of a string: every string but the empty one. *)
Definition truthy_string (s : string) : bool :=
  negb (s =? "")%string.

(** *** Numbers

    A Number that is an integer is kept as that integer.  Every integer
    of magnitude below 2^53 is a Number; from there on the Numbers are the
    multiples of the power of two that leaves 53 significant bits.
    [Number_round x] is the Number nearest to the integer [x], a tie going
    to the even significand, as addition rounds.  (From 2^1024 on a sum is
    [Infinity], which the integers of this file do not reach.) *)
Definition Number_round (x : Z) : Z :=
  let m := Z.abs x in
  if m <? 2 ^ 53 then x
  else
    let ulp := 2 ^ (Z.log2 m - 52) in
    let q := m / ulp in
    let r := m mod ulp in
    let q' := if 2 * r <? ulp then q
              else if ulp <? 2 * r then q + 1
              else if Z.even q then q else q + 1 in
    Z.sgn x * (q' * ulp).

(** [a + b] on two Numbers. *)
Definition Number_add (a b : Z) : Z := Number_round (a + b).

(** [Number.isSafeInteger]. *)
Definition Number_isSafeInteger (n : Z) : bool :=
  Z.abs n <=? 2 ^ 53 - 1.

Section Arrays.
Context {A : Type}.

(** [Array.prototype.sort(compareFn)].  The sort is stable, and for a
    consistent comparator the result is the one stable arrangement in which
    [compareFn a b <= 0] for [a] before [b]; it is written here as the
    stable insertion sort.  [x] comes from before every element of [l] in
    the original array, so a tie leaves it in front. *)
Fixpoint sort_insert (compareFn : A -> A -> Z) (x : A) (l : list A) : list A :=
  match l with
  | [] => [x]
  | y :: l' =>
      if compareFn x y <=? 0 then x :: l
      else y :: sort_insert compareFn x l'
  end.

Definition Array_sort (compareFn : A -> A -> Z) (l : list A) : list A :=
  fold_right (sort_insert compareFn) [] l.

(** [Array.prototype.slice(start)]: a negative [start] counts from the
    end, and the start index is clamped to [0 .. length]. *)
Definition Array_slice (start : Z) (l : list A) : list A :=
  let len := Z.of_nat (length l) in
  let k := if start <? 0 then Z.max (len + start) 0 else Z.min start len in
  skipn (Z.to_nat k) l.

(** [Array.prototype.reduce(callback, initialValue)]. *)
Definition Array_reduce {B : Type} (callback : B -> A -> B) (initialValue : B)
    (l : list A) : B :=
  fold_left callback l initialValue.

End Arrays.

(** *** Dates (ECMAScript, Date objects)

    Time values are milliseconds since the epoch, in UTC. *)

Definition msPerDay : Z := 86400000.

Definition Day (t : Z) : Z := t / msPerDay.

Definition isLeapYear (y : Z) : bool :=
  (y mod 4 =? 0) && (negb (y mod 100 =? 0) || (y mod 400 =? 0)).

Definition DaysInYear (y : Z) : Z :=
  if isLeapYear y then 366 else 365.

Definition DayFromYear (y : Z) : Z :=
  365 * (y - 1970) + (y - 1969) / 4 - (y - 1901) / 100 + (y - 1601) / 400.

Definition TimeFromYear (y : Z) : Z := msPerDay * DayFromYear y.

(** [YearFromTime(t)] is the largest [y] with [TimeFromYear(y) <= t].  It
    is computed from the estimate given by the mean length of a year
    (146097 days in 400 years), which is off by at most one; lemma
    [YearFromTime_spec] below shows that this is the year the standard
    defines. *)
Definition YearFromTime (t : Z) : Z :=
  let d := Day t in
  let y := 1970 + (400 * d) / 146097 in
  if d <? DayFromYear y then y - 1
  else if d <? DayFromYear (y + 1) then y
  else y + 1.

(** Days from the start of a year to the start of month [mn] (0 = January). *)
Definition DaysBeforeMonth (leap : bool) (mn : Z) : Z :=
  nth (Z.to_nat mn) [0; 31; 59; 90; 120; 151; 181; 212; 243; 273; 304; 334] 0
  + (if leap && (2 <=? mn) then 1 else 0).

(** Length of month [m] (1 = January) of year [y]. *)
Definition DaysInMonth (y m : Z) : Z :=
  if m =? 2 then (if isLeapYear y then 29 else 28)
  else if (m =? 4) || (m =? 6) || (m =? 9) || (m =? 11) then 30
  else 31.

(** [MakeDay(year, month, date)], [month] counted from 0. *)
Definition MakeDay (year month date : Z) : Z :=
  let ym := year + month / 12 in
  let mn := month mod 12 in
  DayFromYear ym + DaysBeforeMonth (isLeapYear ym) mn + date - 1.

Definition MakeDate (day time : Z) : Z := day * msPerDay + time.

Definition digit (c : ascii) : option Z :=
  let n := Z.of_N (N_of_ascii c) in
  if (48 <=? n) && (n <=? 57) then Some (n - 48) else None.

(** The date-only form [YYYY-MM-DD] of the Date Time String Format, for a
    date that exists in the calendar: its year, month and day. *)
Definition parse_iso_date (s : string) : option (Z * Z * Z) :=
  match list_ascii_of_string s with
  | [y1; y2; y3; y4; h1; m1; m2; h2; d1; d2] =>
      if (h1 =? "-")%char && (h2 =? "-")%char then
        a ← digit y1; b ← digit y2; c ← digit y3; d ← digit y4;
        e ← digit m1; f ← digit m2; g ← digit d1; h ← digit d2;
        let y := 1000 * a + 100 * b + 10 * c + d in
        let m := 10 * e + f in
        let dd := 10 * g + h in
        if (1 <=? m) && (m <=? 12) && (1 <=? dd) && (dd <=? DaysInMonth y m)
        then Some (y, m, dd) else None
      else None
  | _ => None
  end.

(** What the host leaves open: the collation behind
    [String.prototype.localeCompare], the offset of local time from UTC at a
    time value ([LocalTZA], in milliseconds), the time value [new Date(s)]
    gets from a string that is not a date-only ISO string ([None] is an
    invalid date), [Date.prototype.toLocaleDateString] for the options
    the widget passes, and the messages of two errors of the platform: the
    [TypeError] thrown on reading a property (given by its name) of
    [null], and the error the [Response] constructor throws for a status
    it refuses. *)
Record Host := {
  localeCompare : string -> string -> Z;
  LocalTZA : Z -> Z;
  Date_parse_other : string -> option Z;
  toLocaleDateString : option Z -> string;
  null_property_message : string -> string;
  Response_status_message : Z -> string
}.

(** The [TypeError] of reading the property [key] of [null]. *)
Definition null_property_error (host : Host) (key : string) : Thrown :=
  {| instanceofError := true;
     name := "TypeError";
     message := null_property_message host key |}.

Section Dates.
Context (host : Host).

(** The time value of [new Date(s)]; a date-only string is read as UTC
    midnight. *)
Definition Date_new (s : string) : option Z :=
  match parse_iso_date s with
  | Some (y, m, d) => Some (MakeDate (MakeDay y (m - 1) d) 0)
  | None => Date_parse_other host s
  end.

Definition LocalTime (t : Z) : Z := t + LocalTZA host t.

(** [getFullYear()]: the year in local time, [NaN] for an invalid date. *)
Definition getFullYear (tv : option Z) : option Z :=
  match tv with
  | Some t => Some (YearFromTime (LocalTime t))
  | None => None
  end.

End Dates.

End JS.

(** ** The proxy route ([GET] of the activity endpoint) *)

Module Proxy.
Import JS.

Definition FETCH_TIMEOUT : Z := 10000.

(** [interface ExternalActivity]. *)
Record ExternalActivity := {
  date : string;
  count : Z;
  level : Z
}.

(** [data.contributions] at run time.  Only an array carries entries. *)
Inductive Contributions :=
| ContributionsUndefined
| ContributionsNull
| ContributionsBoolean (b : bool)
| ContributionsNumber (n : Z)
| ContributionsString (s : string)
| ContributionsObject
| ContributionsArray (entries : list ExternalActivity).

(** [data.total] at run time: the declared [Record<string | number, number>]
    with its entries in the order [Object.values] lists them, or any of the
    other shapes whose own enumerable values are numbers.  (A string is
    left out: its values are its characters, which [+] would concatenate.) *)
Inductive Total :=
| TotalUndefined
| TotalNull
| TotalBoolean (b : bool)
| TotalNumber (n : Z)
| TotalArray (values : list Z)
| TotalRecord (entries : list (string * Z)).

(** [interface ExternalApiResponse], as parsed from the upstream body. *)
Record ExternalApiResponse := {
  total : Total;
  contributions : Contributions
}.

(** What [response.json()] gives when it parses the body: [null], or a
    value with the two fields the route reads.  A body that is no object
    (a number, a string, a boolean, an array) has neither field, and is
    the value with both fields undefined. *)
Inductive Json :=
| JsonNull
| JsonData (data : ExternalApiResponse).

(** The upstream [Response]: its status and what [response.json()] settles
    to. *)
Record UpstreamResponse := {
  upstream_status : Z;
  upstream_json : Try Json
}.

(** [response.ok]: the status is in the range 200-299. *)
Definition ok (response : UpstreamResponse) : bool :=
  (200 <=? upstream_status response) && (upstream_status response <=? 299).

(** The outbound call as the route experiences it: how long the external
    service takes to settle (milliseconds from the call), and what the call
    settles to when nothing aborts it. *)
Record Upstream := {
  latency : Z;
  settles : Try UpstreamResponse
}.

(** [fetch(EXTERNAL_API_URL, { signal })] raced against
    [setTimeout(() => controller.abort(), FETCH_TIMEOUT)]: when the timer
    fires before the call has settled the call rejects with the abort error
    (a tie is given to the timer). *)
Definition fetch (u : Upstream) : Try UpstreamResponse :=
  if FETCH_TIMEOUT <=? latency u then inl AbortError else settles u.

(** The body the route serialises with [JSON.stringify]. *)
Record ActivityPayload := {
  payload_contributions : list ExternalActivity;
  lastYearTotal : Z;
  allTimeTotal : Z;
  yearRange : string
}.

Inductive Body :=
| ErrorBody (error : string)
| PayloadBody (payload : ActivityPayload).

Record Response := {
  status : Z;
  headers : list (string * string);
  body : Body
}.

Definition error_response (error : string) (status : Z) : Response :=
  {| status := status;
     headers := [("Content-Type", "application/json")];
     body := ErrorBody error |}.

(** [!v] is [negb (truthy v)]. *)
Definition truthy_contributions (c : Contributions) : bool :=
  match c with
  | ContributionsUndefined | ContributionsNull => false
  | ContributionsBoolean b => b
  | ContributionsNumber n => negb (n =? 0)
  | ContributionsString s => truthy_string s
  | ContributionsObject | ContributionsArray _ => true
  end.

Definition truthy_total (t : Total) : bool :=
  match t with
  | TotalUndefined | TotalNull => false
  | TotalBoolean b => b
  | TotalNumber n => negb (n =? 0)
  | TotalArray _ | TotalRecord _ => true
  end.

Definition Array_isArray (c : Contributions) : bool :=
  match c with
  | ContributionsArray _ => true
  | _ => false
  end.

(** The elements of [data.contributions] once it is known to be an array. *)
Definition entries_of (c : Contributions) : list ExternalActivity :=
  match c with
  | ContributionsArray entries => entries
  | _ => []
  end.

(** [Object.values(data.total)]: a [TypeError] on [undefined] and [null],
    no value for a number or a boolean. *)
Definition Object_values (t : Total) : Try (list Z) :=
  match t with
  | TotalUndefined | TotalNull =>
      inl {| instanceofError := true;
             name := "TypeError";
             message := "Cannot convert undefined or null to object" |}
  | TotalBoolean _ | TotalNumber _ => inr []
  | TotalArray values => inr values
  | TotalRecord entries => inr (map snd entries)
  end.

(** The structure check of the route (the condition of its 502 branch). *)
Definition invalid_structure (data : ExternalApiResponse) : bool :=
  negb (truthy_contributions (contributions data))
  || negb (Array_isArray (contributions data))
  || negb (truthy_total (total data)).

Section Route.
Context (host : Host).

(** [data.contributions.filter((c) => c.date <= today)
      .sort((a, b) => a.date.localeCompare(b.date))]. *)
Definition sortedContributions (today : string) (entries : list ExternalActivity)
    : list ExternalActivity :=
  Array_sort (fun a b => localeCompare host (date a) (date b))
    (List.filter (fun c => String.leb (date c) today) entries).

(** [sortedContributions.slice(-365)]. *)
Definition lastYearData (today : string) (entries : list ExternalActivity)
    : list ExternalActivity :=
  Array_slice (-365) (sortedContributions today entries).

(** The year range of a window: empty for an empty window, else built from
    [new Date(first.date).getFullYear()] and the same for the last entry. *)
Definition yearRange_of (window : list ExternalActivity) : string :=
  match window with
  | [] => ""
  | first :: _ =>
      let startYear := getFullYear host (Date_new host (date first)) in
      let endYear :=
        getFullYear host (Date_new host (date (List.last window first))) in
      if strict_equal startYear endYear
      then NumberOrNaN_toString startYear
      else NumberOrNaN_toString startYear +:+ " - " +:+ NumberOrNaN_toString endYear
  end.

(** [lastYearData.reduce((sum, day) => sum + day.count, 0)]. *)
Definition lastYearTotal_of (window : list ExternalActivity) : Z :=
  Array_reduce (fun sum day => Number_add sum (count day)) 0 window.

(** [values.reduce((sum, count) => sum + count, 0)]. *)
Definition allTimeTotal_of (values : list Z) : Z :=
  Array_reduce (fun sum count => Number_add sum count) 0 values.

(** The statuses with which a response has no body. *)
Definition null_body_status (status : Z) : bool :=
  existsb (Z.eqb status) [101; 103; 204; 205; 304].

(** [new Response(body, { status, headers })] with a body: a [RangeError]
    for a status outside 200-599, a [TypeError] for a status that goes
    with no body. *)
Definition Response_new (response : Response) : Try Response :=
  if (status response <? 200) || (599 <? status response) then
    inl {| instanceofError := true;
           name := "RangeError";
           message := Response_status_message host (status response) |}
  else if null_body_status (status response) then
    inl {| instanceofError := true;
           name := "TypeError";
           message := Response_status_message host (status response) |}
  else inr response.

(** [data.contributions], the first property the route reads off the
    parsed body: it throws when the body is [null]. *)
Definition read_body (json : Json) : Try ExternalApiResponse :=
  match json with
  | JsonNull => inl (null_property_error host "contributions")
  | JsonData data => inr data
  end.

(** The [catch] clause of the route. *)
Definition catch (error : Thrown) : Response :=
  if instanceofError error && (name error =? "AbortError")%string
  then error_response "Request timed out" 504
  else
    let message := if instanceofError error then message error
                   else "Unknown error" in
    error_response message 500.

(** The [try] block of the route.  [today] is
    [new Date().toISOString().split('T')[0]], the UTC date of the request. *)
Definition GET_try (today : string) (u : Upstream) : Try Response :=
  response ← fetch u;
  if negb (ok response) then
    Response_new
      (error_response
         ("Failed to fetch GitHub data: "
            +:+ Number_toString (upstream_status response))
         (upstream_status response))
  else
    json ← upstream_json response;
    data ← read_body json;
    if invalid_structure data then
      mret (error_response "Invalid data structure from GitHub API" 502)
    else
      let window := lastYearData today (entries_of (contributions data)) in
      values ← Object_values (total data);
      mret {| status := 200;
              headers :=
                [("Content-Type", "application/json");
                 ("Cache-Control", "public, max-age=3600, s-maxage=3600")];
              body := PayloadBody
                {| payload_contributions := window;
                   lastYearTotal := lastYearTotal_of window;
                   allTimeTotal := allTimeTotal_of values;
                   yearRange := yearRange_of window |} |}.

(** The route handler: the [try] block, and the [catch] clause for what it
    throws. *)
Definition GET (today : string) (u : Upstream) : Response :=
  match GET_try today u with
  | inr response => response
  | inl error => catch error
  end.

End Route.

End Proxy.

(** ** The calendar widget ([GitHubActivity]) *)

Module Widget.
Import JS.

Definition API_URL : string := "/api/github-activity".
Definition CACHE_KEY : string := "github-activity-cache".
Definition CACHE_TTL : Z := 1000 * 60 * 60.
Definition CACHE_VERSION : Z := 2.
Definition FETCH_TIMEOUT : Z := 10000.

(** [Activity] of the calendar component. *)
Record Activity := {
  date : string;
  count : Z;
  level : Z
}.

(** [interface GitHubData]. *)
Record GitHubData := {
  contributions : list Activity;
  lastYearTotal : Z;
  allTimeTotal : Z;
  yearRange : string
}.

(** [interface CachedData], as a parsed text has it: a record may come
    without [data] ([None]; [undefined] and [null] are shown alike). *)
Record CachedData := {
  cached_data : option GitHubData;
  timestamp : Z;
  version : Z
}.

(** [JSON.parse] of a cached text, with its [timestamp] and [version] read
    at the declared type ([None] when the first [try] block throws: the
    text is not JSON, or it parses to [null], of which no property can be
    read), and [JSON.stringify] of a cache record. *)
Record Codec := {
  JSON_parse : string -> option CachedData;
  JSON_stringify : CachedData -> string
}.

Inductive Status := Loading | Success | Error.

(** What one mount of the component acts on: its three [useState] cells,
    the [localStorage] of the browser, and the calls made so far to
    [fetch] (their URLs) and to [localStorage.setItem] (key and value),
    oldest first. *)
Record World := {
  data : option GitHubData;
  status : Status;
  error : option string;
  localStorage : gmap string string;
  requests : list string;
  writes : list (string * string)
}.

(** The component as [useState] initialises it, over a given store. *)
Definition mount (store : gmap string string) : World :=
  {| data := None; status := Loading; error := None;
     localStorage := store; requests := []; writes := [] |}.

Definition setData (d : option GitHubData) (w : World) : World :=
  {| data := d; status := status w; error := error w;
     localStorage := localStorage w; requests := requests w;
     writes := writes w |}.

Definition setStatus (s : Status) (w : World) : World :=
  {| data := data w; status := s; error := error w;
     localStorage := localStorage w; requests := requests w;
     writes := writes w |}.

Definition setError (msg : string) (w : World) : World :=
  {| data := data w; status := status w; error := Some msg;
     localStorage := localStorage w; requests := requests w;
     writes := writes w |}.

(** What [response.json().catch(() => ({}))] settles to under a status
    outside 200-299: [null] for the body [null], or else a value with its
    [error] field ([None] when the body has none, is no object, or cannot
    be parsed). *)
Inductive ErrorData :=
| ErrorDataNull
| ErrorDataObject (error : option string).

(** The proxy's answer as [fetchData] reads it: a success status with what
    [response.json()] settles to ([None] is the body [null]), or another
    status with its [errorData]. *)
Inductive ApiResponse :=
| ApiOk (json : Try (option GitHubData))
| ApiNotOk (status : Z) (errorData : ErrorData).

(** What surrounds one mount: the clock at the cache check and at the
    cache write, the time the request takes and what it settles to when
    nothing aborts it, whether the component unmounts while the request is
    pending, whether [localStorage.setItem] throws, and the message the
    browser gives the [TypeError] of reading [error] off [null]. *)
Record Env := {
  now_at_mount : Z;
  now_at_result : Z;
  latency : Z;
  settles : Try ApiResponse;
  unmounted : bool;
  setItem_throws : bool;
  null_error_message : string
}.

(** What the request settles to: its signal is aborted by the cleanup of
    the effect, or by the timer when the timer fires before the answer has
    come (a tie is given to the timer). *)
Definition settled (env : Env) : Try ApiResponse :=
  if unmounted env || (FETCH_TIMEOUT <=? latency env) then inl AbortError
  else settles env.

(** [await fetch(url, { signal })]: the call is recorded. *)
Definition fetch (env : Env) (url : string) (w : World)
    : Try ApiResponse * World :=
  (settled env,
   {| data := data w; status := status w; error := error w;
      localStorage := localStorage w; requests := requests w ++ [url];
      writes := writes w |}).

(** [new Error(msg)]. *)
Definition new_Error (msg : string) : Thrown :=
  {| instanceofError := true; name := "Error"; message := msg |}.

(** [localStorage.setItem(key, value)] inside its [try]: the call is
    recorded, and a write that throws leaves the store as it was. *)
Definition setItem (env : Env) (key value : string) (w : World) : World :=
  {| data := data w; status := status w; error := error w;
     localStorage :=
       if setItem_throws env then localStorage w
       else <[key := value]> (localStorage w);
     requests := requests w;
     writes := writes w ++ [(key, value)] |}.

Section Component.
Context (host : Host) (codec : Codec).

(** The first [try] block of [fetchData]: the cached record when there is
    one that parses, carries the current version and is younger than the
    TTL.  A thrown parse error is caught and leads to the fetch. *)
Definition cache_check (now : Z) (store : gmap string string)
    : option CachedData :=
  match store !! CACHE_KEY with
  | Some cached =>
      if truthy_string cached then
        match JSON_parse codec cached with
        | Some parsed =>
            if (version parsed =? CACHE_VERSION)
               && (now - timestamp parsed <? CACHE_TTL)
            then Some parsed else None
        | None => None
        end
      else None
  | None => None
  end.

(** What the second [try] block makes of the answer, up to
    [const result]: the parsed payload, or the value thrown on the way.
    Under a status outside 200-299, [errorData.error] throws when
    [errorData] is [null]. *)
Definition read_response (env : Env) (answer : Try ApiResponse)
    : Try (option GitHubData) :=
  match answer with
  | inl err => inl err
  | inr (ApiNotOk status ErrorDataNull) =>
      inl {| instanceofError := true;
             name := "TypeError";
             message := null_error_message env |}
  | inr (ApiNotOk status (ErrorDataObject error)) =>
      let fallback := "Failed to fetch: " +:+ Number_toString status in
      inl (new_Error
             match error with
             | Some msg => if truthy_string msg then msg else fallback
             | None => fallback
             end)
  | inr (ApiOk json) => json
  end.

(** [fetchData], run once from the effect on mount. *)
Definition fetchData (env : Env) (w : World) : World :=
  let isMounted := true in
  match cache_check (now_at_mount env) (localStorage w) with
  | Some parsed =>
      if isMounted then setStatus Success (setData (cached_data parsed) w)
      else w
  | None =>
      let '(answer, w) := fetch env API_URL w in
      let isMounted := negb (unmounted env) in
      match read_response env answer with
      | inr result =>
          if isMounted then
            let w := setStatus Success (setData result w) in
            let cacheData :=
              {| cached_data := result;
                 timestamp := now_at_result env;
                 version := CACHE_VERSION |} in
            setItem env CACHE_KEY (JSON_stringify codec cacheData) w
          else w
      | inl err =>
          if isMounted then
            let w :=
              if instanceofError err && (name err =? "AbortError")%string
              then setError "Request timed out. Please try again." w
              else setError (if instanceofError err then message err
                             else "Unable to load GitHub activity") w in
            setStatus Error w
          else w
      end
  end.

Definition formatDate (dateStr : string) : string :=
  toLocaleDateString host (Date_new host dateStr).

Definition formatTooltip (count : Z) (date : string) : string :=
  let formattedDate := formatDate date in
  if count =? 0 then "No contributions on " +:+ formattedDate
  else if count =? 1 then "1 contribution on " +:+ formattedDate
  else Number_toString count +:+ " contributions on " +:+ formattedDate.

(** The [data-tooltip-content] attributes that [renderBlock] attaches, one
    per day cell. *)
Definition tooltips (d : GitHubData) : list string :=
  map (fun activity => formatTooltip (count activity) (date activity))
    (contributions d).

End Component.

End Widget.

(** ** A reference host

    One host that meets what the programs assume: strings are collated by
    code unit, local time is UTC, no string other than a date-only ISO
    string is a date, and dates are written the [en-US] way with a long
    month.  The concrete runs below are made on it. *)

Module Reference.
Import JS.

Definition codeUnitCompare (a b : string) : Z :=
  match String.compare a b with
  | Lt => -1
  | Eq => 0
  | Gt => 1
  end.

Definition DayWithinYear (t : Z) : Z := Day t - DayFromYear (YearFromTime t).

Definition MonthFromTime (t : Z) : Z :=
  let leap := isLeapYear (YearFromTime t) in
  Z.of_nat (length (List.filter (fun m => DaysBeforeMonth leap m <=? DayWithinYear t)
                      [1; 2; 3; 4; 5; 6; 7; 8; 9; 10; 11])).

Definition DateFromTime (t : Z) : Z :=
  DayWithinYear t
  - DaysBeforeMonth (isLeapYear (YearFromTime t)) (MonthFromTime t) + 1.

Definition monthName (m : Z) : string :=
  nth (Z.to_nat m)
    ["January"; "February"; "March"; "April"; "May"; "June"; "July";
     "August"; "September"; "October"; "November"; "December"] "".

Definition longDate (tv : option Z) : string :=
  match tv with
  | Some t =>
      monthName (MonthFromTime t) +:+ " " +:+ Number_toString (DateFromTime t)
        +:+ ", " +:+ Number_toString (YearFromTime t)
  | None => "Invalid Date"
  end.

(** The messages of the two platform errors, as one engine words
    them. *)
Definition null_property (key : string) : string :=
  "Cannot read properties of null (reading '" +:+ key +:+ "')".

Definition Response_status (status : Z) : string :=
  if (status <? 200) || (599 <? status) then
    "The status provided (" +:+ Number_toString status
      +:+ ") is outside the range [200, 599]."
  else "Response with null body status cannot have body".

Definition utcHost : Host :=
  {| localeCompare := codeUnitCompare;
     LocalTZA := fun _ => 0;
     Date_parse_other := fun _ => None;
     toLocaleDateString := longDate;
     null_property_message := null_property;
     Response_status_message := Response_status |}.

(** A host five hours behind UTC. *)
Definition westHost : Host :=
  {| localeCompare := codeUnitCompare;
     LocalTZA := fun _ => -18000000;
     Date_parse_other := fun _ => None;
     toLocaleDateString := longDate;
     null_property_message := null_property;
     Response_status_message := Response_status |}.

(** The upstream call settling at once with status 200 and body [data]. *)
Definition upstream_of (data : Proxy.ExternalApiResponse) : Proxy.Upstream :=
  {| Proxy.latency := 120;
     Proxy.settles :=
       inr {| Proxy.upstream_status := 200;
              Proxy.upstream_json := inr (Proxy.JsonData data) |} |}.

Definition day (d : string) (n l : Z) : Proxy.ExternalActivity :=
  {| Proxy.date := d; Proxy.count := n; Proxy.level := l |}.

(** The scenario of the specification: two days of 2024 and two yearly
    totals. *)
Definition scenario : Proxy.ExternalApiResponse :=
  {| Proxy.total := Proxy.TotalRecord [("2023", 100); ("2024", 50)];
     Proxy.contributions :=
       Proxy.ContributionsArray
         [day "2024-01-01" 2 1; day "2024-01-02" 0 0] |}.

(** Days out of order, one of them after the day of the request. *)
Definition shuffled : Proxy.ExternalApiResponse :=
  {| Proxy.total := Proxy.TotalRecord [("2023", 7); ("2024", 5)];
     Proxy.contributions :=
       Proxy.ContributionsArray
         [day "2024-01-02" 4 2; day "2023-12-31" 1 1; day "2024-01-09" 9 4;
          day "2024-01-01" 0 0] |}.

(** A body whose [total] is a number and whose array is empty. *)
Definition numeric_total : Proxy.ExternalApiResponse :=
  {| Proxy.total := Proxy.TotalNumber 5;
     Proxy.contributions := Proxy.ContributionsArray [] |}.

(** A body with counts and totals beyond the safe integers: 2^53 and 1. *)
Definition huge_counts : Proxy.ExternalApiResponse :=
  {| Proxy.total :=
       Proxy.TotalRecord [("2023", 9007199254740992); ("2024", 1)];
     Proxy.contributions :=
       Proxy.ContributionsArray
         [day "2024-01-01" 9007199254740992 4; day "2024-01-02" 1 1] |}.

(** A body whose array is empty. *)
Definition no_entries : Proxy.ExternalApiResponse :=
  {| Proxy.total := Proxy.TotalRecord [("2024", 0)];
     Proxy.contributions := Proxy.ContributionsArray [] |}.

(** A body with no [contributions] field. *)
Definition missing_contributions : Proxy.ExternalApiResponse :=
  {| Proxy.total := Proxy.TotalRecord [("2024", 50)];
     Proxy.contributions := Proxy.ContributionsUndefined |}.

(** A body with an entry that is no calendar date and has a negative
    count. *)
Definition unchecked_entry : Proxy.ExternalApiResponse :=
  {| Proxy.total := Proxy.TotalRecord [("2023", 3)];
     Proxy.contributions :=
       Proxy.ContributionsArray [day "2023-13-45" (-1) 0] |}.

(** An outbound call that is still pending when the timer fires. *)
Definition slow_upstream : Proxy.Upstream :=
  {| Proxy.latency := 10001;
     Proxy.settles :=
       inr {| Proxy.upstream_status := 200;
              Proxy.upstream_json := inr (Proxy.JsonData scenario) |} |}.

(** An outbound call that fails in transport. *)
Definition transport_error : Thrown :=
  {| instanceofError := true; name := "TypeError"; message := "fetch failed" |}.

Definition failed_upstream : Proxy.Upstream :=
  {| Proxy.latency := 35; Proxy.settles := inl transport_error |}.

(** A payload, and the cache record that holds it. *)
Definition sample_data : Widget.GitHubData :=
  {| Widget.contributions :=
       [ {| Widget.date := "2024-01-01"; Widget.count := 2; Widget.level := 1 |};
         {| Widget.date := "2024-01-02"; Widget.count := 0; Widget.level := 0 |} ];
     Widget.lastYearTotal := 2;
     Widget.allTimeTotal := 150;
     Widget.yearRange := "2024" |}.

Definition sample_record (version written : Z) : Widget.CachedData :=
  {| Widget.cached_data := Some sample_data;
     Widget.timestamp := written;
     Widget.version := version |}.

(** A decimal numeral read back as a number. *)
Definition read_number (s : string) : option Z :=
  Z.of_int <$> NilZero.int_of_string s.

(** The reference codec writes a record as its version and its timestamp
    around an [@], and reads such a text back as a record of
    [sample_data]; it throws on any other text. *)
Definition sample_codec : Widget.Codec :=
  {| Widget.JSON_parse := fun s =>
       i ← String.index 0 "@" s;
       v ← read_number (String.substring 0 i s);
       t ← read_number (String.substring (S i) (String.length s) s);
       Some (sample_record v t);
     Widget.JSON_stringify := fun c =>
       Number_toString (Widget.version c) +:+ "@"
         +:+ Number_toString (Widget.timestamp c) |}.

(** A mount whose request is answered with [sample_data]. *)
Definition answered (now : Z) : Widget.Env :=
  {| Widget.now_at_mount := now;
     Widget.now_at_result := now + 80;
     Widget.latency := 80;
     Widget.settles := inr (Widget.ApiOk (inr (Some sample_data)));
     Widget.unmounted := false;
     Widget.setItem_throws := false;
     Widget.null_error_message := null_property "error" |}.

(** A mount whose request is answered with status 502. *)
Definition refused (now : Z) : Widget.Env :=
  {| Widget.now_at_mount := now;
     Widget.now_at_result := now + 80;
     Widget.latency := 80;
     Widget.settles :=
       inr (Widget.ApiNotOk 502
              (Widget.ErrorDataObject
                 (Some "Invalid data structure from GitHub API")));
     Widget.unmounted := false;
     Widget.setItem_throws := false;
     Widget.null_error_message := null_property "error" |}.

(** A store that holds one cache record, and one that holds a text that
    is no record. *)
Definition stored (version written : Z) : gmap string string :=
  {[ Widget.CACHE_KEY :=
       Widget.JSON_stringify sample_codec (sample_record version written) ]}.

Definition corrupted : gmap string string :=
  {[ Widget.CACHE_KEY := "{ data: " ]}.

End Reference.

(** ** The earlier route ([GET] without timer and checks)

    The version of the route that came before: it passes the parsed body
    of the external service on as it is, has no timer, and its [catch]
    clause knows one answer only. *)

Module Passthrough.
Import JS.

(** The body the route serialises: the parsed upstream body, or an error
    object. *)
Inductive Body :=
| ErrorBody (error : string)
| DataBody (data : Proxy.Json).

Record Response := {
  status : Z;
  headers : list (string * string);
  body : Body
}.

Definition error_response (error : string) (status : Z) : Response :=
  {| status := status;
     headers := [("Content-Type", "application/json")];
     body := ErrorBody error |}.

(** [await fetch(EXTERNAL_API_URL)]: no signal, so the call settles to
    what the external service gives, however long it takes. *)
Definition fetch (u : Proxy.Upstream) : Try Proxy.UpstreamResponse :=
  Proxy.settles u.

(** The [catch] clause. *)
Definition catch (error : Thrown) : Response :=
  let message := if instanceofError error then message error
                 else "Unknown error" in
  error_response message 500.

Section Route.
Context (host : Host).

(** [new Response(body, { status, headers })], as in the route. *)
Definition Response_new (response : Response) : Try Response :=
  if (status response <? 200) || (599 <? status response) then
    inl {| instanceofError := true;
           name := "RangeError";
           message := Response_status_message host (status response) |}
  else if Proxy.null_body_status (status response) then
    inl {| instanceofError := true;
           name := "TypeError";
           message := Response_status_message host (status response) |}
  else inr response.

(** The [try] block. *)
Definition GET_try (u : Proxy.Upstream) : Try Response :=
  response ← fetch u;
  if negb (Proxy.ok response) then
    Response_new
      (error_response
         ("Failed to fetch GitHub data: "
            +:+ Number_toString (Proxy.upstream_status response))
         (Proxy.upstream_status response))
  else
    data ← Proxy.upstream_json response;
    mret {| status := 200;
            headers :=
              [("Content-Type", "application/json");
               ("Cache-Control", "public, max-age=3600, s-maxage=3600")];
            body := DataBody data |}.

Definition GET (u : Proxy.Upstream) : Response :=
  match GET_try u with
  | inr response => response
  | inl error => catch error
  end.

End Route.

End Passthrough.

(** ** What the widget renders

    The JSX the component returns, reduced to what depends on its state:
    the profile link, the summary line, and the three panels. *)

Module WidgetView.
Import JS Widget.

(** [SITE_CONFIG.social.github.username]. *)
Definition GITHUB_USERNAME : string := "HendoBuilds".

(** The two numbers of the summary line, as formatted. *)
Record Summary := {
  lastYear_text : string;
  allTime_text : string
}.

(** The [ActivityCalendar] element: its [data], and the
    [data-tooltip-content] that [renderBlock] gives each block. *)
Record Calendar := {
  calendar_data : list Activity;
  block_tooltips : list string
}.

(** [alert] holds what [{error}] renders inside the panel: the text, or
    nothing for [null]. *)
Record View := {
  profile_href : string;
  profile_label : string;
  summary : option Summary;
  loading : bool;
  alert : option (option string);
  calendar : option Calendar
}.

Definition Status_eqb (a b : Status) : bool :=
  match a, b with
  | Loading, Loading | Success, Success | Error, Error => true
  | _, _ => false
  end.

(** [status === "success" && data]: the data when both hold. *)
Definition success_data (w : World) : option GitHubData :=
  if Status_eqb (status w) Success then data w else None.

Section Render.
Context (host : Host).

(** [Number.prototype.toLocaleString()] in the locale of the browser. *)
Context (Number_toLocaleString : Z -> string).

Definition render (w : World) : View :=
  {| profile_href := "https://github.com/" +:+ GITHUB_USERNAME;
     profile_label := "Visit " +:+ GITHUB_USERNAME +:+ "'s GitHub profile";
     summary :=
       match success_data w with
       | Some d =>
           Some {| lastYear_text := Number_toLocaleString (lastYearTotal d);
                   allTime_text := Number_toLocaleString (allTimeTotal d) |}
       | None => None
       end;
     loading := Status_eqb (status w) Loading;
     alert := if Status_eqb (status w) Error then Some (error w) else None;
     calendar :=
       match success_data w with
       | Some d =>
           Some {| calendar_data := contributions d;
                   block_tooltips := tooltips host d |}
       | None => None
       end |}.

End Render.

End WidgetView.

(** ** The page and the route together

    The response of the route as the [fetch] of the widget reads it. *)

Module Transport.
Import JS.

Definition activity_of (a : Proxy.ExternalActivity) : Widget.Activity :=
  {| Widget.date := Proxy.date a;
     Widget.count := Proxy.count a;
     Widget.level := Proxy.level a |}.

(** The payload, serialised by the route and parsed by the widget. *)
Definition data_of (p : Proxy.ActivityPayload) : Widget.GitHubData :=
  {| Widget.contributions := map activity_of (Proxy.payload_contributions p);
     Widget.lastYearTotal := Proxy.lastYearTotal p;
     Widget.allTimeTotal := Proxy.allTimeTotal p;
     Widget.yearRange := Proxy.yearRange p |}.

(** [response.ok] on the side of the widget. *)
Definition ok (r : Proxy.Response) : bool :=
  (200 <=? Proxy.status r) && (Proxy.status r <=? 299).

(** What the widget reads off a response.  A payload under a status
    outside 200-299 is an [errorData] with no [error] field.  An error
    object under a status inside 200-299 would be read as the payload;
    it does not have the shape of [GitHubData], and has no counterpart
    here. *)
Definition received (r : Proxy.Response) : option Widget.ApiResponse :=
  match Proxy.body r with
  | Proxy.PayloadBody p =>
      Some (if ok r then Widget.ApiOk (inr (Some (data_of p)))
            else Widget.ApiNotOk (Proxy.status r)
                   (Widget.ErrorDataObject None))
  | Proxy.ErrorBody e =>
      if ok r then None
      else Some (Widget.ApiNotOk (Proxy.status r)
                   (Widget.ErrorDataObject (Some e)))
  end.

End Transport.

(** ** The sitemap options ([astro.config])

    The [filter] and [serialize] callbacks given to the sitemap
    integration. *)

Module Sitemap.

(** [String.prototype.includes]: the search string starts at some
    position. *)
Fixpoint includes (searchString s : string) : bool :=
  String.prefix searchString s
  || match s with
     | EmptyString => false
     | String _ rest => includes searchString rest
     end.

(** The pattern [/\/(about|cv|projects)(\/|$)/] matched at the start of
    [s]: a slash, one of the three words, then a slash or the end of the
    input. *)
Definition match_here (s : string) : bool :=
  existsb (fun word =>
             String.prefix ("/" +:+ word +:+ "/") s
             || (s =? "/" +:+ word)%string)
    ["about"; "cv"; "projects"].

(** [url.match(pattern)] is not [null]: the pattern matches at some
    position. *)
Fixpoint matches (s : string) : bool :=
  match_here s
  || match s with
     | EmptyString => false
     | String _ rest => matches rest
     end.

(** The fields of a sitemap item that [serialize] reads or writes. *)
Record SitemapItem := {
  url : string;
  priority : option QArith_base.Q;
  changefreq : option string;
  lastmod : option string
}.

(** [filter: (page) => !page.includes('/404')]. *)
Definition filter (page : string) : bool := negb (includes "/404" page).

(** [serialize(item)]; [now] is [new Date().toISOString()] at build
    time. *)
Definition serialize (now : string) (item : SitemapItem) : SitemapItem :=
  let item :=
    if (url item =? "https://shayhenderson.dev/")%string then
      {| url := url item;
         priority := Some (QArith_base.Qmake 1 1);
         changefreq := Some "weekly";
         lastmod := lastmod item |}
    else if matches (url item) then
      {| url := url item;
         priority := Some (QArith_base.Qmake 8 10);
         changefreq := Some "monthly";
         lastmod := lastmod item |}
    else
      {| url := url item;
         priority := Some (QArith_base.Qmake 6 10);
         changefreq := Some "monthly";
         lastmod := lastmod item |} in
  {| url := url item;
     priority := priority item;
     changefreq := changefreq item;
     lastmod := Some now |}.

End Sitemap.

(** ** The error boundary ([ErrorBoundary]) *)

Module ErrorBoundary.
Import JS.

(** A [ReactNode]: one of the values that render nothing, a text, a
    number, or an element with its class and children. *)
#[warnings="-register-all"] Inductive ReactNode :=
| NodeUndefined
| NodeNull
| NodeBoolean (b : bool)
| NodeNumber (n : Z)
| NodeString (s : string)
| NodeElement (tag className : string) (children : list ReactNode).

Record ErrorBoundaryProps := {
  children : ReactNode;
  fallback : ReactNode
}.

Record ErrorBoundaryState := {
  hasError : bool;
  error : option Thrown
}.

(** The state the constructor sets. *)
Definition initial : ErrorBoundaryState :=
  {| hasError := false; error := None |}.

Definition getDerivedStateFromError (error : Thrown) : ErrorBoundaryState :=
  {| hasError := true; error := Some error |}.

(** [componentDidCatch]: what it writes to the console; [DEV] is
    [import.meta.env.DEV]. *)
Definition componentDidCatch (DEV : bool) (error : Thrown) (errorInfo : string)
    : list (string * Thrown * string) :=
  if DEV then [("ErrorBoundary caught an error:", error, errorInfo)] else [].

Definition truthy (node : ReactNode) : bool :=
  match node with
  | NodeUndefined | NodeNull => false
  | NodeBoolean b => b
  | NodeNumber n => negb (n =? 0)
  | NodeString s => truthy_string s
  | NodeElement _ _ _ => true
  end.

(** The panel rendered when no fallback is given. *)
Definition default_panel : ReactNode :=
  NodeElement "div"
    "rounded-lg border border-destructive/20 bg-destructive/10 p-4 text-center"
    [NodeElement "p" "text-sm text-muted-foreground"
       [NodeString "Failed to load component"]].

Definition render (props : ErrorBoundaryProps) (state : ErrorBoundaryState)
    : ReactNode :=
  if hasError state then
    if truthy (fallback props) then fallback props else default_panel
  else children props.

(** The boundary over time: React calls [getDerivedStateFromError] and
    [componentDidCatch] for each error thrown below the boundary; nothing
    else sets the state.  The console is kept oldest first. *)
Definition caught (DEV : bool)
    (acc : ErrorBoundaryState * list (string * Thrown * string))
    (thrown : Thrown * string)
    : ErrorBoundaryState * list (string * Thrown * string) :=
  (getDerivedStateFromError (fst thrown),
   snd acc ++ componentDidCatch DEV (fst thrown) (snd thrown)).

Definition run (DEV : bool) (errors : list (Thrown * string))
    : ErrorBoundaryState * list (string * Thrown * string) :=
  fold_left (caught DEV) errors (initial, []).

End ErrorBoundary.

(** ** The earlier widget: selection on the client

    Before the route selected the window, the widget did: it read the
    body of the external service, passed on by the earlier route, and
    chose what to show.  This is the part of its effect between the parse
    of the answer and the state updates. *)

Module EarlierWidget.
Import JS.

(** What the widget puts into its state and its cache. *)
Record Selection := {
  selected : list Proxy.ExternalActivity;
  selected_yearRange : string;
  selected_total : Z
}.

(** The value of an own property of a record, if it has one. *)
Definition property (key : string) (entries : list (string * Z)) : option Z :=
  snd <$> List.find (fun entry => (fst entry =? key)%string) entries.

(** [json.total[currentYear]] and [json.total["lastYear"]], once
    [json.total] is known to be truthy; [None] is [undefined]. *)
Definition total_at_year (t : Proxy.Total) (year : Z) : option Z :=
  match t with
  | Proxy.TotalRecord entries => property (Number_toString year) entries
  | Proxy.TotalArray values =>
      if 0 <=? year then nth_error values (Z.to_nat year) else None
  | _ => None
  end.

Definition total_lastYear (t : Proxy.Total) : option Z :=
  match t with
  | Proxy.TotalRecord entries => property "lastYear" entries
  | _ => None
  end.

(** [a || b], where [b] is a number. *)
Definition or_else (a : option Z) (b : Z) : Z :=
  match a with
  | Some n => if n =? 0 then b else n
  | None => b
  end.

Section Selection.
Context (host : Host).

(** From the structure check to [const total], on the browser [host].
    [currentYear] is [new Date().getFullYear()].  Reading
    [json.contributions] throws when the parsed body is [null].
    ([typeof sample.count !== 'number'] is false of every entry here, a
    count being a number.) *)
Definition select (currentYear : Z) (parsed : Proxy.Json) : Try Selection :=
  json ← Proxy.read_body host parsed;
  if Proxy.invalid_structure json then
    inl (Widget.new_Error "Invalid data structure received")
  else
    let contributions := Proxy.entries_of (Proxy.contributions json) in
    if match contributions with
       | sample :: _ => negb (truthy_string (Proxy.date sample))
       | [] => false
       end
    then inl (Widget.new_Error "Invalid contribution data format")
    else
      let sortedContributions :=
        Array_sort
          (fun a b => localeCompare host (Proxy.date a) (Proxy.date b))
          contributions in
      let lastYearData := Array_slice (-365) sortedContributions in
      let yearRange := Proxy.yearRange_of host lastYearData in
      let total :=
        or_else (total_at_year (Proxy.total json) currentYear)
          (or_else (total_lastYear (Proxy.total json))
             (Array_reduce (fun sum day => Number_add sum (Proxy.count day))
                0 lastYearData)) in
      inr {| selected := lastYearData;
             selected_yearRange := yearRange;
             selected_total := total |}.

End Selection.

End EarlierWidget.

(** ** Facts about the built-ins *)

Module JSFacts.
Import JS.

(** A consistent comparator, as ECMAScript requires of the argument of
    [Array.prototype.sort] for the result to be sorted: [a =C b] is
    [compareFn a b = 0], [a <C b] is [compareFn a b < 0] and [a >C b] is
    [0 < compareFn a b]. *)
Record ConsistentComparator {A : Type} (compareFn : A -> A -> Z) : Prop := {
  comparator_refl : forall a, compareFn a a = 0;
  comparator_sym : forall a b, compareFn a b = 0 -> compareFn b a = 0;
  comparator_eq_trans : forall a b c,
    compareFn a b = 0 -> compareFn b c = 0 -> compareFn a c = 0;
  comparator_lt_trans : forall a b c,
    compareFn a b < 0 -> compareFn b c < 0 -> compareFn a c < 0;
  comparator_gt_trans : forall a b c,
    0 < compareFn a b -> 0 < compareFn b c -> 0 < compareFn a c
}.

(** [a] may stand before [b] in an array sorted by [compareFn]. *)
Definition before {A : Type} (compareFn : A -> A -> Z) (a b : A) : Prop :=
  compareFn a b <= 0.

(** The exact sum of a list of integers. *)
Definition sum (l : list Z) : Z := fold_right Z.add 0 l.

Section Sorting.
Context {A : Type} (compareFn : A -> A -> Z).

Lemma sort_insert_Permutation x l :
  Permutation (x :: l) (sort_insert compareFn x l).
Proof.
  induction l as [|y l IH]; simpl.
  - reflexivity.
  - destruct (compareFn x y <=? 0).
    + reflexivity.
    + rewrite perm_swap. now apply perm_skip.
Qed.

Lemma Array_sort_Permutation l : Permutation l (Array_sort compareFn l).
Proof.
  induction l as [|x l IH]; simpl.
  - constructor.
  - etransitivity; [apply perm_skip, IH | apply sort_insert_Permutation].
Qed.

Lemma sort_insert_Forall (P : A -> Prop) x l :
  P x -> Forall P l -> Forall P (sort_insert compareFn x l).
Proof.
  intros Hx Hl. eapply Permutation_Forall; [apply sort_insert_Permutation|].
  now constructor.
Qed.

Context (consistent : ConsistentComparator compareFn).

Lemma comparator_flip a b : 0 < compareFn a b -> compareFn b a < 0.
Proof.
  intros Hab.
  destruct (Z.lt_trichotomy (compareFn b a) 0) as [Hlt|[Heq|Hgt]]; [assumption| |].
  - apply (comparator_sym _ consistent) in Heq. lia.
  - pose proof (comparator_gt_trans _ consistent a b a Hab Hgt) as H.
    rewrite (comparator_refl _ consistent) in H. lia.
Qed.

Lemma comparator_flip_lt a b : compareFn a b < 0 -> 0 < compareFn b a.
Proof.
  intros Hab.
  destruct (Z.lt_trichotomy (compareFn b a) 0) as [Hlt|[Heq|Hgt]]; [| |lia].
  - pose proof (comparator_lt_trans _ consistent a b a Hab Hlt) as H.
    rewrite (comparator_refl _ consistent) in H. lia.
  - apply (comparator_sym _ consistent) in Heq. lia.
Qed.

Lemma before_trans a b c :
  before compareFn a b -> before compareFn b c -> before compareFn a c.
Proof.
  unfold before. intros Hab Hbc.
  destruct (Z_le_gt_dec (compareFn a c) 0) as [H|Hac]; [assumption|exfalso].
  assert (Hca : compareFn c a < 0) by (apply comparator_flip; lia).
  assert (Hab' : compareFn a b < 0 \/ compareFn a b = 0) by lia.
  assert (Hbc' : compareFn b c < 0 \/ compareFn b c = 0) by lia.
  destruct Hab' as [Hab'|Hab'], Hbc' as [Hbc'|Hbc'].
  - pose proof (comparator_lt_trans _ consistent _ _ _ Hab' Hbc'). lia.
  - pose proof (comparator_lt_trans _ consistent _ _ _ Hca Hab') as H.
    apply (comparator_sym _ consistent) in Hbc'. lia.
  - pose proof (comparator_lt_trans _ consistent _ _ _ Hbc' Hca) as H.
    apply (comparator_sym _ consistent) in Hab'. lia.
  - pose proof (comparator_eq_trans _ consistent _ _ _ Hab' Hbc') as H. lia.
Qed.

Lemma sort_insert_sorted x l :
  StronglySorted (before compareFn) l ->
  StronglySorted (before compareFn) (sort_insert compareFn x l).
Proof.
  induction 1 as [|y l Hl IH Hy]; simpl.
  - repeat constructor.
  - destruct (Z.leb_spec (compareFn x y) 0) as [Hxy|Hxy].
    + constructor; [now constructor|].
      constructor; [exact Hxy|].
      eapply List.Forall_impl; [|exact Hy].
      intros z Hz. now apply before_trans with y.
    + constructor; [exact IH|].
      apply sort_insert_Forall; [|exact Hy].
      unfold before. apply comparator_flip in Hxy; lia.
Qed.

(** A consistent comparator leaves the array sorted. *)
Lemma Array_sort_sorted l :
  StronglySorted (before compareFn) (Array_sort compareFn l).
Proof.
  induction l as [|x l IH]; simpl; [constructor|now apply sort_insert_sorted].
Qed.

End Sorting.

Section Slices.
Context {A : Type}.

(** A slice with one argument is a suffix of the array. *)
Lemma Array_slice_suffix start (l : list A) :
  exists front, l = front ++ Array_slice start l.
Proof.
  unfold Array_slice. eexists. symmetry. apply firstn_skipn.
Qed.

Lemma Array_slice_incl start (l : list A) x :
  In x (Array_slice start l) -> In x l.
Proof.
  destruct (Array_slice_suffix start l) as [front E]. intros Hx.
  rewrite E. apply in_or_app. now right.
Qed.

(** [slice(-n)] keeps at most [n] elements... *)
Lemma Array_slice_last_length n (l : list A) :
  0 < n -> (length (Array_slice (- n) l) <= Z.to_nat n)%nat.
Proof.
  intros Hn. unfold Array_slice. rewrite length_skipn.
  destruct (Z.ltb_spec (- n) 0); lia.
Qed.

(** ... and the whole array when it has no more than [n]. *)
Lemma Array_slice_last_all n (l : list A) :
  0 < n -> (length l <= Z.to_nat n)%nat -> Array_slice (- n) l = l.
Proof.
  intros Hn Hl. unfold Array_slice.
  destruct (Z.ltb_spec (- n) 0); [|lia].
  replace (Z.to_nat _) with 0%nat by lia. reflexivity.
Qed.

Lemma StronglySorted_suffix (R : A -> A -> Prop) (front l : list A) :
  StronglySorted R (front ++ l) -> StronglySorted R l.
Proof.
  induction front as [|x front IH]; simpl; [trivial|].
  intros H. apply IH. now inversion H.
Qed.

Lemma Array_slice_sorted (R : A -> A -> Prop) start (l : list A) :
  StronglySorted R l -> StronglySorted R (Array_slice start l).
Proof.
  destruct (Array_slice_suffix start l) as [front E]. intros H.
  rewrite E in H. now apply StronglySorted_suffix in H.
Qed.

End Slices.

(** *** Sums of Numbers *)

(** Every partial sum of the list, taken from the left and starting at
    [acc], is a safe integer. *)
Fixpoint safe_from (acc : Z) (l : list Z) : bool :=
  match l with
  | [] => true
  | x :: l' => Number_isSafeInteger (acc + x) && safe_from (acc + x) l'
  end.

Definition safe_sums (l : list Z) : bool := safe_from 0 l.

(** A safe integer is a Number: rounding leaves it as it is. *)
Lemma Number_round_safe x :
  Number_isSafeInteger x = true -> Number_round x = x.
Proof.
  unfold Number_isSafeInteger, Number_round. intros H.
  apply Z.leb_le in H.
  destruct (Z.ltb_spec (Z.abs x) (2 ^ 53)); [reflexivity|lia].
Qed.

Lemma Number_round_nonneg x : 0 <= x -> 0 <= Number_round x.
Proof.
  intros H. unfold Number_round.
  destruct (Z.abs x <? 2 ^ 53); [exact H|].
  set (ulp := 2 ^ (Z.log2 (Z.abs x) - 52)).
  assert (Hu : 0 <= ulp) by (apply Z.pow_nonneg; lia).
  assert (Hq : 0 <= Z.abs x / ulp).
  { destruct (Z.eq_dec ulp 0) as [->|Hn]; [now rewrite Z.div_0_r|].
    apply Z.div_pos; lia. }
  apply Z.mul_nonneg_nonneg; [lia|].
  apply Z.mul_nonneg_nonneg; [|exact Hu].
  destruct (2 * (Z.abs x mod ulp) <? ulp); [exact Hq|].
  destruct (ulp <? 2 * (Z.abs x mod ulp)); [lia|].
  destruct (Z.even (Z.abs x / ulp)); lia.
Qed.

(** Summing with an accumulator from the left gives the exact sum as long
    as the partial sums are safe integers. *)
Lemma reduce_add_sum {A : Type} (f : A -> Z) (l : list A) (acc : Z) :
  safe_from acc (map f l) = true ->
  Array_reduce (fun s x => Number_add s (f x)) acc l = acc + sum (map f l).
Proof.
  unfold Array_reduce, sum. revert acc.
  induction l as [|x l IH]; intros acc H; simpl in *; [lia|].
  apply andb_true_iff in H as [Hx Hl].
  assert (E : Number_add acc (f x) = acc + f x)
    by (apply Number_round_safe; exact Hx).
  rewrite E, (IH _ Hl). lia.
Qed.

(** A sum of Numbers none of which is negative is not negative. *)
Lemma reduce_add_nonneg {A : Type} (f : A -> Z) (l : list A) (acc : Z) :
  0 <= acc -> (forall x, In x l -> 0 <= f x) ->
  0 <= Array_reduce (fun s x => Number_add s (f x)) acc l.
Proof.
  unfold Array_reduce. revert acc.
  induction l as [|x l IH]; intros acc Ha H; simpl; [exact Ha|].
  apply IH.
  - apply Number_round_nonneg. specialize (H x (or_introl eq_refl)). lia.
  - intros y Hy. apply H. now right.
Qed.

(** Numbers that are not negative and whose sum is a safe integer have
    safe partial sums. *)
Lemma safe_from_nonneg (l : list Z) (acc : Z) :
  0 <= acc -> List.Forall (fun x => 0 <= x) l -> acc + sum l <= 2 ^ 53 - 1 ->
  safe_from acc l = true.
Proof.
  revert acc. induction l as [|x l IH]; intros acc Ha Hl Hs; [reflexivity|].
  inversion Hl as [|? ? Hx Hl']; subst. simpl in *.
  assert (0 <= sum l).
  { clear -Hl'. induction Hl'; simpl; lia. }
  apply andb_true_iff. split.
  - unfold Number_isSafeInteger. apply Z.leb_le. lia.
  - apply IH; [lia|assumption|lia].
Qed.

(** *** The calendar *)

Lemma DayFromYear_succ y : DayFromYear (y + 1) = DayFromYear y + DaysInYear y.
Proof.
  unfold DayFromYear, DaysInYear, isLeapYear.
  destruct (y mod 4 =? 0) eqn:E4; destruct (y mod 100 =? 0) eqn:E100;
    destruct (y mod 400 =? 0) eqn:E400; simpl;
    rewrite ?Z.eqb_eq, ?Z.eqb_neq in *; Z.div_mod_to_equations; lia.
Qed.

(** [YearFromTime] is the year ECMAScript defines: the one whose first
    instant is at or before [t] while the next year starts after [t]. *)
Lemma YearFromTime_spec t :
  TimeFromYear (YearFromTime t) <= t < TimeFromYear (YearFromTime t + 1).
Proof.
  unfold TimeFromYear, YearFromTime, Day, msPerDay, DayFromYear.
  repeat match goal with
         | |- context [?a <? ?b] => destruct (Z.ltb_spec a b)
         end;
    Z.div_mod_to_equations; lia.
Qed.

Lemma YearFromTime_unique t y :
  TimeFromYear y <= t < TimeFromYear (y + 1) -> YearFromTime t = y.
Proof.
  unfold TimeFromYear, YearFromTime, Day, msPerDay, DayFromYear.
  intros H.
  repeat match goal with
         | |- context [?a <? ?b] => destruct (Z.ltb_spec a b)
         end;
    Z.div_mod_to_equations; lia.
Qed.

Lemma digit_range c a : digit c = Some a -> 0 <= a <= 9.
Proof.
  unfold digit. destruct (_ && _) eqn:E; [|discriminate].
  intros [= <-]. apply andb_true_iff in E as [E1 E2]. lia.
Qed.

(** A string read as a date-only ISO string names a day of the calendar. *)
Lemma parse_iso_date_valid s y m d :
  parse_iso_date s = Some (y, m, d) ->
  0 <= y <= 9999 /\ 1 <= m <= 12 /\ 1 <= d <= DaysInMonth y m.
Proof.
  unfold parse_iso_date.
  destruct (list_ascii_of_string s)
    as [|y1 [|y2 [|y3 [|y4 [|h1 [|m1 [|m2 [|h2 [|d1 [|d2 [|? ?]]]]]]]]]]];
    try discriminate.
  destruct (_ && _); [|discriminate].
  destruct (digit y1) as [a|] eqn:Ea; [|discriminate].
  destruct (digit y2) as [b|] eqn:Eb; [|discriminate].
  destruct (digit y3) as [c|] eqn:Ec; [|discriminate].
  destruct (digit y4) as [e|] eqn:Ee; [|discriminate].
  destruct (digit m1) as [f|] eqn:Ef; [|discriminate].
  destruct (digit m2) as [g|] eqn:Eg; [|discriminate].
  destruct (digit d1) as [h|] eqn:Eh; [|discriminate].
  destruct (digit d2) as [i|] eqn:Ei; [|discriminate].
  simpl.
  destruct (_ && _) eqn:E; [|discriminate].
  intros [= <- <- <-].
  apply digit_range in Ea, Eb, Ec, Ee.
  repeat (apply andb_true_iff in E as [E ?]).
  lia.
Qed.

(** The day number of a calendar date lies within its year. *)
Lemma MakeDay_within_year y m d :
  1 <= m <= 12 -> 1 <= d <= DaysInMonth y m ->
  DayFromYear y <= MakeDay y (m - 1) d < DayFromYear (y + 1).
Proof.
  intros Hm Hd. rewrite DayFromYear_succ.
  unfold MakeDay.
  replace ((m - 1) / 12) with 0 by (Z.div_mod_to_equations; lia).
  replace ((m - 1) mod 12) with (m - 1) by (Z.div_mod_to_equations; lia).
  rewrite Z.add_0_r.
  unfold DaysInYear, DaysBeforeMonth, DaysInMonth in *.
  assert (Hcases : m = 1 \/ m = 2 \/ m = 3 \/ m = 4 \/ m = 5 \/ m = 6 \/ m = 7
                   \/ m = 8 \/ m = 9 \/ m = 10 \/ m = 11 \/ m = 12) by lia.
  destruct (isLeapYear y);
    repeat (destruct Hcases as [->|Hcases]); try subst m; simpl in *; lia.
Qed.

(** On a host whose local time is UTC or ahead of it by less than a day,
    [new Date(s).getFullYear()] of a date-only ISO string is the year the
    string names. *)
Lemma getFullYear_iso host s y m d :
  (forall t, 0 <= LocalTZA host t < msPerDay) ->
  parse_iso_date s = Some (y, m, d) ->
  getFullYear host (Date_new host s) = Some y.
Proof.
  intros Htz Hp. unfold Date_new. rewrite Hp. simpl. f_equal.
  apply parse_iso_date_valid in Hp as (_ & Hm & Hd).
  pose proof (MakeDay_within_year y m d Hm Hd) as Hday.
  apply YearFromTime_unique.
  unfold LocalTime, MakeDate, TimeFromYear.
  specialize (Htz (MakeDay y (m - 1) d * msPerDay + 0)).
  unfold msPerDay in *. lia.
Qed.

Lemma list_ascii_of_string_app s1 s2 :
  list_ascii_of_string (s1 +:+ s2)
  = list_ascii_of_string s1 ++ list_ascii_of_string s2.
Proof. induction s1 as [|c s1 IH]; simpl; [reflexivity|now rewrite IH]. Qed.

End JSFacts.

(** ** The reference host is a host *)

Module ReferenceFacts.
Import JS JSFacts Reference.

Lemma compare_refl s : String.compare s s = Eq.
Proof.
  induction s as [|c s IH]; simpl; [reflexivity|].
  unfold Ascii.compare. now rewrite N.compare_refl.
Qed.

Lemma compare_lt_trans a b c :
  String.compare a b = Lt -> String.compare b c = Lt -> String.compare a c = Lt.
Proof.
  revert b c. induction a as [|x a IH]; intros [|y b] [|z c]; simpl;
    try discriminate; try reflexivity.
  unfold Ascii.compare.
  destruct (N.compare_spec (N_of_ascii x) (N_of_ascii y)) as [Exy|Lxy|Gxy];
    try discriminate;
    destruct (N.compare_spec (N_of_ascii y) (N_of_ascii z)) as [Eyz|Lyz|Gyz];
    try discriminate; intros Hab Hbc.
  - rewrite Exy, Eyz, N.compare_refl. now apply IH with b.
  - rewrite Exy. now apply N.compare_lt_iff in Lyz as ->.
  - rewrite <- Eyz. now apply N.compare_lt_iff in Lxy as ->.
  - assert (H : (N_of_ascii x < N_of_ascii z)%N) by lia.
    now apply N.compare_lt_iff in H as ->.
Qed.

Lemma codeUnitCompare_lt a b :
  codeUnitCompare a b < 0 <-> String.compare a b = Lt.
Proof. unfold codeUnitCompare. destruct (String.compare a b); split; (lia || discriminate || reflexivity). Qed.

Lemma codeUnitCompare_gt a b :
  0 < codeUnitCompare a b <-> String.compare b a = Lt.
Proof.
  unfold codeUnitCompare. rewrite (String.compare_antisym b a).
  destruct (String.compare a b); simpl; split; (lia || discriminate || reflexivity).
Qed.

Lemma codeUnitCompare_eq a b : codeUnitCompare a b = 0 <-> a = b.
Proof.
  unfold codeUnitCompare. split.
  - destruct (String.compare a b) eqn:E; try lia.
    intros _. now apply String.compare_eq_iff.
  - intros ->. now rewrite compare_refl.
Qed.

(** Collation by code unit is a consistent comparator. *)
Lemma codeUnitCompare_consistent : ConsistentComparator codeUnitCompare.
Proof.
  constructor.
  - intros a. now apply codeUnitCompare_eq.
  - intros a b H. apply codeUnitCompare_eq in H. now apply codeUnitCompare_eq.
  - intros a b c H1 H2. apply codeUnitCompare_eq in H1, H2.
    apply codeUnitCompare_eq. congruence.
  - intros a b c H1 H2. apply codeUnitCompare_lt in H1, H2.
    apply codeUnitCompare_lt. now apply compare_lt_trans with b.
  - intros a b c H1 H2. apply codeUnitCompare_gt in H1, H2.
    apply codeUnitCompare_gt. now apply compare_lt_trans with b.
Qed.

Lemma utcHost_consistent : ConsistentComparator (localeCompare utcHost).
Proof. exact codeUnitCompare_consistent. Qed.

(** Local time on the reference host is not behind UTC. *)
Lemma utcHost_local_time t : 0 <= LocalTZA utcHost t < msPerDay.
Proof. simpl. unfold msPerDay. lia. Qed.

End ReferenceFacts.

(** ** The proxy route: what a request returns *)

Module ProxyFacts.
Import JS JSFacts Proxy.

(** The outbound call was answered in time with a success status and a
    body that parsed to [data], a value other than [null]. *)
Definition delivered (u : Upstream) (data : ExternalApiResponse) : Prop :=
  exists response,
    fetch u = inr response /\ ok response = true
    /\ upstream_json response = inr (JsonData data).

(** The same, with a body that parsed to [null]. *)
Definition delivered_null (u : Upstream) : Prop :=
  exists response,
    fetch u = inr response /\ ok response = true
    /\ upstream_json response = inr JsonNull.

(** The 200 response that carries [payload]. *)
Definition success_response (payload : ActivityPayload) : Response :=
  {| status := 200;
     headers :=
       [("Content-Type", "application/json");
        ("Cache-Control", "public, max-age=3600, s-maxage=3600")];
     body := PayloadBody payload |}.

(** The payload computed from the entries of the array and the values of
    [total]. *)
Definition payload_of (host : Host) (today : string)
    (entries : list ExternalActivity) (values : list Z) : ActivityPayload :=
  {| payload_contributions := lastYearData host today entries;
     lastYearTotal := lastYearTotal_of (lastYearData host today entries);
     allTimeTotal := allTimeTotal_of values;
     yearRange := yearRange_of host (lastYearData host today entries) |}.

(** The order the route sorts by. *)
Definition date_before (host : Host) (a b : ExternalActivity) : Prop :=
  before (localeCompare host) (date a) (date b).

(** *** Properties the specification names *)

(** The [ContributionDay] invariant of the data model: a well-formed
    calendar date in [YYYY-MM-DD] form and a count that is not negative. *)
Definition ContributionDay_ok (c : ExternalActivity) : bool :=
  match parse_iso_date (date c) with
  | Some _ => 0 <=? count c
  | None => false
  end.

(** A year range of the form [YYYY] or [YYYY - YYYY]. *)
Definition is_digit (c : ascii) : bool :=
  match digit c with Some _ => true | None => false end.

Definition is_year_range (s : string) : bool :=
  match list_ascii_of_string s with
  | [a; b; c; d] => is_digit a && is_digit b && is_digit c && is_digit d
  | [a; b; c; d; s1; h; s2; e; f; g; i] =>
      is_digit a && is_digit b && is_digit c && is_digit d
      && (s1 =? " ")%char && (h =? "-")%char && (s2 =? " ")%char
      && is_digit e && is_digit f && is_digit g && is_digit i
  | _ => false
  end.

(** A year written with four digits. *)
Definition four_digits (s : string) : bool :=
  match list_ascii_of_string s with
  | [a; b; c; d] => is_digit a && is_digit b && is_digit c && is_digit d
  | _ => false
  end.

(** An entry dated strictly after the day of the request. *)
Definition future_dated (today : string) (c : ExternalActivity) : bool :=
  String.ltb today (date c).

(** A [total] that is a mapping. *)
Definition is_mapping (t : Total) : bool :=
  match t with
  | TotalRecord _ => true
  | _ => false
  end.

Lemma catch_status error : status (catch error) = 504 \/ status (catch error) = 500.
Proof.
  unfold catch. destruct (instanceofError error && _); simpl; auto.
Qed.

Lemma catch_not_200 error : status (catch error) <> 200.
Proof. destruct (catch_status error) as [E|E]; rewrite E; discriminate. Qed.

(** The structure check passes exactly for an array together with a truthy
    [total]. *)
Lemma invalid_structure_false data :
  invalid_structure data = false <->
  (exists entries, contributions data = ContributionsArray entries)
  /\ truthy_total (total data) = true.
Proof.
  unfold invalid_structure. split.
  - intros H. apply orb_false_elim in H as [H Ht].
    apply orb_false_elim in H as [_ Ha].
    apply negb_false_iff in Ht, Ha. split; [|exact Ht].
    destruct (contributions data); try discriminate. eauto.
  - intros [[entries E] Ht]. rewrite E, Ht. reflexivity.
Qed.

Lemma Object_values_truthy t :
  truthy_total t = true -> exists values, Object_values t = inr values.
Proof. destruct t; simpl; try discriminate; eauto. Qed.

(** A delivered body that passes the structure check is answered with the
    200 response built from its entries and values. *)
Lemma GET_accepted host today u data :
  delivered u data -> invalid_structure data = false ->
  exists entries values,
    contributions data = ContributionsArray entries
    /\ Object_values (total data) = inr values
    /\ GET host today u = success_response (payload_of host today entries values).
Proof.
  intros (response & Hf & Hok & Hj) Hs.
  pose proof Hs as Hs'. apply invalid_structure_false in Hs' as [[entries E] Ht].
  destruct (Object_values_truthy _ Ht) as [values Hv].
  exists entries, values. repeat split; [assumption..|].
  unfold GET, GET_try. rewrite Hf. simpl. rewrite Hok, Hj. simpl.
  rewrite Hs, Hv, E. reflexivity.
Qed.

(** A 200 response only comes from a delivered body that passes the
    structure check. *)
Lemma GET_200_delivered host today u :
  status (GET host today u) = 200 ->
  exists data, delivered u data /\ invalid_structure data = false.
Proof.
  unfold GET, GET_try, delivered. intros H.
  destruct (fetch u) as [e|response] eqn:Hf; simpl in H;
    [now apply catch_not_200 in H|].
  destruct (ok response) eqn:Hok; simpl in H.
  - destruct (upstream_json response) as [e|[|data]] eqn:Hj; simpl in H;
      [now apply catch_not_200 in H|discriminate H|].
    destruct (invalid_structure data) eqn:Hs; [discriminate|].
    exists data. split; [|exact Hs]. exists response. auto.
  - unfold Response_new in H.
    destruct ((_ <? 200) || _); simpl in H; [discriminate H|].
    destruct (null_body_status _); simpl in H; [discriminate H|].
    unfold ok in Hok. rewrite H in Hok. discriminate.
Qed.

Lemma GET_200 host today u :
  status (GET host today u) = 200 ->
  exists data entries values,
    delivered u data
    /\ contributions data = ContributionsArray entries
    /\ Object_values (total data) = inr values
    /\ GET host today u = success_response (payload_of host today entries values).
Proof.
  intros H. destruct (GET_200_delivered _ _ _ H) as (data & Hd & Hs).
  destruct (GET_accepted host today u data Hd Hs) as (entries & values & ? & ? & ?).
  exists data, entries, values. auto.
Qed.

(** Opens a 200 response: the delivered body, its entries and values, and
    the payload built from them. *)
Ltac open_response H :=
  destruct (GET_200 _ _ _ H)
    as (data & entries & values & Hd & He & Hv & HG);
  rewrite HG.

Lemma lastYearData_length host today entries :
  (length (lastYearData host today entries) <= 365)%nat.
Proof.
  unfold lastYearData.
  apply (Array_slice_last_length 365). lia.
Qed.

Lemma lastYearData_sorted host today entries :
  ConsistentComparator (localeCompare host) ->
  StronglySorted (date_before host) (lastYearData host today entries).
Proof.
  intros Hc. unfold lastYearData, sortedContributions.
  apply Array_slice_sorted.
  set (cmp := fun a b => localeCompare host (date a) (date b)).
  assert (Hcmp : ConsistentComparator cmp).
  { destruct Hc as [r s et lt gt]. unfold cmp. constructor; eauto. }
  exact (Array_sort_sorted cmp Hcmp _).
Qed.

Lemma payload_incl host today entries c :
  In c (lastYearData host today entries) ->
  In c entries /\ String.leb (date c) today = true.
Proof.
  unfold lastYearData, sortedContributions. intros H.
  apply Array_slice_incl in H.
  eapply Permutation_in in H;
    [|symmetry; apply Array_sort_Permutation].
  now apply filter_In in H.
Qed.

Lemma StronglySorted_weaken {A : Type} (R R' : A -> A -> Prop) (l : list A) :
  (forall a b, In a l -> In b l -> R a b -> R' a b) ->
  StronglySorted R l -> StronglySorted R' l.
Proof.
  intros HR H. induction H as [|x l Hl IH Hx]; constructor.
  - apply IH. intros a b Ha Hb. apply HR; now right.
  - rewrite List.Forall_forall in *. intros b Hb.
    apply HR; [now left|now right|now apply Hx].
Qed.

(** C1.  Every delivered body that passes the structure check is answered
    with status 200, and the contributions of that response are sorted
    ascending by date, in the order of the comparison the route sorts with
    ([a.date.localeCompare(b.date) <= 0] for [a] before [b], on a host
    whose collation is a consistent comparator), and are at most 365.
    Where that collation agrees with the code-unit order of strings on the
    delivered dates, as it does on digits and hyphens, the contributions
    are ascending in the order of [<=] on strings as well. *)
Theorem contributions_sorted_at_most_365 host today u data :
  ConsistentComparator (localeCompare host) ->
  delivered u data -> invalid_structure data = false ->
  exists payload,
    GET host today u = success_response payload
    /\ StronglySorted (date_before host) (payload_contributions payload)
    /\ (length (payload_contributions payload) <= 365)%nat
    /\ ((forall a b, In a (entries_of (contributions data)) ->
                     In b (entries_of (contributions data)) ->
                     localeCompare host (date a) (date b) <= 0 ->
                     String.leb (date a) (date b) = true) ->
        StronglySorted (fun a b => String.leb (date a) (date b) = true)
          (payload_contributions payload)).
Proof.
  intros Hc Hd Hs.
  destruct (GET_accepted host today u data Hd Hs)
    as (entries & values & He & Hv & HG).
  exists (payload_of host today entries values). simpl.
  split; [exact HG|]. split; [now apply lastYearData_sorted|].
  split; [apply lastYearData_length|].
  intros Hagree. rewrite He in Hagree. simpl in Hagree.
  apply StronglySorted_weaken with (R := date_before host);
    [|now apply lastYearData_sorted].
  intros a b Ha Hb Hab. apply payload_incl in Ha as [Ha _], Hb as [Hb _].
  now apply Hagree.
Qed.

(** The claim of exact sums fails beyond the safe integers: for counts,
    and totals, of 2^53 and 1 the response carries 2^53 as either total,
    one less than the sum. *)
Lemma unsafe_totals_are_rounded :
  delivered (Reference.upstream_of Reference.huge_counts)
    Reference.huge_counts
  /\ exists payload,
       GET Reference.utcHost "2024-01-03"
         (Reference.upstream_of Reference.huge_counts)
       = success_response payload
       /\ lastYearTotal payload = 9007199254740992
       /\ lastYearTotal payload
          <> sum (map count (payload_contributions payload))
       /\ allTimeTotal payload = 9007199254740992
       /\ allTimeTotal payload <> sum [9007199254740992; 1].
Proof.
  split.
  - eexists. repeat split; reflexivity.
  - eexists. split; [reflexivity|].
    repeat split; try (vm_compute; reflexivity); vm_compute; discriminate.
Qed.

(** C2, as amended.  In every 200 response, [lastYearTotal] is the sum of
    [count] over the contributions the response carries and [allTimeTotal]
    the sum of the values of the upstream [total] (for a mapping, of the
    values of its entries), each taken from the left with the addition of
    Numbers; [allTimeTotal] is a function of [total] alone, whatever
    entries the window kept.  Each total is the exact integer sum whenever
    the partial sums are safe integers. *)
Theorem totals_are_exact_sums host today u :
  status (GET host today u) = 200 ->
  exists payload data values,
    body (GET host today u) = PayloadBody payload
    /\ delivered u data
    /\ Object_values (total data) = inr values
    /\ lastYearTotal payload = lastYearTotal_of (payload_contributions payload)
    /\ allTimeTotal payload = allTimeTotal_of values
    /\ (safe_sums (map count (payload_contributions payload)) = true ->
        lastYearTotal payload = sum (map count (payload_contributions payload)))
    /\ (safe_sums values = true -> allTimeTotal payload = sum values)
    /\ (forall entries, total data = TotalRecord entries ->
          safe_sums (map snd entries) = true ->
          allTimeTotal payload = sum (map snd entries)).
Proof.
  intros H. open_response H.
  exists (payload_of host today entries values), data, values. simpl.
  assert (Hall : safe_sums values = true -> allTimeTotal_of values = sum values).
  { intros Hsafe. unfold allTimeTotal_of.
    rewrite (reduce_add_sum (fun x => x)); rewrite map_id; [lia|exact Hsafe]. }
  repeat split; try assumption.
  - intros Hsafe. unfold lastYearTotal_of.
    rewrite (reduce_add_sum count); [lia|exact Hsafe].
  - intros m Hm. rewrite Hm in Hv. simpl in Hv.
    injection Hv as <-. exact Hall.
Qed.

(** C3, as amended.  A delivered body other than [null] is answered with
    status 502 and the error ["Invalid data structure from GitHub API"]
    exactly when its [contributions] is absent or anything but an array,
    or its [total] is absent or otherwise falsy; such a body gets no 200
    payload.  A [total] that is truthy is not looked at further: the check
    does not reject it, and the answer is not a 502. *)
Theorem invalid_structure_502 host today u data :
  delivered u data ->
  (Array_isArray (contributions data) = false
   \/ truthy_total (total data) = false
   <-> GET host today u
       = error_response "Invalid data structure from GitHub API" 502)
  /\ (Array_isArray (contributions data) = true ->
      truthy_total (total data) = true ->
      status (GET host today u) <> 502).
Proof.
  intros Hd.
  destruct (invalid_structure data) eqn:Hs.
  - assert (HG : GET host today u
                 = error_response "Invalid data structure from GitHub API" 502).
    { destruct Hd as (response & Hf & Hok & Hj).
      unfold GET, GET_try. rewrite Hf. simpl. rewrite Hok, Hj. simpl.
      now rewrite Hs. }
    assert (Hbad : Array_isArray (contributions data) = false
                   \/ truthy_total (total data) = false).
    { unfold invalid_structure in Hs.
      destruct (contributions data); simpl in *; auto.
      destruct (truthy_total (total data)); auto. }
    split; [tauto|].
    intros Ha Ht. destruct Hbad; congruence.
  - destruct (GET_accepted host today u data Hd Hs)
      as (entries & values & He & Hv & HG).
    apply invalid_structure_false in Hs as [_ Ht].
    split; [|intros _ _; rewrite HG; discriminate].
    split.
    + rewrite He, Ht. simpl. intros [?|?]; discriminate.
    + rewrite HG. discriminate.
Qed.

Lemma future_dated_leb today c :
  future_dated today c = negb (String.leb (date c) today).
Proof.
  unfold future_dated, String.ltb, String.leb.
  rewrite (String.compare_antisym (date c) today).
  now destruct (String.compare today (date c)).
Qed.

(** C4.  In every 200 response no returned contribution is dated strictly
    after the day of the request, while the filter itself drops nothing
    else: every delivered entry dated on or before that day is among the
    entries that are sorted, and, when no more than 365 of them remain,
    the returned contributions are exactly those entries, each as often as
    it was delivered. *)
Theorem future_dates_excluded host today u :
  status (GET host today u) = 200 ->
  exists payload data entries,
    body (GET host today u) = PayloadBody payload
    /\ delivered u data
    /\ contributions data = ContributionsArray entries
    /\ (forall c, In c (payload_contributions payload) ->
          future_dated today c = false)
    /\ (forall c, In c entries -> future_dated today c = false ->
          In c (sortedContributions host today entries))
    /\ payload_contributions payload
       = Array_slice (-365) (sortedContributions host today entries)
    /\ ((length (List.filter (fun c => negb (future_dated today c)) entries) <= 365)%nat ->
        Permutation (payload_contributions payload)
          (List.filter (fun c => negb (future_dated today c)) entries)).
Proof.
  intros H. open_response H.
  exists (payload_of host today entries values), data, entries. simpl.
  assert (Hfilter : List.filter (fun c => negb (future_dated today c)) entries
                    = List.filter (fun c => String.leb (date c) today) entries).
  { apply filter_ext. intros c. rewrite future_dated_leb. apply negb_involutive. }
  repeat split; try assumption.
  - intros c Hc. apply payload_incl in Hc as [_ Hc].
    rewrite future_dated_leb, Hc. reflexivity.
  - intros c Hc Hf. unfold sortedContributions.
    eapply Permutation_in; [apply Array_sort_Permutation|].
    apply filter_In. split; [exact Hc|].
    rewrite future_dated_leb in Hf. now apply negb_false_iff in Hf.
  - rewrite Hfilter. intros Hlen. unfold lastYearData.
    rewrite (Array_slice_last_all 365).
    + symmetry. apply Array_sort_Permutation.
    + lia.
    + unfold sortedContributions.
      rewrite <- (Permutation_length (Array_sort_Permutation _ _)). lia.
Qed.

(** C6 as the specification states it, that every returned entry
    satisfies the [ContributionDay] invariant, does not hold: the one entry
    of [Reference.unchecked_entry] names no day of the calendar and has a
    negative count, and it is returned with status 200. *)
Lemma unchecked_entry_is_returned :
  exists payload,
    status (GET Reference.utcHost "2024-01-03"
              (Reference.upstream_of Reference.unchecked_entry)) = 200
    /\ body (GET Reference.utcHost "2024-01-03"
               (Reference.upstream_of Reference.unchecked_entry))
       = PayloadBody payload
    /\ payload_contributions payload = [Reference.day "2023-13-45" (-1) 0]
    /\ ContributionDay_ok (Reference.day "2023-13-45" (-1) 0) = false
    /\ parse_iso_date "2023-13-45" = None
    /\ count (Reference.day "2023-13-45" (-1) 0) < 0.
Proof. eexists. repeat split; vm_compute; reflexivity. Qed.

(** C6, as amended.  Every contribution in a 200 response is one of the
    delivered entries, passed through as it came, whose date string is not
    after the day of the request.  The route validates no entry: the
    returned entries satisfy the [ContributionDay] invariant whenever the
    delivered ones do. *)
Theorem returned_entries_are_delivered_entries host today u :
  status (GET host today u) = 200 ->
  exists payload data entries,
    body (GET host today u) = PayloadBody payload
    /\ delivered u data
    /\ contributions data = ContributionsArray entries
    /\ (forall c, In c (payload_contributions payload) ->
          In c entries /\ String.leb (date c) today = true)
    /\ ((forall c, In c entries -> ContributionDay_ok c = true) ->
        forall c, In c (payload_contributions payload) ->
          ContributionDay_ok c = true).
Proof.
  intros H. open_response H.
  exists (payload_of host today entries values), data, entries. simpl.
  split; [reflexivity|]. split; [exact Hd|]. split; [exact He|]. split.
  - intros c Hc. now apply payload_incl in Hc.
  - intros Hok c Hc. apply Hok. now apply payload_incl in Hc.
Qed.

Lemma four_digit_years_checked :
  forallb (fun k => four_digits (Number_toString (1000 + Z.of_nat k)))
    (seq 0 (Z.to_nat 9000)) = true.
Proof. vm_compute. reflexivity. Qed.

Lemma Number_toString_four_digits y :
  1000 <= y <= 9999 -> four_digits (Number_toString y) = true.
Proof.
  intros Hy. pose proof four_digit_years_checked as H.
  rewrite forallb_forall in H.
  specialize (H (Z.to_nat (y - 1000))).
  replace (1000 + Z.of_nat (Z.to_nat (y - 1000))) with y in H by lia.
  apply H. apply in_seq. lia.
Qed.

Lemma four_digits_year_range s : four_digits s = true -> is_year_range s = true.
Proof.
  unfold four_digits, is_year_range.
  destruct (list_ascii_of_string s) as [|a [|b [|c [|d [|? ?]]]]];
    try discriminate.
  trivial.
Qed.

Lemma four_digits_pair_year_range s1 s2 :
  four_digits s1 = true -> four_digits s2 = true ->
  is_year_range (s1 +:+ " - " +:+ s2) = true.
Proof.
  unfold four_digits, is_year_range.
  rewrite !list_ascii_of_string_app.
  destruct (list_ascii_of_string s1) as [|a [|b [|c [|d [|? ?]]]]];
    try discriminate.
  destruct (list_ascii_of_string s2) as [|e [|f [|g [|h [|? ?]]]]];
    try discriminate.
  intros H1 H2.
  repeat (apply andb_true_iff in H1 as [H1 ?]).
  repeat (apply andb_true_iff in H2 as [H2 ?]).
  simpl. repeat (apply andb_true_iff; split); auto.
Qed.

(** The year range of a window whose first and last dates are date-only
    ISO strings, on a host whose local time is not behind UTC. *)
Lemma yearRange_of_iso host first rest y1 m1 d1 y2 m2 d2 :
  (forall t, 0 <= LocalTZA host t < msPerDay) ->
  parse_iso_date (date first) = Some (y1, m1, d1) ->
  parse_iso_date (date (List.last rest first)) = Some (y2, m2, d2) ->
  yearRange_of host (first :: rest)
  = if y1 =? y2 then Number_toString y1
    else Number_toString y1 +:+ " - " +:+ Number_toString y2.
Proof.
  intros Htz H1 H2. unfold yearRange_of.
  replace (List.last (first :: rest) first) with (List.last rest first)
    by (destruct rest; reflexivity).
  rewrite (getFullYear_iso host _ _ _ _ Htz H1).
  rewrite (getFullYear_iso host _ _ _ _ Htz H2).
  reflexivity.
Qed.

(** C7 as the specification states it, that the year range of every 200
    response has the form [YYYY] or [YYYY - YYYY], does not hold: a
    delivered body with an empty array is answered with status 200 and the
    empty string as its year range. *)
Lemma empty_window_has_empty_yearRange :
  GET Reference.utcHost "2024-01-03" (Reference.upstream_of Reference.no_entries)
  = success_response
      {| payload_contributions := [];
         lastYearTotal := 0;
         allTimeTotal := 0;
         yearRange := "" |}
  /\ is_year_range "" = false.
Proof. split; vm_compute; reflexivity. Qed.

(** C7, as amended.  In every 200 response the year range is the empty
    string when the kept window is empty.  When the window is not empty
    and its first and last dates are date-only ISO strings, on a host whose
    local time is UTC or ahead of it by less than a day, the year range is
    the year of the first entry when the last entry has the same year, and
    otherwise the two years joined by [" - "]; it has the form [YYYY] or
    [YYYY - YYYY] when both years have four digits. *)
Theorem yearRange_of_response host today u :
  status (GET host today u) = 200 ->
  exists payload,
    body (GET host today u) = PayloadBody payload
    /\ (payload_contributions payload = [] -> yearRange payload = "")
    /\ (forall first rest y1 m1 d1 y2 m2 d2,
          payload_contributions payload = first :: rest ->
          parse_iso_date (date first) = Some (y1, m1, d1) ->
          parse_iso_date (date (List.last rest first)) = Some (y2, m2, d2) ->
          (forall t, 0 <= LocalTZA host t < msPerDay) ->
          yearRange payload
          = (if y1 =? y2 then Number_toString y1
             else Number_toString y1 +:+ " - " +:+ Number_toString y2)
          /\ (1000 <= y1 -> 1000 <= y2 ->
              is_year_range (yearRange payload) = true)).
Proof.
  intros H. open_response H.
  exists (payload_of host today entries values). simpl.
  split; [reflexivity|]. split.
  - intros ->. reflexivity.
  - intros first rest y1 m1 d1 y2 m2 d2 -> H1 H2 Htz.
    rewrite (yearRange_of_iso host _ _ _ _ _ _ _ _ Htz H1 H2).
    split; [reflexivity|]. intros Hy1 Hy2.
    apply parse_iso_date_valid in H1 as (Hr1 & _), H2 as (Hr2 & _).
    assert (F1 : four_digits (Number_toString y1) = true)
      by (apply Number_toString_four_digits; lia).
    assert (F2 : four_digits (Number_toString y2) = true)
      by (apply Number_toString_four_digits; lia).
    destruct (y1 =? y2).
    + now apply four_digits_year_range.
    + now apply four_digits_pair_year_range.
Qed.

(** C8.  When the outbound call is still pending after the 10-second
    budget, so that the timer aborts it, the route answers with status 504
    and the error ["Request timed out"].  Any other value thrown by the
    call, one that is not an [Error] named ["AbortError"], is answered
    with status 500 and its message. *)
Theorem timeout_is_504 host today u :
  (FETCH_TIMEOUT < latency u ->
   GET host today u = error_response "Request timed out" 504)
  /\ (forall e,
        latency u < FETCH_TIMEOUT -> settles u = inl e ->
        instanceofError e && (name e =? "AbortError")%string = false ->
        GET host today u
        = error_response
            (if instanceofError e then message e else "Unknown error") 500).
Proof.
  unfold GET, GET_try, fetch. split.
  - intros H. destruct (Z.leb_spec FETCH_TIMEOUT (latency u)); [|lia].
    reflexivity.
  - intros e H He Hn. destruct (Z.leb_spec FETCH_TIMEOUT (latency u)); [lia|].
    rewrite He. simpl. unfold catch. rewrite Hn. reflexivity.
Qed.

(** *** Runs on the reference host *)

Lemma upstream_of_delivered data : delivered (Reference.upstream_of data) data.
Proof. eexists. repeat split; reflexivity. Qed.

(** The scenario of the specification, with the request made on
    2024-01-03. *)
Example scenario_response :
  GET Reference.utcHost "2024-01-03" (Reference.upstream_of Reference.scenario)
  = success_response
      {| payload_contributions :=
           [Reference.day "2024-01-01" 2 1; Reference.day "2024-01-02" 0 0];
         lastYearTotal := 2;
         allTimeTotal := 150;
         yearRange := "2024" |}.
Proof. vm_compute. reflexivity. Qed.

(** The same scenario on a host five hours behind UTC: the first entry is
    read as a day of 2023. *)
Example scenario_response_behind_utc :
  body (GET Reference.westHost "2024-01-03"
          (Reference.upstream_of Reference.scenario))
  = PayloadBody
      {| payload_contributions :=
           [Reference.day "2024-01-01" 2 1; Reference.day "2024-01-02" 0 0];
         lastYearTotal := 2;
         allTimeTotal := 150;
         yearRange := "2023 - 2024" |}.
Proof. vm_compute. reflexivity. Qed.

(** Four delivered days out of order, one of them in the future: the three
    that are returned are in order. *)
Lemma contributions_sorted_at_most_365_witness :
  exists payload,
    GET Reference.utcHost "2024-01-03" (Reference.upstream_of Reference.shuffled)
    = success_response payload
    /\ StronglySorted (date_before Reference.utcHost)
         (payload_contributions payload)
    /\ (length (payload_contributions payload) <= 365)%nat
    /\ StronglySorted (fun a b => String.leb (date a) (date b) = true)
         (payload_contributions payload).
Proof.
  destruct (contributions_sorted_at_most_365 Reference.utcHost "2024-01-03"
              (Reference.upstream_of Reference.shuffled) Reference.shuffled
              ReferenceFacts.utcHost_consistent
              (upstream_of_delivered Reference.shuffled) eq_refl)
    as (payload & HG & Hsorted & Hlen & Hleb).
  exists payload. repeat split; try assumption.
  apply Hleb. intros a b _ _. simpl. unfold Reference.codeUnitCompare, String.leb.
  destruct (String.compare (date a) (date b)); [reflexivity|reflexivity|lia].
Defined.

(** The totals of that response: the sum over the three returned days and
    the sum of the two yearly totals. *)
Lemma totals_are_exact_sums_witness :
  exists payload,
    body (GET Reference.utcHost "2024-01-03"
            (Reference.upstream_of Reference.shuffled))
    = PayloadBody payload
    /\ lastYearTotal payload = sum (map count (payload_contributions payload))
    /\ allTimeTotal payload = 7 + (5 + 0).
Proof.
  destruct (totals_are_exact_sums Reference.utcHost "2024-01-03"
              (Reference.upstream_of Reference.shuffled) eq_refl)
    as (payload & data & values & Hb & Hd & Hv & _ & _ & Hlast & _ & Hmap).
  exists payload. split; [exact Hb|].
  injection Hb as <-.
  destruct Hd as (response & Hf & _ & Hj).
  injection Hf as <-. injection Hj as <-.
  split; [exact (Hlast eq_refl)|exact (Hmap _ eq_refl eq_refl)].
Defined.

(** C3 as the specification states it, that a [total] which is not a
    mapping is answered with status 502, does not hold: the body of
    [Reference.numeric_total], whose [total] is the number 5, is answered
    with status 200. *)
Lemma numeric_total_is_accepted :
  delivered (Reference.upstream_of Reference.numeric_total)
    Reference.numeric_total
  /\ is_mapping (total Reference.numeric_total) = false
  /\ GET Reference.utcHost "2024-01-03"
       (Reference.upstream_of Reference.numeric_total)
     = success_response
         {| payload_contributions := [];
            lastYearTotal := 0;
            allTimeTotal := 0;
            yearRange := "" |}.
Proof.
  split; [apply upstream_of_delivered|]. split; vm_compute; reflexivity.
Qed.

(** A delivered body without a [contributions] field is answered with
    status 502. *)
Lemma invalid_structure_502_witness :
  GET Reference.utcHost "2024-01-03"
    (Reference.upstream_of Reference.missing_contributions)
  = error_response "Invalid data structure from GitHub API" 502.
Proof.
  apply (invalid_structure_502 Reference.utcHost "2024-01-03"
           (Reference.upstream_of Reference.missing_contributions)
           Reference.missing_contributions
           (upstream_of_delivered Reference.missing_contributions)).
  left. reflexivity.
Defined.

(** The day after the request is not returned; the three other days are,
    each once. *)
Lemma future_dates_excluded_witness :
  exists payload,
    body (GET Reference.utcHost "2024-01-03"
            (Reference.upstream_of Reference.shuffled))
    = PayloadBody payload
    /\ ~ In (Reference.day "2024-01-09" 9 4) (payload_contributions payload)
    /\ Permutation (payload_contributions payload)
         [Reference.day "2024-01-02" 4 2; Reference.day "2023-12-31" 1 1;
          Reference.day "2024-01-01" 0 0].
Proof.
  destruct (future_dates_excluded Reference.utcHost "2024-01-03"
              (Reference.upstream_of Reference.shuffled) eq_refl)
    as (payload & data & entries & Hb & Hd & He & Hfuture & _ & _ & Hperm).
  exists payload. split; [exact Hb|].
  destruct Hd as (response & Hf & _ & Hj).
  injection Hf as <-. injection Hj as <-. injection He as <-.
  split.
  - intros Hin. apply Hfuture in Hin. discriminate.
  - apply Hperm. simpl. lia.
Defined.

(** The two days of the scenario satisfy the invariant, and so do the
    returned ones. *)
Lemma returned_entries_are_delivered_entries_witness :
  exists payload,
    body (GET Reference.utcHost "2024-01-03"
            (Reference.upstream_of Reference.scenario))
    = PayloadBody payload
    /\ forall c, In c (payload_contributions payload) ->
         ContributionDay_ok c = true.
Proof.
  destruct (returned_entries_are_delivered_entries Reference.utcHost
              "2024-01-03" (Reference.upstream_of Reference.scenario) eq_refl)
    as (payload & data & entries & Hb & Hd & He & _ & Hok).
  exists payload. split; [exact Hb|].
  destruct Hd as (response & Hf & _ & Hj).
  injection Hf as <-. injection Hj as <-. injection He as <-.
  apply Hok. intros c [<-|[<-|[]]]; reflexivity.
Defined.

(** A window from the last day of 2023 to the second day of 2024. *)
Lemma yearRange_of_response_witness :
  exists payload,
    body (GET Reference.utcHost "2024-01-03"
            (Reference.upstream_of Reference.shuffled))
    = PayloadBody payload
    /\ yearRange payload = "2023 - 2024"
    /\ is_year_range (yearRange payload) = true.
Proof.
  destruct (yearRange_of_response Reference.utcHost "2024-01-03"
              (Reference.upstream_of Reference.shuffled) eq_refl)
    as (payload & Hb & _ & Hrange).
  exists payload. split; [exact Hb|].
  injection Hb as Hb.
  destruct (Hrange (Reference.day "2023-12-31" 1 1)
              [Reference.day "2024-01-01" 0 0; Reference.day "2024-01-02" 4 2]
              2023 12 31 2024 1 2)
    as [Hyear Hform].
  - rewrite <- Hb. reflexivity.
  - reflexivity.
  - reflexivity.
  - exact ReferenceFacts.utcHost_local_time.
  - split; [exact Hyear|]. apply Hform; lia.
Defined.

(** A call pending for 10001 ms is answered with 504, a call that fails in
    transport after 35 ms with 500. *)
Lemma timeout_is_504_witness :
  GET Reference.utcHost "2024-01-03" Reference.slow_upstream
  = error_response "Request timed out" 504
  /\ GET Reference.utcHost "2024-01-03" Reference.failed_upstream
     = error_response "fetch failed" 500.
Proof.
  split.
  - apply (timeout_is_504 Reference.utcHost "2024-01-03" Reference.slow_upstream).
    unfold FETCH_TIMEOUT. simpl. lia.
  - apply (proj2 (timeout_is_504 Reference.utcHost "2024-01-03"
                    Reference.failed_upstream) Reference.transport_error).
    + unfold FETCH_TIMEOUT. simpl. lia.
    + reflexivity.
    + reflexivity.
Defined.

End ProxyFacts.

(** ** The widget: what one mount does *)

Module WidgetFacts.
Import JS Widget.

(** What the component shows: its three state cells. *)
Definition shown (w : World) : option GitHubData * Status * option string :=
  (data w, status w, error w).

Section Cache.
Context (codec : Codec).
Hypothesis parse_empty : JSON_parse codec "" = None.

(** A record that parses, carries the current version and is younger than
    the TTL is the one the cache check returns. *)
Lemma cache_check_fresh now (store : gmap string string) cached parsed :
  store !! CACHE_KEY = Some cached ->
  JSON_parse codec cached = Some parsed ->
  version parsed = CACHE_VERSION ->
  now - timestamp parsed < CACHE_TTL ->
  cache_check codec now store = Some parsed.
Proof.
  intros Hc Hp Hv Ha. unfold cache_check. rewrite Hc.
  unfold truthy_string. destruct (String.eqb_spec cached "") as [E|_]; simpl.
  - rewrite E in Hp. congruence.
  - rewrite Hp, Hv, Z.eqb_refl. simpl.
    destruct (Z.ltb_spec (now - timestamp parsed) CACHE_TTL); [reflexivity|lia].
Qed.

Lemma cache_check_Some now (store : gmap string string) parsed :
  cache_check codec now store = Some parsed ->
  exists cached,
    store !! CACHE_KEY = Some cached
    /\ JSON_parse codec cached = Some parsed
    /\ version parsed = CACHE_VERSION
    /\ now - timestamp parsed < CACHE_TTL.
Proof.
  unfold cache_check.
  destruct (store !! CACHE_KEY) as [cached|]; [|discriminate].
  destruct (truthy_string cached); [|discriminate].
  destruct (JSON_parse codec cached) as [p|] eqn:Hp; [|discriminate].
  destruct (Z.eqb_spec (version p) CACHE_VERSION); [|discriminate].
  destruct (Z.ltb_spec (now - timestamp p) CACHE_TTL); [|discriminate].
  simpl. intros [= <-]. exists cached. auto.
Qed.

(** The cache is passed over exactly when the record is absent, does not
    parse, carries another version or has reached the TTL. *)
Lemma cache_check_None now (store : gmap string string) :
  cache_check codec now store = None <->
  store !! CACHE_KEY = None
  \/ exists cached,
       store !! CACHE_KEY = Some cached
       /\ (JSON_parse codec cached = None
           \/ exists parsed,
                JSON_parse codec cached = Some parsed
                /\ (version parsed <> CACHE_VERSION
                    \/ CACHE_TTL <= now - timestamp parsed)).
Proof.
  split.
  - unfold cache_check.
    destruct (store !! CACHE_KEY) as [cached|]; [|now left].
    intros H. right. exists cached. split; [reflexivity|].
    unfold truthy_string in H.
    destruct (String.eqb_spec cached "") as [E|_]; simpl in H;
      [left; now rewrite E|].
    destruct (JSON_parse codec cached) as [p|]; [|now left].
    right. exists p. split; [reflexivity|].
    destruct (Z.eqb_spec (version p) CACHE_VERSION); [|now left].
    destruct (Z.ltb_spec (now - timestamp p) CACHE_TTL); [discriminate|now right].
  - intros H.
    destruct (cache_check codec now store) as [parsed|] eqn:E;
      [exfalso|reflexivity].
    apply cache_check_Some in E as (cached & Hc & Hp & Hv & Ha).
    destruct H as [H|(cached' & Hc' & H)]; [congruence|].
    assert (cached' = cached) as -> by congruence.
    destruct H as [H|(parsed' & Hp' & H)]; [congruence|].
    assert (parsed' = parsed) as -> by congruence.
    lia.
Qed.

End Cache.

(** The two ways through [fetchData]. *)
Lemma fetchData_hit codec env w parsed :
  cache_check codec (now_at_mount env) (localStorage w) = Some parsed ->
  fetchData codec env w = setStatus Success (setData (cached_data parsed) w).
Proof. unfold fetchData. now intros ->. Qed.

Lemma fetchData_miss codec env w :
  cache_check codec (now_at_mount env) (localStorage w) = None ->
  requests (fetchData codec env w) = requests w ++ [API_URL]
  /\ (writes (fetchData codec env w) = writes w
      /\ localStorage (fetchData codec env w) = localStorage w
      \/ exists result,
           settled env = inr (ApiOk (inr result))
           /\ unmounted env = false
           /\ fetchData codec env w
              = setItem env CACHE_KEY
                  (JSON_stringify codec
                     {| cached_data := result;
                        timestamp := now_at_result env;
                        version := CACHE_VERSION |})
                  (setStatus Success
                     (setData result (snd (fetch env API_URL w))))).
Proof.
  unfold fetchData. intros ->. simpl.
  destruct (read_response env (settled env)) as [e|result] eqn:Hr;
    destruct (unmounted env) eqn:Hm; simpl.
  - split; [reflexivity|left; split; reflexivity].
  - split; [|left; split];
      destruct (instanceofError e && _); reflexivity.
  - split; [reflexivity|left; split; reflexivity].
  - split; [reflexivity|right]. exists result. split; [|split; reflexivity].
    unfold read_response in Hr.
    destruct (settled env) as [e|[[e|d]|st [|er]]]; try discriminate; congruence.
Qed.

(** After a miss what the component shows depends on the request alone,
    not on what the store holds. *)
Lemma fetchData_miss_shown codec env (w1 w2 : World) :
  shown w1 = shown w2 ->
  cache_check codec (now_at_mount env) (localStorage w1) = None ->
  cache_check codec (now_at_mount env) (localStorage w2) = None ->
  shown (fetchData codec env w1) = shown (fetchData codec env w2).
Proof.
  unfold fetchData, shown. intros [= Hd Hs He] -> ->. simpl.
  destruct (read_response env (settled env)) as [e|result];
    destruct (unmounted env); simpl; try congruence.
  destruct (instanceofError e && _); simpl; congruence.
Qed.

Lemma settled_mounted env answer :
  settled env = inr answer -> unmounted env = false.
Proof.
  unfold settled. destruct (unmounted env); [discriminate|reflexivity].
Qed.

(** C5.  On mount the widget calls the proxy exactly when the cached
    record is absent, does not parse, carries a version other than the
    compiled-in one, or is at least one hour old.  A record that parses,
    carries that version and is younger than one hour puts the widget in
    the success state with the cached data, and no call is made.  A record
    that does not parse leads to the call and leaves the widget showing
    what it shows with no record at all: the success state whenever the
    call succeeds. *)
Theorem cache_decides_fetch codec env (store : gmap string string) :
  JSON_parse codec "" = None ->
  (requests (fetchData codec env (mount store)) = [API_URL] <->
   store !! CACHE_KEY = None
   \/ exists cached,
        store !! CACHE_KEY = Some cached
        /\ (JSON_parse codec cached = None
            \/ exists parsed,
                 JSON_parse codec cached = Some parsed
                 /\ (version parsed <> CACHE_VERSION
                     \/ CACHE_TTL <= now_at_mount env - timestamp parsed)))
  /\ (forall cached parsed,
        store !! CACHE_KEY = Some cached ->
        JSON_parse codec cached = Some parsed ->
        version parsed = CACHE_VERSION ->
        now_at_mount env - timestamp parsed < CACHE_TTL ->
        shown (fetchData codec env (mount store))
        = (cached_data parsed, Success, None)
        /\ requests (fetchData codec env (mount store)) = [])
  /\ (forall cached,
        store !! CACHE_KEY = Some cached ->
        JSON_parse codec cached = None ->
        requests (fetchData codec env (mount store)) = [API_URL]
        /\ shown (fetchData codec env (mount store))
           = shown (fetchData codec env (mount (delete CACHE_KEY store)))
        /\ (forall result,
              settled env = inr (ApiOk (inr result)) ->
              shown (fetchData codec env (mount store))
              = (result, Success, None))).
Proof.
  intros Hempty. split; [|split].
  - rewrite <- (cache_check_None codec Hempty).
    destruct (cache_check codec (now_at_mount env) store) as [p|] eqn:E.
    + rewrite (fetchData_hit codec env (mount store) p E). simpl.
      split; discriminate.
    + destruct (fetchData_miss codec env (mount store) E) as [-> _].
      simpl. tauto.
  - intros cached parsed Hc Hp Hv Ha.
    rewrite (fetchData_hit codec env (mount store) parsed).
    + split; reflexivity.
    + now apply (cache_check_fresh codec Hempty _ _ cached).
  - intros cached Hc Hp.
    assert (E : cache_check codec (now_at_mount env) store = None).
    { apply (cache_check_None codec Hempty). right. exists cached. auto. }
    assert (E' : cache_check codec (now_at_mount env) (delete CACHE_KEY store)
                 = None).
    { unfold cache_check. now rewrite lookup_delete_eq. }
    split; [|split].
    + now destruct (fetchData_miss codec env (mount store) E) as [-> _].
    + now apply fetchData_miss_shown.
    + intros result Hr. unfold fetchData. simpl. rewrite E, Hr. simpl.
      now rewrite (settled_mounted _ _ Hr).
Qed.

(** C9.  The tooltip of a day cell reads ["No contributions on "] and the
    formatted date for a count of 0, ["1 contribution on "] and the
    formatted date for a count of 1, and the count followed by
    [" contributions on "] and the formatted date for every other count;
    the formatted date is the one [formatDate] gives for the date of the
    cell, and every cell of the calendar gets its tooltip this way. *)
Theorem tooltip_text host count date :
  (count = 0 ->
   formatTooltip host count date
   = "No contributions on " +:+ formatDate host date)
  /\ (count = 1 ->
      formatTooltip host count date
      = "1 contribution on " +:+ formatDate host date)
  /\ (count <> 0 -> count <> 1 ->
      formatTooltip host count date
      = Number_toString count +:+ " contributions on " +:+ formatDate host date)
  /\ (forall d i activity,
        nth_error (contributions d) i = Some activity ->
        nth_error (tooltips host d) i
        = Some (formatTooltip host (Widget.count activity) (Widget.date activity))).
Proof.
  unfold formatTooltip. repeat split.
  - intros ->. reflexivity.
  - intros ->. reflexivity.
  - intros H0 H1.
    destruct (Z.eqb_spec count 0); [contradiction|].
    destruct (Z.eqb_spec count 1); [contradiction|]. reflexivity.
  - intros d i activity H. unfold tooltips.
    rewrite nth_error_map, H. reflexivity.
Qed.

(** C10.  A mount that is served from the cache calls
    [localStorage.setItem] not once: the store it leaves is the store it
    found, with the record that was read still in it.  [setItem] is called
    only when the request was made and succeeded while the component was
    mounted, and then once, with the new record under the cache key;
    without that call the store is left as it was found. *)
Theorem cache_hit_leaves_store codec env (store : gmap string string) :
  JSON_parse codec "" = None ->
  (forall cached parsed,
     store !! CACHE_KEY = Some cached ->
     JSON_parse codec cached = Some parsed ->
     version parsed = CACHE_VERSION ->
     now_at_mount env - timestamp parsed < CACHE_TTL ->
     writes (fetchData codec env (mount store)) = []
     /\ localStorage (fetchData codec env (mount store)) = store
     /\ localStorage (fetchData codec env (mount store)) !! CACHE_KEY
        = Some cached)
  /\ (writes (fetchData codec env (mount store)) <> [] ->
      exists result,
        requests (fetchData codec env (mount store)) = [API_URL]
        /\ settled env = inr (ApiOk (inr result))
        /\ unmounted env = false
        /\ shown (fetchData codec env (mount store))
           = (result, Success, None)
        /\ writes (fetchData codec env (mount store))
           = [(CACHE_KEY,
               JSON_stringify codec
                 {| cached_data := result;
                    timestamp := now_at_result env;
                    version := CACHE_VERSION |})])
  /\ (writes (fetchData codec env (mount store)) = [] ->
      localStorage (fetchData codec env (mount store)) = store).
Proof.
  intros Hempty.
  destruct (cache_check codec (now_at_mount env) store) as [p|] eqn:E.
  - rewrite (fetchData_hit codec env (mount store) p E). simpl.
    split; [|split; [congruence|reflexivity]].
    intros cached parsed Hc _ _ _. auto.
  - split.
    { intros cached parsed Hc Hp Hv Ha.
      rewrite (cache_check_fresh codec Hempty _ _ cached parsed) in E;
        [discriminate|assumption..]. }
    destruct (fetchData_miss codec env (mount store) E)
      as [Hreq [[Hw Hs]|(result & Hr & Hm & HF)]].
    + split; [|intros _; exact Hs].
      rewrite Hw. simpl. congruence.
    + split.
      * intros _. exists result. rewrite HF. simpl. auto.
      * rewrite HF. simpl. discriminate.
Qed.

(** *** Runs with the reference codec *)

Lemma stored_lookup v written :
  Reference.stored v written !! CACHE_KEY
  = Some (JSON_stringify Reference.sample_codec (Reference.sample_record v written)).
Proof. apply lookup_singleton_eq. Qed.

(** A record written 4 seconds ago is used without a call; the same record
    an hour later, a record of version 1 and a text that is no record each
    lead to the call, and the last one to the success state. *)
Lemma cache_decides_fetch_witness :
  (shown (fetchData Reference.sample_codec (Reference.answered 5000)
            (mount (Reference.stored 2 1000)))
   = (Some Reference.sample_data, Success, None)
   /\ requests (fetchData Reference.sample_codec (Reference.answered 5000)
                  (mount (Reference.stored 2 1000))) = [])
  /\ requests (fetchData Reference.sample_codec (Reference.answered 3601000)
                 (mount (Reference.stored 2 1000)))
     = [API_URL]
  /\ requests (fetchData Reference.sample_codec (Reference.answered 5000)
                 (mount (Reference.stored 1 1000)))
     = [API_URL]
  /\ shown (fetchData Reference.sample_codec (Reference.answered 5000)
              (mount Reference.corrupted))
     = (Some Reference.sample_data, Success, None).
Proof.
  split; [|split; [|split]].
  - apply (proj1 (proj2 (cache_decides_fetch Reference.sample_codec
                           (Reference.answered 5000) (Reference.stored 2 1000)
                           eq_refl))
             _ (Reference.sample_record 2 1000) (stored_lookup 2 1000)).
    + reflexivity.
    + reflexivity.
    + unfold CACHE_TTL. simpl. lia.
  - apply (proj1 (cache_decides_fetch Reference.sample_codec
                    (Reference.answered 3601000) (Reference.stored 2 1000)
                    eq_refl)).
    right. eexists. split; [apply stored_lookup|]. right.
    exists (Reference.sample_record 2 1000). split; [reflexivity|].
    right. unfold CACHE_TTL. simpl. lia.
  - apply (proj1 (cache_decides_fetch Reference.sample_codec
                    (Reference.answered 5000) (Reference.stored 1 1000)
                    eq_refl)).
    right. eexists. split; [apply stored_lookup|]. right.
    exists (Reference.sample_record 1 1000). split; [reflexivity|].
    left. unfold CACHE_VERSION. simpl. lia.
  - apply (proj2 (proj2 (cache_decides_fetch Reference.sample_codec
                           (Reference.answered 5000) Reference.corrupted
                           eq_refl))
             "{ data: ").
    + apply lookup_singleton_eq.
    + reflexivity.
    + reflexivity.
Defined.

(** The three tooltips on the reference host. *)
Lemma tooltip_text_witness :
  formatTooltip Reference.utcHost 0 "2024-12-31"
  = "No contributions on December 31, 2024"
  /\ formatTooltip Reference.utcHost 1 "2023-03-01"
     = "1 contribution on March 1, 2023"
  /\ formatTooltip Reference.utcHost 5 "2024-02-29"
     = "5 contributions on February 29, 2024".
Proof.
  split; [|split].
  - rewrite (proj1 (tooltip_text Reference.utcHost 0 "2024-12-31") eq_refl).
    vm_compute. reflexivity.
  - rewrite (proj1 (proj2 (tooltip_text Reference.utcHost 1 "2023-03-01")) eq_refl).
    vm_compute. reflexivity.
  - rewrite (proj1 (proj2 (proj2 (tooltip_text Reference.utcHost 5 "2024-02-29")))
               ltac:(lia) ltac:(lia)).
    vm_compute. reflexivity.
Defined.

(** A mount served from a record written 4 seconds ago leaves the store
    with that record. *)
Lemma cache_hit_leaves_store_witness :
  writes (fetchData Reference.sample_codec (Reference.answered 5000)
            (mount (Reference.stored 2 1000))) = []
  /\ localStorage (fetchData Reference.sample_codec (Reference.answered 5000)
                     (mount (Reference.stored 2 1000)))
     = Reference.stored 2 1000
  /\ localStorage (fetchData Reference.sample_codec (Reference.answered 5000)
                     (mount (Reference.stored 2 1000))) !! CACHE_KEY
     = Some "2@1000".
Proof.
  apply (proj1 (cache_hit_leaves_store Reference.sample_codec
                  (Reference.answered 5000) (Reference.stored 2 1000) eq_refl)
           _ (Reference.sample_record 2 1000) (stored_lookup 2 1000)).
  - reflexivity.
  - reflexivity.
  - unfold CACHE_TTL. simpl. lia.
Defined.

(** A mount that finds no record asks the proxy and writes the answer. *)
Example miss_writes_the_answer :
  fetchData Reference.sample_codec (Reference.answered 5000) (mount ∅)
  = {| data := Some Reference.sample_data; status := Success; error := None;
       localStorage := {[ CACHE_KEY := "2@5080" ]};
       requests := [API_URL];
       writes := [(CACHE_KEY, "2@5080")] |}.
Proof. reflexivity. Qed.

(** A mount that finds no record and is refused by the proxy shows the
    error of the proxy and writes nothing. *)
Example refusal_is_shown :
  fetchData Reference.sample_codec (Reference.refused 5000) (mount ∅)
  = {| data := None; status := Error;
       error := Some "Invalid data structure from GitHub API";
       localStorage := ∅;
       requests := [API_URL];
       writes := [] |}.
Proof. reflexivity. Qed.

End WidgetFacts.

(** ** The proxy route: the shape of every response *)

Module ProxyCoverage.
Import JS JSFacts Proxy ProxyFacts.

(** The two headers of a 200 response, and the one of an error response. *)
Definition has_header (key : string) (response : Response) : bool :=
  existsb (fun h => (fst h =? key)%string) (headers response).

(** The value thrown inside the [try] block of the route is an [Error] named
    ["AbortError"]. *)
Definition is_abort (e : Thrown) : bool :=
  instanceofError e && (name e =? "AbortError")%string.

Lemma Response_new_thrown host response e :
  Response_new host response = inl e ->
  instanceofError e = true /\ is_abort e = false.
Proof.
  unfold Response_new.
  destruct ((_ <? 200) || _); [intros [= <-]; auto|].
  destruct (null_body_status _); [intros [= <-]; auto|discriminate].
Qed.

Lemma Response_new_accepted host response r :
  Response_new host response = inr r ->
  r = response /\ 200 <= status response <= 599.
Proof.
  unfold Response_new.
  destruct (Z.ltb_spec (status response) 200); simpl; [discriminate|].
  destruct (Z.ltb_spec 599 (status response)); simpl; [discriminate|].
  destruct (null_body_status _); [discriminate|].
  intros [= <-]. split; [reflexivity|lia].
Qed.

(** What the [try] block of the route evaluates to, case by case. *)
Lemma GET_try_cases host today u :
  (exists e, GET_try host today u = inl e
             /\ (FETCH_TIMEOUT <= latency u /\ e = AbortError
                 \/ latency u < FETCH_TIMEOUT /\ settles u = inl e
                 \/ (exists response,
                       fetch u = inr response /\ ok response = true
                       /\ upstream_json response = inl e)
                 \/ delivered_null u
                    /\ e = null_property_error host "contributions"
                 \/ exists response,
                      fetch u = inr response /\ ok response = false
                      /\ instanceofError e = true /\ is_abort e = false))
  \/ (exists response,
        fetch u = inr response /\ ok response = false
        /\ GET_try host today u
           = inr (error_response
                    ("Failed to fetch GitHub data: "
                       +:+ Number_toString (upstream_status response))
                    (upstream_status response)))
  \/ (exists data,
        delivered u data /\ invalid_structure data = true
        /\ GET_try host today u
           = inr (error_response "Invalid data structure from GitHub API" 502))
  \/ (exists data entries values,
        delivered u data /\ invalid_structure data = false
        /\ contributions data = ContributionsArray entries
        /\ Object_values (total data) = inr values
        /\ GET_try host today u
           = inr (success_response (payload_of host today entries values))).
Proof.
  unfold GET_try.
  destruct (fetch u) as [e|response] eqn:Hf; simpl.
  - left. exists e. split; [reflexivity|].
    unfold fetch in Hf.
    destruct (Z.leb_spec FETCH_TIMEOUT (latency u)).
    + left. split; [assumption|congruence].
    + right. left. auto.
  - destruct (ok response) eqn:Hok; simpl.
    + destruct (upstream_json response) as [e|[|data]] eqn:Hj; simpl.
      * left. exists e. split; [reflexivity|]. right. right. left. eauto.
      * left. eexists. split; [reflexivity|]. right. right. right. left.
        split; [exists response; auto|reflexivity].
      * assert (Hd : delivered u data) by (exists response; auto).
        destruct (invalid_structure data) eqn:Hs.
        { right. right. left. eauto. }
        right. right. right.
        pose proof Hs as Hs'.
        apply invalid_structure_false in Hs' as [[entries E] Ht].
        destruct (Object_values_truthy _ Ht) as [values Hv].
        exists data, entries, values. rewrite Hv, E. simpl. auto.
    + destruct (Response_new host _) as [e|r] eqn:Hr.
      * left. exists e. split; [reflexivity|]. right. right. right. right.
        apply Response_new_thrown in Hr as [Hi Ha]. exists response. auto.
      * apply Response_new_accepted in Hr as [-> _].
        right. left. exists response. auto.
Qed.

(** Every response is either the 200 response with a payload, or an error
    response with another status. *)
Lemma GET_shape host today u :
  (exists payload, GET host today u = success_response payload)
  \/ (exists error status,
        GET host today u = error_response error status /\ status <> 200).
Proof.
  unfold GET.
  destruct (GET_try_cases host today u)
    as [(e & -> & _)|[(r & Hf & Hok & ->)|[(d & _ & _ & ->)|(d & en & v & _ & _ & _ & _ & ->)]]].
  - right. unfold catch. destruct (instanceofError e && _);
      eexists _, _; (split; [reflexivity|discriminate]).
  - right. eexists _, _. split; [reflexivity|].
    unfold ok in Hok. intros E. rewrite E in Hok. discriminate.
  - right. eexists _, _. split; [reflexivity|discriminate].
  - left. eauto.
Qed.

Lemma payload_body_200 host today u payload :
  body (GET host today u) = PayloadBody payload ->
  status (GET host today u) = 200.
Proof.
  destruct (GET_shape host today u) as [(p & ->)|(e & s & -> & Hs)]; simpl;
    [reflexivity|discriminate].
Qed.

(** X1.  A response carries a payload exactly when its status is 200; with
    any other status its body is an error text. *)
Theorem payload_exactly_with_200 host today u :
  ((exists payload, body (GET host today u) = PayloadBody payload)
   <-> status (GET host today u) = 200)
  /\ ((exists error, body (GET host today u) = ErrorBody error)
      <-> status (GET host today u) <> 200).
Proof.
  destruct (GET_shape host today u) as [(p & ->)|(e & s & -> & Hs)]; simpl.
  - split; split; try (intros; eauto; fail).
    + intros [e He]. discriminate.
    + intros H. now contradiction H.
  - split; split; try (intros; eauto; fail).
    + intros [p Hp]. discriminate.
    + intros H. contradiction.
Qed.

(** X2.  Every response is declared as JSON, and only the 200 response
    carries the [Cache-Control] header: no error response is cacheable. *)
Theorem only_success_is_cacheable host today u :
  has_header "Content-Type" (GET host today u) = true
  /\ (has_header "Cache-Control" (GET host today u) = true
      <-> status (GET host today u) = 200)
  /\ (status (GET host today u) = 200 ->
      headers (GET host today u)
      = [("Content-Type", "application/json");
         ("Cache-Control", "public, max-age=3600, s-maxage=3600")]).
Proof.
  destruct (GET_shape host today u) as [(p & ->)|(e & s & -> & Hs)].
  - repeat split; reflexivity.
  - split; [reflexivity|]. split; [|intros H; contradiction].
    split; [discriminate|intros H; contradiction].
Qed.

Lemma error_response_inj e1 s1 e2 s2 :
  error_response e1 s1 = error_response e2 s2 -> e1 = e2 /\ s1 = s2.
Proof. unfold error_response. intros [= -> ->]. auto. Qed.

Lemma catch_response e :
  catch e
  = if is_abort e then error_response "Request timed out" 504
    else error_response
           (if instanceofError e then message e else "Unknown error") 500.
Proof. reflexivity. Qed.

(** A body that parsed to [null] is answered with status 500 and the
    message of the [TypeError] that reading [contributions] off it
    throws. *)
Lemma null_body_is_500 host today u :
  delivered_null u ->
  GET host today u
  = error_response (null_property_message host "contributions") 500.
Proof.
  intros (response & Hf & Hok & Hj).
  unfold GET, GET_try. rewrite Hf. simpl. rewrite Hok, Hj. reflexivity.
Qed.

(** X3.  The 502 answer with ["Invalid data structure from GitHub API"] is
    given for nothing but a body other than [null] that was delivered,
    with a success status and as parseable JSON, and failed the structure
    check: neither a status 502 of the upstream itself nor any thrown
    error is reported this way, and a delivered [null] is answered with
    status 500. *)
Theorem invalid_structure_answer_means_bad_body host today u :
  (GET host today u
   = error_response "Invalid data structure from GitHub API" 502
   <-> exists data, delivered u data /\ invalid_structure data = true)
  /\ (delivered_null u -> status (GET host today u) = 500).
Proof.
  split; [|intros H; now rewrite (null_body_is_500 host today u H)].
  split.
  - unfold GET.
    destruct (GET_try_cases host today u)
      as [(e & -> & _)|[(r & Hf & Hok & ->)|[(d & Hd & Hs & ->)
                                            |(d & en & v & _ & _ & _ & _ & ->)]]].
    + rewrite catch_response. destruct (is_abort e); intros H;
        apply error_response_inj in H as [_ H]; discriminate.
    + intros H. apply error_response_inj in H as [H _]. discriminate.
    + eauto.
    + discriminate.
  - intros (data & Hd & Hs).
    assert (H : Array_isArray (contributions data) = false
                \/ truthy_total (total data) = false).
    { unfold invalid_structure in Hs.
      destruct (contributions data); simpl in *; auto.
      destruct (truthy_total (total data)); auto. }
    destruct Hd as (response & Hf & Hok & Hj).
    unfold GET, GET_try. rewrite Hf. simpl. rewrite Hok, Hj. simpl.
    now rewrite Hs.
Qed.

(** X4.  When the external service never reports an abort of its own, the
    504 answer with ["Request timed out"] is given exactly when the timer
    fired before the call settled: a status 504 of the upstream itself is
    passed through with another text. *)
Theorem timed_out_answer_means_timer host today u :
  (forall e, settles u = inl e -> is_abort e = false) ->
  (forall response e,
     settles u = inr response -> upstream_json response = inl e ->
     is_abort e = false) ->
  (GET host today u = error_response "Request timed out" 504
   <-> FETCH_TIMEOUT <= latency u).
Proof.
  intros Hfetch Hjson. split.
  - unfold GET.
    destruct (GET_try_cases host today u)
      as [(e & -> & He)|[(r & Hf & Hok & ->)|[(d & Hd & Hs & ->)
                                             |(d & en & v & _ & _ & _ & _ & ->)]]].
    + destruct He as [[Hl _]|[[Hl He]|[(r & Hf & _ & Hj)|[[_ ->]
                                                         |(r & _ & _ & _ & Ha)]]]];
        [intros _; exact Hl| | | |].
      * rewrite catch_response, (Hfetch e He). intros H.
        apply error_response_inj in H as [_ H]. discriminate.
      * unfold fetch in Hf.
        destruct (FETCH_TIMEOUT <=? latency u); [discriminate Hf|].
        rewrite catch_response, (Hjson r e Hf Hj). intros H.
        apply error_response_inj in H as [_ H]. discriminate.
      * intros H. apply error_response_inj in H as [_ H]. discriminate.
      * rewrite catch_response, Ha. intros H.
        apply error_response_inj in H as [_ H]. discriminate.
    + intros H. apply error_response_inj in H as [H _]. discriminate.
    + intros H. apply error_response_inj in H as [_ H]. discriminate.
    + discriminate.
  - intros H. unfold GET, GET_try, fetch.
    destruct (Z.leb_spec FETCH_TIMEOUT (latency u)); [reflexivity|lia].
Qed.

(** *** The window *)

Section Orders.
Context {A : Type}.

Lemma Array_sort_sorted_id (compareFn : A -> A -> Z) (l : list A) :
  StronglySorted (before compareFn) l -> Array_sort compareFn l = l.
Proof.
  induction 1 as [|x l Hl IH Hx]; simpl; [reflexivity|].
  rewrite IH. destruct Hx as [|y l' Hxy _]; simpl; [reflexivity|].
  unfold before in Hxy. destruct (Z.leb_spec (compareFn x y) 0); [reflexivity|lia].
Qed.

(** Two sorted arrangements of the same elements are the same list when no
    two different elements tie. *)
Lemma sorted_Permutation_unique (R : A -> A -> Prop) (l1 l2 : list A) :
  (forall a b, In a l1 -> In b l1 -> R a b -> R b a -> a = b) ->
  StronglySorted R l1 -> StronglySorted R l2 -> Permutation l1 l2 -> l1 = l2.
Proof.
  intros Hanti H1. revert l2.
  induction H1 as [|x l1 Hl1 IH Hx]; intros l2 H2 HP.
  - now apply Permutation_nil in HP.
  - destruct H2 as [|y l2 Hl2 Hy].
    + symmetry in HP. now apply Permutation_nil in HP.
    + rewrite List.Forall_forall in Hx, Hy.
      assert (Exy : x = y).
      { assert (Hx2 : In x (y :: l2)) by (eapply Permutation_in; [exact HP|now left]).
        assert (Hy1 : In y (x :: l1))
          by (eapply Permutation_in; [symmetry; exact HP|now left]).
        destruct Hx2 as [->|Hx2]; [reflexivity|].
        destruct Hy1 as [->|Hy1]; [reflexivity|].
        apply Hanti; [now left|now right|now apply Hx|now apply Hy]. }
      subst y. f_equal. apply IH.
      * intros a b Ha Hb. apply Hanti; now right.
      * exact Hl2.
      * now apply Permutation_cons_inv in HP.
Qed.

Lemma Permutation_filter (f : A -> bool) (l l' : list A) :
  Permutation l l' -> Permutation (List.filter f l) (List.filter f l').
Proof.
  induction 1 as [|x l l' _ IH|x y l|l l' l'' _ IH1 _ IH2]; simpl.
  - constructor.
  - destruct (f x); [now constructor|exact IH].
  - destruct (f x), (f y); try reflexivity. apply perm_swap.
  - now transitivity (List.filter f l').
Qed.

(** [slice(-n)] splits the array into what it drops and what it keeps. *)
Lemma Array_slice_last_split n (l : list A) :
  0 < n ->
  l = firstn (length l - Z.to_nat n) l ++ Array_slice (- n) l
  /\ length (Array_slice (- n) l) = Nat.min (Z.to_nat n) (length l).
Proof.
  intros Hn. unfold Array_slice.
  destruct (Z.ltb_spec (- n) 0); [|lia].
  replace (Z.to_nat (Z.max (Z.of_nat (length l) + - n) 0))
    with (length l - Z.to_nat n)%nat by lia.
  split; [symmetry; apply firstn_skipn|].
  rewrite length_skipn. lia.
Qed.

Lemma StronglySorted_app_before (R : A -> A -> Prop) (l1 l2 : list A) :
  StronglySorted R (l1 ++ l2) ->
  forall a b, In a l1 -> In b l2 -> R a b.
Proof.
  induction l1 as [|x l1 IH]; simpl; [contradiction|].
  intros H a b [<-|Ha] Hb.
  - inversion H as [|? ? _ HF]; subst. rewrite List.Forall_forall in HF.
    apply HF, in_or_app. now right.
  - inversion H; subst. now apply IH.
Qed.

End Orders.

Lemma sum_app l1 l2 : sum (l1 ++ l2) = sum l1 + sum l2.
Proof. unfold sum. induction l1; simpl; lia. Qed.

Lemma sum_Permutation l l' : Permutation l l' -> sum l = sum l'.
Proof. unfold sum. induction 1; simpl; lia. Qed.

Lemma sum_nonneg l : Forall (fun x => 0 <= x) l -> 0 <= sum l.
Proof. unfold sum. induction 1; simpl; lia. Qed.

(** The comparison the route sorts with is consistent when the collation
    is. *)
Lemma date_comparator_consistent host :
  ConsistentComparator (localeCompare host) ->
  ConsistentComparator
    (fun a b : ExternalActivity => localeCompare host (date a) (date b)).
Proof. intros [r s et lt gt]. constructor; eauto. Qed.

Lemma sortedContributions_sorted host today entries :
  ConsistentComparator (localeCompare host) ->
  StronglySorted (date_before host) (sortedContributions host today entries).
Proof.
  intros Hc. unfold sortedContributions.
  exact (Array_sort_sorted _ (date_comparator_consistent host Hc) _).
Qed.

Lemma sortedContributions_Permutation host today entries :
  Permutation (sortedContributions host today entries)
    (List.filter (fun c => String.leb (date c) today) entries).
Proof. unfold sortedContributions. symmetry. apply Array_sort_Permutation. Qed.

(** X5.  The window keeps the most recent entries: the entries dated on or
    before the day of the request are split into those the response
    returns and those it drops, the window has 365 entries or all of them
    when there are fewer, and every dropped entry sorts before every
    returned one. *)
Theorem window_is_most_recent host today u :
  ConsistentComparator (localeCompare host) ->
  status (GET host today u) = 200 ->
  exists payload data entries dropped,
    body (GET host today u) = PayloadBody payload
    /\ delivered u data
    /\ contributions data = ContributionsArray entries
    /\ Permutation (dropped ++ payload_contributions payload)
         (List.filter (fun c => String.leb (date c) today) entries)
    /\ length (payload_contributions payload)
       = Nat.min 365
           (length (List.filter (fun c => String.leb (date c) today) entries))
    /\ (forall d k, In d dropped -> In k (payload_contributions payload) ->
          date_before host d k).
Proof.
  intros Hc H. open_response H.
  pose proof (Array_slice_last_split 365 (sortedContributions host today entries)
                ltac:(lia)) as [Hsplit Hlen].
  change (Z.opp 365) with (-365) in Hsplit, Hlen.
  set (dropped := firstn (length (sortedContributions host today entries)
                          - Z.to_nat 365)
                    (sortedContributions host today entries)) in *.
  exists (payload_of host today entries values), data, entries, dropped. simpl.
  split; [reflexivity|]. split; [exact Hd|]. split; [exact He|].
  unfold lastYearData. split; [|split].
  - rewrite <- Hsplit. apply sortedContributions_Permutation.
  - rewrite Hlen.
    rewrite (Permutation_length (sortedContributions_Permutation host today entries)).
    reflexivity.
  - apply (StronglySorted_app_before (date_before host)).
    rewrite <- Hsplit. now apply sortedContributions_sorted.
Qed.

Lemma lastYearData_fixed host today window :
  StronglySorted (date_before host) window ->
  (forall c, In c window -> String.leb (date c) today = true) ->
  (length window <= 365)%nat ->
  lastYearData host today window = window.
Proof.
  intros Hs Hd Hl. unfold lastYearData, sortedContributions.
  rewrite forallb_filter_id by (apply forallb_forall; exact Hd).
  rewrite Array_sort_sorted_id by exact Hs.
  apply (Array_slice_last_all 365); lia.
Qed.

(** X6.  The pipeline is stable on its own output: a body whose entries
    are the contributions of a 200 response is answered with the same
    contributions, the same [lastYearTotal] and the same [yearRange]. *)
Theorem window_is_stable host today u payload u' data' :
  ConsistentComparator (localeCompare host) ->
  body (GET host today u) = PayloadBody payload ->
  delivered u' data' ->
  contributions data' = ContributionsArray (payload_contributions payload) ->
  truthy_total (total data') = true ->
  exists payload',
    body (GET host today u') = PayloadBody payload'
    /\ payload_contributions payload' = payload_contributions payload
    /\ lastYearTotal payload' = lastYearTotal payload
    /\ yearRange payload' = yearRange payload.
Proof.
  intros Hc Hb Hd' He' Ht'.
  assert (H : status (GET host today u) = 200).
  { now apply (payload_body_200 host today u payload). }
  destruct (GET_200 _ _ _ H) as (data & entries & values & Hd & He & Hv & HG).
  rewrite HG in Hb. injection Hb as <-.
  assert (Hs' : invalid_structure data' = false).
  { apply invalid_structure_false. eauto. }
  destruct (GET_accepted host today u' data' Hd' Hs')
    as (entries' & values' & He2 & Hv' & HG').
  rewrite He' in He2. injection He2 as <-.
  exists (payload_of host today (lastYearData host today entries) values').
  rewrite HG'. simpl.
  assert (Hfix : lastYearData host today (lastYearData host today entries)
                 = lastYearData host today entries).
  { apply lastYearData_fixed.
    - now apply lastYearData_sorted.
    - intros c Hin. now apply payload_incl in Hin.
    - apply lastYearData_length. }
  rewrite Hfix. auto.
Qed.

Lemma before_antisym {A : Type} (compareFn : A -> A -> Z) a b :
  ConsistentComparator compareFn ->
  before compareFn a b -> before compareFn b a -> compareFn a b = 0.
Proof.
  unfold before. intros Hc Hab Hba.
  destruct (Z.eq_dec (compareFn a b) 0) as [E|E]; [exact E|].
  assert (H : compareFn a b < 0) by lia.
  apply (comparator_flip_lt _ Hc) in H. lia.
Qed.

(** X7.  When no two delivered entries tie in the comparison, as is the
    case for one entry per day, the answer does not depend on the order in
    which the external service lists the entries. *)
Theorem answer_ignores_upstream_order host today u u' data data' entries entries' :
  ConsistentComparator (localeCompare host) ->
  delivered u data -> delivered u' data' ->
  contributions data = ContributionsArray entries ->
  contributions data' = ContributionsArray entries' ->
  total data' = total data -> truthy_total (total data) = true ->
  Permutation entries entries' ->
  (forall a b, In a entries -> In b entries ->
     localeCompare host (date a) (date b) = 0 -> a = b) ->
  GET host today u' = GET host today u
  /\ status (GET host today u) = 200.
Proof.
  intros Hc Hd Hd' He He' Ht Htruthy HP Hdistinct.
  assert (Hs : invalid_structure data = false)
    by (apply invalid_structure_false; eauto).
  assert (Hs' : invalid_structure data' = false)
    by (apply invalid_structure_false; rewrite Ht; eauto).
  destruct (GET_accepted host today u data Hd Hs) as (en & v & E & Hv & HG).
  destruct (GET_accepted host today u' data' Hd' Hs') as (en' & v' & E' & Hv' & HG').
  rewrite He in E. injection E as <-. rewrite He' in E'. injection E' as <-.
  rewrite Ht, Hv in Hv'. injection Hv' as <-.
  rewrite HG, HG'. split; [|reflexivity].
  assert (Hsorted : sortedContributions host today entries'
                    = sortedContributions host today entries).
  { symmetry. apply (sorted_Permutation_unique (date_before host)).
    - intros a b Ha Hb Hab Hba.
      apply Hdistinct.
      + eapply Permutation_in in Ha; [|apply sortedContributions_Permutation].
        now apply filter_In in Ha.
      + eapply Permutation_in in Hb; [|apply sortedContributions_Permutation].
        now apply filter_In in Hb.
      + now apply (before_antisym (localeCompare host)).
    - now apply sortedContributions_sorted.
    - now apply sortedContributions_sorted.
    - rewrite !sortedContributions_Permutation. now apply Permutation_filter. }
  unfold payload_of, lastYearData. now rewrite Hsorted.
Qed.

(** X8.  When no delivered count is negative, [lastYearTotal] is not
    negative; when, further, the counts of all entries dated on or before
    the day of the request sum to a safe integer, [lastYearTotal] is the
    exact sum of the counts of the window and no more than the sum of all
    of them.  When no value of [total] is negative, [allTimeTotal] is not
    negative either. *)
Theorem totals_are_bounded host today u :
  status (GET host today u) = 200 ->
  exists payload data entries values,
    body (GET host today u) = PayloadBody payload
    /\ delivered u data
    /\ contributions data = ContributionsArray entries
    /\ Object_values (total data) = inr values
    /\ ((forall c, In c entries -> 0 <= count c) ->
        0 <= lastYearTotal payload
        /\ (sum (map count
                   (List.filter (fun c => String.leb (date c) today) entries))
            <= 2 ^ 53 - 1 ->
            lastYearTotal payload
            = sum (map count (payload_contributions payload))
            /\ lastYearTotal payload
               <= sum (map count
                         (List.filter (fun c => String.leb (date c) today)
                            entries))))
    /\ ((forall v, In v values -> 0 <= v) -> 0 <= allTimeTotal payload).
Proof.
  intros H. open_response H.
  exists (payload_of host today entries values), data, entries, values. simpl.
  split; [reflexivity|]. split; [exact Hd|]. split; [exact He|].
  split; [exact Hv|]. split.
  - intros Hpos.
    pose proof (Array_slice_last_split 365 (sortedContributions host today entries)
                  ltac:(lia)) as [Hsplit _].
    change (Z.opp 365) with (-365) in Hsplit.
    change (Array_slice (-365) (sortedContributions host today entries))
      with (lastYearData host today entries) in Hsplit.
    set (dropped := firstn _ _) in Hsplit.
    assert (Hsum : sum (map count (List.filter (fun c => String.leb (date c) today) entries))
                   = sum (map count dropped)
                     + sum (map count (lastYearData host today entries))).
    { rewrite <- sum_app, <- map_app, <- Hsplit.
      apply sum_Permutation, Permutation_map. symmetry.
      apply sortedContributions_Permutation. }
    assert (Hin : forall c, In c (sortedContributions host today entries) ->
                            0 <= count c).
    { intros c Hc. apply Hpos.
      eapply Permutation_in in Hc; [|apply sortedContributions_Permutation].
      now apply filter_In in Hc. }
    assert (Hdrop : 0 <= sum (map count dropped)).
    { apply sum_nonneg, List.Forall_forall. intros x Hx.
      apply in_map_iff in Hx as (c & <- & Hc). apply Hin.
      rewrite Hsplit. apply in_or_app. now left. }
    assert (Hwin : forall c, In c (lastYearData host today entries) ->
                             0 <= count c).
    { intros c Hc. apply Hin. rewrite Hsplit. apply in_or_app. now right. }
    split.
    + unfold lastYearTotal_of. apply (reduce_add_nonneg count); [lia|exact Hwin].
    + intros Hsafe.
      assert (E : lastYearTotal_of (lastYearData host today entries)
                  = sum (map count (lastYearData host today entries))).
      { unfold lastYearTotal_of. rewrite (reduce_add_sum count); [lia|].
        apply safe_from_nonneg; [lia| |lia].
        apply List.Forall_forall. intros x Hx.
        apply in_map_iff in Hx as (c & <- & Hc). now apply Hwin. }
      rewrite E. split; [reflexivity|lia].
  - intros Hpos. unfold allTimeTotal_of.
    apply (reduce_add_nonneg (fun x => x)); [lia|exact Hpos].
Qed.

(** *** Years on a host behind UTC *)

Lemma MakeDay_first_of_year y m d :
  1 <= m <= 12 -> 1 <= d <= DaysInMonth y m ->
  (MakeDay y (m - 1) d = DayFromYear y <-> m = 1 /\ d = 1).
Proof.
  intros Hm Hd. unfold MakeDay.
  replace ((m - 1) / 12) with 0 by (Z.div_mod_to_equations; lia).
  replace ((m - 1) mod 12) with (m - 1) by (Z.div_mod_to_equations; lia).
  rewrite Z.add_0_r.
  unfold DaysBeforeMonth, DaysInMonth in *.
  assert (Hcases : m = 1 \/ m = 2 \/ m = 3 \/ m = 4 \/ m = 5 \/ m = 6 \/ m = 7
                   \/ m = 8 \/ m = 9 \/ m = 10 \/ m = 11 \/ m = 12) by lia.
  destruct (isLeapYear y);
    repeat (destruct Hcases as [->|Hcases]); try subst m; simpl in *; lia.
Qed.

(** On a host behind UTC by no more than a day, the local year of a
    date-only string is the year before for 1 January, and the year the
    string names for every other day. *)
Lemma getFullYear_behind_utc host s y m d :
  (forall t, - msPerDay <= LocalTZA host t < 0) ->
  parse_iso_date s = Some (y, m, d) ->
  getFullYear host (Date_new host s)
  = Some (if (m =? 1) && (d =? 1) then y - 1 else y).
Proof.
  intros Htz Hp. unfold Date_new. rewrite Hp. simpl. f_equal.
  apply parse_iso_date_valid in Hp as (_ & Hm & Hd).
  pose proof (MakeDay_within_year y m d Hm Hd) as Hday.
  pose proof (MakeDay_first_of_year y m d Hm Hd) as Hfirst.
  specialize (Htz (MakeDate (MakeDay y (m - 1) d) 0)).
  apply YearFromTime_unique.
  unfold LocalTime, TimeFromYear.
  destruct (Z.eqb_spec m 1) as [Em|Em], (Z.eqb_spec d 1) as [Ed|Ed]; simpl.
  1: { replace (y - 1 + 1) with y by lia.
       pose proof (DayFromYear_succ (y - 1)) as Hs.
       replace (y - 1 + 1) with y in Hs by lia.
       assert (E : MakeDay y (m - 1) d = DayFromYear y) by (apply Hfirst; auto).
       unfold MakeDate, msPerDay, DaysInYear in *.
       destruct (isLeapYear (y - 1)); lia. }
  all: assert (E : MakeDay y (m - 1) d <> DayFromYear y) by (rewrite Hfirst; lia);
    unfold MakeDate, msPerDay in *; lia.
Qed.

(** X9.  On a host whose local time is behind UTC (by no more than a day)
    the year range is built from the local years of the first and the last
    date: an entry dated 1 January counts for the year before, so that a
    window running from 1 January to a later day of the same year is
    reported as a range of two years. *)
Theorem yearRange_behind_utc host first rest y1 m1 d1 y2 m2 d2 :
  (forall t, - msPerDay <= LocalTZA host t < 0) ->
  parse_iso_date (date first) = Some (y1, m1, d1) ->
  parse_iso_date (date (List.last rest first)) = Some (y2, m2, d2) ->
  let startYear := if (m1 =? 1) && (d1 =? 1) then y1 - 1 else y1 in
  let endYear := if (m2 =? 1) && (d2 =? 1) then y2 - 1 else y2 in
  yearRange_of host (first :: rest)
  = (if startYear =? endYear then Number_toString startYear
     else Number_toString startYear +:+ " - " +:+ Number_toString endYear)
  /\ (m1 = 1 -> d1 = 1 -> y1 = y2 -> (m2 <> 1 \/ d2 <> 1) ->
      yearRange_of host (first :: rest)
      = Number_toString (y1 - 1) +:+ " - " +:+ Number_toString y1).
Proof.
  intros Htz H1 H2 startYear endYear.
  assert (E : yearRange_of host (first :: rest)
              = if startYear =? endYear then Number_toString startYear
                else Number_toString startYear +:+ " - " +:+ Number_toString endYear).
  { unfold yearRange_of.
    replace (List.last (first :: rest) first) with (List.last rest first)
      by (destruct rest; reflexivity).
    rewrite (getFullYear_behind_utc host _ _ _ _ Htz H1).
    rewrite (getFullYear_behind_utc host _ _ _ _ Htz H2).
    reflexivity. }
  split; [exact E|].
  intros -> -> <- Hlater. rewrite E. unfold startYear, endYear. simpl.
  assert (Hend : (m2 =? 1) && (d2 =? 1) = false).
  { destruct (Z.eqb_spec m2 1), (Z.eqb_spec d2 1); simpl; try reflexivity. lia. }
  rewrite Hend.
  destruct (Z.eqb_spec (y1 - 1) y1); [lia|reflexivity].
Qed.

(** *** The theorems at concrete inputs *)

(** An upstream that answers with a status 504 of its own. *)
Definition upstream_504 : Upstream :=
  {| latency := 40;
     settles := inr {| upstream_status := 504;
                       upstream_json :=
                         inr (JsonData Reference.scenario) |} |}.

(** The entries of [Reference.shuffled] in another order. *)
Definition reshuffled : ExternalApiResponse :=
  {| total := TotalRecord [("2023", 7); ("2024", 5)];
     contributions :=
       ContributionsArray
         [Reference.day "2024-01-09" 9 4; Reference.day "2024-01-01" 0 0;
          Reference.day "2024-01-02" 4 2; Reference.day "2023-12-31" 1 1] |}.

Lemma timed_out_answer_means_timer_witness :
  (GET Reference.utcHost "2024-01-03" Reference.slow_upstream
   = error_response "Request timed out" 504
   <-> FETCH_TIMEOUT <= latency Reference.slow_upstream)
  /\ GET Reference.utcHost "2024-01-03" upstream_504
     <> error_response "Request timed out" 504.
Proof.
  split.
  - apply (timed_out_answer_means_timer Reference.utcHost "2024-01-03"
             Reference.slow_upstream).
    + intros e H. discriminate H.
    + intros response e H. injection H as <-. intros H. discriminate H.
  - intros H.
    apply (timed_out_answer_means_timer Reference.utcHost "2024-01-03"
             upstream_504) in H.
    + unfold FETCH_TIMEOUT in H. simpl in H. lia.
    + intros e H'. discriminate H'.
    + intros response e H'. injection H' as <-. intros H'. discriminate H'.
Defined.

Lemma window_is_most_recent_witness :
  exists payload data entries dropped,
    body (GET Reference.utcHost "2024-01-03"
            (Reference.upstream_of Reference.shuffled)) = PayloadBody payload
    /\ delivered (Reference.upstream_of Reference.shuffled) data
    /\ contributions data = ContributionsArray entries
    /\ Permutation (dropped ++ payload_contributions payload)
         (List.filter (fun c => String.leb (date c) "2024-01-03") entries)
    /\ length (payload_contributions payload)
       = Nat.min 365
           (length (List.filter (fun c => String.leb (date c) "2024-01-03")
                      entries))
    /\ (forall old kept,
          In old dropped -> In kept (payload_contributions payload) ->
          date_before Reference.utcHost old kept).
Proof.
  apply (window_is_most_recent Reference.utcHost "2024-01-03"
           (Reference.upstream_of Reference.shuffled)).
  - exact ReferenceFacts.utcHost_consistent.
  - reflexivity.
Defined.

Lemma window_is_stable_witness :
  exists payload',
    body (GET Reference.utcHost "2024-01-03"
            (Reference.upstream_of Reference.scenario)) = PayloadBody payload'
    /\ payload_contributions payload'
       = [Reference.day "2024-01-01" 2 1; Reference.day "2024-01-02" 0 0]
    /\ lastYearTotal payload' = 2
    /\ yearRange payload' = "2024".
Proof.
  apply (window_is_stable Reference.utcHost "2024-01-03"
           (Reference.upstream_of Reference.scenario)
           (payload_of Reference.utcHost "2024-01-03"
              [Reference.day "2024-01-01" 2 1; Reference.day "2024-01-02" 0 0]
              [100; 50])
           (Reference.upstream_of Reference.scenario) Reference.scenario).
  - exact ReferenceFacts.utcHost_consistent.
  - reflexivity.
  - apply upstream_of_delivered.
  - reflexivity.
  - reflexivity.
Defined.

Lemma answer_ignores_upstream_order_witness :
  GET Reference.utcHost "2024-01-03" (Reference.upstream_of reshuffled)
  = GET Reference.utcHost "2024-01-03" (Reference.upstream_of Reference.shuffled)
  /\ status (GET Reference.utcHost "2024-01-03"
               (Reference.upstream_of Reference.shuffled)) = 200.
Proof.
  apply (answer_ignores_upstream_order Reference.utcHost "2024-01-03"
           (Reference.upstream_of Reference.shuffled)
           (Reference.upstream_of reshuffled) Reference.shuffled reshuffled
           [Reference.day "2024-01-02" 4 2; Reference.day "2023-12-31" 1 1;
            Reference.day "2024-01-09" 9 4; Reference.day "2024-01-01" 0 0]
           [Reference.day "2024-01-09" 9 4; Reference.day "2024-01-01" 0 0;
            Reference.day "2024-01-02" 4 2; Reference.day "2023-12-31" 1 1]).
  - exact ReferenceFacts.utcHost_consistent.
  - apply upstream_of_delivered.
  - apply upstream_of_delivered.
  - reflexivity.
  - reflexivity.
  - reflexivity.
  - reflexivity.
  - apply perm_trans with
      [Reference.day "2024-01-02" 4 2; Reference.day "2024-01-09" 9 4;
       Reference.day "2023-12-31" 1 1; Reference.day "2024-01-01" 0 0].
    + apply perm_skip, perm_swap.
    + apply perm_trans with
        [Reference.day "2024-01-09" 9 4; Reference.day "2024-01-02" 4 2;
         Reference.day "2023-12-31" 1 1; Reference.day "2024-01-01" 0 0].
      * apply perm_swap.
      * apply perm_skip.
        apply perm_trans with
          [Reference.day "2024-01-02" 4 2; Reference.day "2024-01-01" 0 0;
           Reference.day "2023-12-31" 1 1].
        -- apply perm_skip, perm_swap.
        -- apply perm_trans with
             [Reference.day "2024-01-01" 0 0; Reference.day "2024-01-02" 4 2;
              Reference.day "2023-12-31" 1 1].
           ++ apply perm_swap.
           ++ apply Permutation_refl.
  - intros a b Ha Hb. simpl in Ha, Hb.
    repeat (destruct Ha as [<-|Ha]; [|]); try contradiction;
      repeat (destruct Hb as [<-|Hb]; [|]); try contradiction;
      intros H; try reflexivity; vm_compute in H; discriminate H.
Defined.

Lemma totals_are_bounded_witness :
  exists payload data entries values,
    body (GET Reference.utcHost "2024-01-03"
            (Reference.upstream_of Reference.shuffled)) = PayloadBody payload
    /\ delivered (Reference.upstream_of Reference.shuffled) data
    /\ contributions data = ContributionsArray entries
    /\ Object_values (total data) = inr values
    /\ ((forall c, In c entries -> 0 <= count c) ->
        0 <= lastYearTotal payload
        /\ (sum (map count
                   (List.filter (fun c => String.leb (date c) "2024-01-03")
                      entries))
            <= 2 ^ 53 - 1 ->
            lastYearTotal payload
            = sum (map count (payload_contributions payload))
            /\ lastYearTotal payload
               <= sum (map count
                         (List.filter
                            (fun c => String.leb (date c) "2024-01-03")
                            entries))))
    /\ ((forall v, In v values -> 0 <= v) -> 0 <= allTimeTotal payload).
Proof.
  apply (totals_are_bounded Reference.utcHost "2024-01-03"
           (Reference.upstream_of Reference.shuffled)).
  reflexivity.
Defined.

Lemma yearRange_behind_utc_witness :
  yearRange_of Reference.westHost
    [Reference.day "2024-01-01" 2 1; Reference.day "2024-01-02" 0 0]
  = "2023 - 2024".
Proof.
  apply (proj2 (yearRange_behind_utc Reference.westHost
                  (Reference.day "2024-01-01" 2 1)
                  [Reference.day "2024-01-02" 0 0] 2024 1 1 2024 1 2
                  ltac:(intros t; unfold msPerDay; simpl; lia)
                  eq_refl eq_refl));
    try reflexivity.
  right. lia.
Defined.
End ProxyCoverage.

(** ** The two versions of the route, side by side *)

Module RouteHistory.
Import JS JSFacts Proxy ProxyFacts ProxyCoverage.

(** The two routes construct their error responses alike: the
    constructor throws for the one exactly when it throws for the other,
    and throws the same. *)
Lemma Response_new_alike host error status :
  match Response_new host (error_response error status),
        Passthrough.Response_new host (Passthrough.error_response error status)
  with
  | inl e, inl e' => e = e' /\ is_abort e = false
  | inr r, inr r' =>
      r = error_response error status
      /\ r' = Passthrough.error_response error status
  | _, _ => False
  end.
Proof.
  unfold Response_new, Passthrough.Response_new. simpl.
  destruct ((status <? 200) || (599 <? status)); [auto|].
  destruct (null_body_status status); auto.
Qed.

(** What the earlier route evaluates to, case by case. *)
Lemma Passthrough_GET_cases host u :
  (exists e, settles u = inl e
             /\ Passthrough.GET host u = Passthrough.catch e)
  \/ (exists response,
        settles u = inr response /\ ok response = false
        /\ Passthrough.GET_try host u
           = Passthrough.Response_new host
               (Passthrough.error_response
                  ("Failed to fetch GitHub data: "
                     +:+ Number_toString (upstream_status response))
                  (upstream_status response)))
  \/ (exists response e,
        settles u = inr response /\ ok response = true
        /\ upstream_json response = inl e
        /\ Passthrough.GET host u = Passthrough.catch e)
  \/ (exists response data,
        settles u = inr response /\ ok response = true
        /\ upstream_json response = inr data
        /\ Passthrough.GET host u
           = {| Passthrough.status := 200;
                Passthrough.headers :=
                  [("Content-Type", "application/json");
                   ("Cache-Control", "public, max-age=3600, s-maxage=3600")];
                Passthrough.body := Passthrough.DataBody data |}).
Proof.
  unfold Passthrough.GET, Passthrough.GET_try, Passthrough.fetch.
  destruct (settles u) as [e|response]; simpl.
  - left. eauto.
  - destruct (ok response) eqn:Hok; simpl.
    + destruct (upstream_json response) as [e|data] eqn:Hj; simpl.
      * right. right. left. eauto 10.
      * right. right. right. eauto 10.
    + right. left. eauto.
Qed.

Lemma not_ok_not_200 response :
  ok response = false -> upstream_status response <> 200.
Proof. unfold ok. intros H E. rewrite E in H. discriminate. Qed.

Lemma catch_not_abort e :
  is_abort e = false ->
  catch e = error_response (if instanceofError e then message e
                            else "Unknown error") 500.
Proof. unfold catch, is_abort. now intros ->. Qed.

(** X10.  The timer and the structure check are all that separates the
    two versions on a failure: when the timer does not fire and nothing
    thrown is an abort, every answer of the earlier route other than a 200
    is the answer of the route, with the same status, text and headers. *)
Theorem failures_are_answered_as_before host today u :
  latency u < FETCH_TIMEOUT ->
  (forall e, settles u = inl e -> is_abort e = false) ->
  (forall response e,
     settles u = inr response -> upstream_json response = inl e ->
     is_abort e = false) ->
  Passthrough.status (Passthrough.GET host u) <> 200 ->
  exists error status,
    Passthrough.GET host u = Passthrough.error_response error status
    /\ GET host today u = error_response error status.
Proof.
  intros Hlat Hfetch Hjson Hold.
  assert (Hf : fetch u = settles u).
  { unfold fetch. destruct (Z.leb_spec FETCH_TIMEOUT (latency u)); [lia|reflexivity]. }
  destruct (Passthrough_GET_cases host u)
    as [(e & Hs & HP)|[(r & Hs & Hok & HP)|[(r & e & Hs & Hok & Hj & HP)
                                           |(r & d & Hs & Hok & Hj & HP)]]].
  - exists (if instanceofError e then message e else "Unknown error"), 500.
    split; [exact HP|].
    unfold GET, GET_try. rewrite Hf, Hs. simpl.
    apply catch_not_abort. now apply Hfetch.
  - pose proof (Response_new_alike host
                  ("Failed to fetch GitHub data: "
                     +:+ Number_toString (upstream_status r))
                  (upstream_status r)) as Halike.
    unfold Passthrough.GET. rewrite HP.
    unfold GET, GET_try. rewrite Hf, Hs. simpl. rewrite Hok. simpl.
    destruct (Response_new host _) as [e|r1],
             (Passthrough.Response_new host _) as [e'|r2];
      try contradiction.
    + destruct Halike as [<- Ha].
      exists (if instanceofError e then message e else "Unknown error"), 500.
      split; [reflexivity|now apply catch_not_abort].
    + destruct Halike as [-> ->]. eauto.
  - exists (if instanceofError e then message e else "Unknown error"), 500.
    split; [exact HP|].
    unfold GET, GET_try. rewrite Hf, Hs. simpl. rewrite Hok, Hj. simpl.
    apply catch_not_abort. now apply (Hjson r).
  - rewrite HP in Hold. simpl in Hold. contradiction.
Qed.

(** X11.  The route answers 200 only where the earlier route did, and then
    carries a selection of what the earlier route passed on whole: each
    entry it returns is an entry of the earlier body, dated on or before
    the day of the request. *)
Theorem success_only_where_before host today u :
  status (GET host today u) = 200 ->
  exists payload data,
    body (GET host today u) = PayloadBody payload
    /\ Passthrough.status (Passthrough.GET host u) = 200
    /\ Passthrough.body (Passthrough.GET host u)
       = Passthrough.DataBody (JsonData data)
    /\ Passthrough.headers (Passthrough.GET host u)
       = headers (GET host today u)
    /\ (forall c, In c (payload_contributions payload) ->
                  In c (entries_of (contributions data))
                  /\ String.leb (date c) today = true).
Proof.
  intros H.
  destruct (GET_200 _ _ _ H) as (data & entries & values & Hd & He & Hv & HG).
  destruct Hd as (response & Hf & Hok & Hj).
  assert (Hs : settles u = inr response).
  { unfold fetch in Hf. destruct (FETCH_TIMEOUT <=? latency u); [discriminate|exact Hf]. }
  exists (payload_of host today entries values), data.
  rewrite HG. simpl.
  unfold Passthrough.GET, Passthrough.GET_try, Passthrough.fetch.
  rewrite Hs. simpl. rewrite Hok, Hj. simpl.
  do 4 (split; [reflexivity|]).
  intros c Hc. rewrite He. simpl. now apply payload_incl in Hc.
Qed.

(** An upstream that answers 404. *)
Definition upstream_404 : Upstream :=
  {| latency := 40;
     settles := inr {| upstream_status := 404;
                       upstream_json :=
                         inr (JsonData Reference.no_entries) |} |}.

(** An upstream that answers 304: the [Response] constructor refuses the
    status with a body, and either route answers 500. *)
Definition upstream_304 : Upstream :=
  {| latency := 40;
     settles := inr {| upstream_status := 304;
                       upstream_json :=
                         inr (JsonData Reference.no_entries) |} |}.

Example refused_status_is_500 :
  GET Reference.utcHost "2024-01-03" upstream_304
  = error_response "Response with null body status cannot have body" 500
  /\ Passthrough.GET Reference.utcHost upstream_304
     = Passthrough.error_response
         "Response with null body status cannot have body" 500.
Proof. split; reflexivity. Qed.

Lemma failures_are_answered_as_before_witness :
  exists error status,
    Passthrough.GET Reference.utcHost upstream_404
    = Passthrough.error_response error status
    /\ GET Reference.utcHost "2024-01-03" upstream_404
       = error_response error status.
Proof.
  apply (failures_are_answered_as_before Reference.utcHost "2024-01-03"
           upstream_404).
  - unfold FETCH_TIMEOUT. simpl. lia.
  - intros e H. discriminate H.
  - intros response e H. injection H as <-. intros H. discriminate H.
  - simpl. lia.
Defined.

Lemma success_only_where_before_witness :
  exists payload data,
    body (GET Reference.utcHost "2024-01-03"
            (Reference.upstream_of Reference.shuffled)) = PayloadBody payload
    /\ Passthrough.status
         (Passthrough.GET Reference.utcHost
            (Reference.upstream_of Reference.shuffled)) = 200
    /\ Passthrough.body
         (Passthrough.GET Reference.utcHost
            (Reference.upstream_of Reference.shuffled))
       = Passthrough.DataBody (JsonData data)
    /\ Passthrough.headers
         (Passthrough.GET Reference.utcHost
            (Reference.upstream_of Reference.shuffled))
       = headers (GET Reference.utcHost "2024-01-03"
                    (Reference.upstream_of Reference.shuffled))
    /\ (forall c, In c (payload_contributions payload) ->
                  In c (entries_of (contributions data))
                  /\ String.leb (date c) "2024-01-03" = true).
Proof.
  apply (success_only_where_before Reference.utcHost "2024-01-03"
           (Reference.upstream_of Reference.shuffled)).
  reflexivity.
Defined.

End RouteHistory.

(** ** The calendar widget: every way through one mount *)

Module WidgetCoverage.
Import JS Widget WidgetFacts.

(** The same surroundings, with [localStorage.setItem] throwing or not. *)
Definition with_setItem_throws (b : bool) (env : Env) : Env :=
  {| now_at_mount := now_at_mount env;
     now_at_result := now_at_result env;
     latency := latency env;
     settles := settles env;
     unmounted := unmounted env;
     setItem_throws := b;
     null_error_message := null_error_message env |}.

(** The text [fetchData] passes to [setError] for a thrown value. *)
Definition error_text (err : Thrown) : string :=
  if instanceofError err && (name err =? "AbortError")%string
  then "Request timed out. Please try again."
  else if instanceofError err then message err
       else "Unable to load GitHub activity".

(** The record a successful run writes. *)
Definition record_of (env : Env) (result : option GitHubData) : CachedData :=
  {| cached_data := result;
     timestamp := now_at_result env;
     version := CACHE_VERSION |}.

(** [fetchData] after a miss, by what the request gave. *)
Lemma fetchData_miss_cases codec env w :
  cache_check codec (now_at_mount env) (localStorage w) = None ->
  let w' := snd (fetch env API_URL w) in
  fetchData codec env w
  = match read_response env (settled env) with
    | inr result =>
        if unmounted env then w'
        else setItem env CACHE_KEY (JSON_stringify codec (record_of env result))
               (setStatus Success (setData result w'))
    | inl err =>
        if unmounted env then w'
        else setStatus Error (setError (error_text err) w')
    end.
Proof.
  unfold fetchData, error_text. intros ->. simpl.
  destruct (read_response env (settled env)) as [e|result];
    destruct (unmounted env); simpl; try reflexivity.
  destruct (instanceofError e && _); [reflexivity|].
  destruct (instanceofError e); reflexivity.
Qed.

Lemma settled_unmounted env :
  unmounted env = true -> settled env = inl AbortError.
Proof. unfold settled. now intros ->. Qed.

Lemma read_response_result env result :
  read_response env (settled env) = inr result <->
  settled env = inr (ApiOk (inr result)).
Proof.
  unfold read_response.
  destruct (settled env) as [e|[[e|d]|st [|er]]]; split;
    try discriminate; congruence.
Qed.

(** X12.  When the effect has run on a fresh mount the three state cells
    fit together: the status is still [Loading] exactly when the component
    was unmounted while its request was pending, and [Error] exactly when
    there is an error text; there is data under the status [Success] only;
    and data and error text are never both there.  Under [Success] the
    data is what the record read, or else the answer received, carried: it
    is missing when that carried none. *)
Theorem state_cells_fit_together codec env (store : gmap string string) :
  let w := fetchData codec env (mount store) in
  (status w = Loading <->
   unmounted env = true /\ cache_check codec (now_at_mount env) store = None)
  /\ (status w = Error <-> error w <> None)
  /\ (data w <> None -> status w = Success)
  /\ (data w = None \/ error w = None)
  /\ (status w = Success ->
      (exists parsed,
         cache_check codec (now_at_mount env) store = Some parsed
         /\ data w = cached_data parsed)
      \/ (cache_check codec (now_at_mount env) store = None
          /\ settled env = inr (ApiOk (inr (data w))))).
Proof.
  intros w. subst w.
  destruct (cache_check codec (now_at_mount env) store) as [p|] eqn:E.
  - rewrite (fetchData_hit codec env (mount store) p E). simpl.
    split; [split; [discriminate|intros [_ H]; discriminate]|].
    split; [split; [discriminate|congruence]|].
    split; [reflexivity|]. split; [now right|].
    intros _. left. exists p. auto.
  - rewrite (fetchData_miss_cases codec env (mount store) E).
    destruct (read_response env (settled env)) as [e|result] eqn:Hr;
      destruct (unmounted env); simpl.
    + split; [tauto|]. split; [split; [discriminate|congruence]|].
      split; [congruence|]. split; [now left|discriminate].
    + split; [split; [discriminate|intros [H _]; discriminate]|].
      split; [split; [discriminate|reflexivity]|].
      split; [congruence|]. split; [now left|discriminate].
    + split; [tauto|]. split; [split; [discriminate|congruence]|].
      split; [congruence|]. split; [now left|discriminate].
    + split; [split; [discriminate|intros [H _]; discriminate]|].
      split; [split; [discriminate|congruence]|].
      split; [reflexivity|]. split; [now right|].
      intros _. right. split; [reflexivity|].
      now apply read_response_result.
Qed.

(** X13.  A run touches the store under the cache key only, and asks for
    one URL only: every other key holds after the run what it held before,
    and the calls made are at most one request, of [API_URL], and at most
    one write, under [CACHE_KEY]. *)
Theorem other_keys_are_left_alone codec env w :
  (forall key, key <> CACHE_KEY ->
     localStorage (fetchData codec env w) !! key = localStorage w !! key)
  /\ (requests (fetchData codec env w) = requests w
      \/ requests (fetchData codec env w) = requests w ++ [API_URL])
  /\ (writes (fetchData codec env w) = writes w
      \/ exists value,
           writes (fetchData codec env w) = writes w ++ [(CACHE_KEY, value)]).
Proof.
  destruct (cache_check codec (now_at_mount env) (localStorage w)) as [p|] eqn:E.
  - rewrite (fetchData_hit codec env w p E). simpl. auto.
  - rewrite (fetchData_miss_cases codec env w E).
    destruct (read_response env (settled env)) as [e|result];
      destruct (unmounted env); simpl; auto.
    split; [|eauto].
    intros key Hk. destruct (setItem_throws env); [reflexivity|].
    now apply lookup_insert_ne.
Qed.

(** X14.  A failing cache write is silent: the component shows what it
    shows when the write succeeds and has made the same calls, and the
    store is left as it was found. *)
Theorem failed_write_is_silent codec env w :
  shown (fetchData codec (with_setItem_throws true env) w)
  = shown (fetchData codec (with_setItem_throws false env) w)
  /\ requests (fetchData codec (with_setItem_throws true env) w)
     = requests (fetchData codec (with_setItem_throws false env) w)
  /\ writes (fetchData codec (with_setItem_throws true env) w)
     = writes (fetchData codec (with_setItem_throws false env) w)
  /\ localStorage (fetchData codec (with_setItem_throws true env) w)
     = localStorage w.
Proof.
  unfold fetchData, shown. simpl.
  destruct (cache_check codec (now_at_mount env) (localStorage w)); simpl;
    [auto|].
  change (settled (with_setItem_throws true env)) with (settled env).
  change (settled (with_setItem_throws false env)) with (settled env).
  change (read_response (with_setItem_throws true env))
    with (read_response env).
  change (read_response (with_setItem_throws false env))
    with (read_response env).
  destruct (read_response env (settled env)) as [e|result];
    destruct (unmounted env); simpl; auto.
  destruct (instanceofError e && _); simpl; auto.
Qed.

(** X15.  What the alert says after a miss on a component that stays
    mounted.  When the timer fires first it is the time-out text.  When
    the proxy answers with a status outside 200-299 and a body other than
    [null], it is the [error] of the body, and, where the body has none or
    an empty one, the status after ["Failed to fetch: "]; where the body
    is [null], it is the message of the [TypeError] that reading [error]
    off it throws.  When the call or the parse throws, it is the message
    of the error, and the fallback text for a thrown value that is no
    [Error]. *)
Theorem alert_text codec env (store : gmap string string) :
  cache_check codec (now_at_mount env) store = None ->
  unmounted env = false ->
  (FETCH_TIMEOUT <= latency env ->
   shown (fetchData codec env (mount store))
   = (None, Error, Some "Request timed out. Please try again."))
  /\ (latency env < FETCH_TIMEOUT ->
      (forall status msg,
         settles env = inr (ApiNotOk status (ErrorDataObject (Some msg))) ->
         msg <> "" ->
         shown (fetchData codec env (mount store)) = (None, Error, Some msg))
      /\ (forall status error,
            settles env = inr (ApiNotOk status (ErrorDataObject error)) ->
            error = None \/ error = Some "" ->
            shown (fetchData codec env (mount store))
            = (None, Error,
               Some ("Failed to fetch: " +:+ Number_toString status)))
      /\ (forall status,
            settles env = inr (ApiNotOk status ErrorDataNull) ->
            shown (fetchData codec env (mount store))
            = (None, Error, Some (null_error_message env)))
      /\ (forall err,
            settles env = inl err \/ settles env = inr (ApiOk (inl err)) ->
            shown (fetchData codec env (mount store))
            = (None, Error, Some (error_text err)))).
Proof.
  intros E Hm.
  rewrite (fetchData_miss_cases codec env (mount store) E), Hm.
  unfold settled. rewrite Hm. simpl. split.
  - intros Hl. destruct (Z.leb_spec FETCH_TIMEOUT (latency env)); [|lia].
    reflexivity.
  - intros Hl. destruct (Z.leb_spec FETCH_TIMEOUT (latency env)); [lia|].
    split; [|split; [|split]].
    + intros st msg -> Hmsg. simpl. unfold truthy_string.
      destruct (String.eqb_spec msg ""); [contradiction|reflexivity].
    + intros st er -> [->| ->]; reflexivity.
    + intros st ->. reflexivity.
    + intros err [-> | ->]; reflexivity.
Qed.

(** X16.  What one mount writes the next mount reads.  After a run that
    missed the cache, was answered with [result] and could write, a mount
    over the store it left shows [result] without a request as long as less
    than [CACHE_TTL] has passed since the write, and asks again from then
    on.  (The codec is asked to read back the one record it wrote.) *)
Theorem second_mount_is_served_from_cache codec env (store : gmap string string)
    result env' :
  JSON_parse codec "" = None ->
  JSON_parse codec (JSON_stringify codec (record_of env result))
  = Some (record_of env result) ->
  cache_check codec (now_at_mount env) store = None ->
  settled env = inr (ApiOk (inr result)) ->
  setItem_throws env = false ->
  let left := localStorage (fetchData codec env (mount store)) in
  (now_at_mount env' - now_at_result env < CACHE_TTL ->
   shown (fetchData codec env' (mount left)) = (result, Success, None)
   /\ requests (fetchData codec env' (mount left)) = []
   /\ localStorage (fetchData codec env' (mount left)) = left)
  /\ (CACHE_TTL <= now_at_mount env' - now_at_result env ->
      requests (fetchData codec env' (mount left)) = [API_URL]).
Proof.
  intros Hempty Hround E Hs Hw left.
  assert (Hleft : left !! CACHE_KEY
                  = Some (JSON_stringify codec (record_of env result))).
  { subst left. rewrite (fetchData_miss_cases codec env (mount store) E).
    rewrite Hs, (settled_mounted _ _ Hs). simpl. rewrite Hw.
    apply lookup_insert_eq. }
  split.
  - intros Hage.
    assert (E' : cache_check codec (now_at_mount env') left
                 = Some (record_of env result)).
    { now apply (cache_check_fresh codec Hempty _ _
                   (JSON_stringify codec (record_of env result))). }
    rewrite (fetchData_hit codec env' (mount left) _ E'). auto.
  - intros Hage.
    assert (E' : cache_check codec (now_at_mount env') left = None).
    { apply (cache_check_None codec Hempty). right.
      exists (JSON_stringify codec (record_of env result)).
      split; [exact Hleft|]. right. exists (record_of env result).
      split; [exact Hround|]. right. exact Hage. }
    now destruct (fetchData_miss codec env' (mount left) E') as [-> _].
Qed.

(** *** The theorems at concrete inputs *)

Lemma cache_check_empty codec now : cache_check codec now ∅ = None.
Proof. unfold cache_check. now rewrite lookup_empty. Qed.

(** A mount whose request outlasts the timer, and one that is refused
    with the body [null]. *)
Definition stalled (now : Z) : Env :=
  {| now_at_mount := now;
     now_at_result := now + 10000;
     latency := 12000;
     settles := inr (ApiOk (inr (Some Reference.sample_data)));
     unmounted := false;
     setItem_throws := false;
     null_error_message := Reference.null_property "error" |}.

Definition refused_null (now : Z) : Env :=
  {| now_at_mount := now;
     now_at_result := now + 80;
     latency := 80;
     settles := inr (ApiNotOk 500 ErrorDataNull);
     unmounted := false;
     setItem_throws := false;
     null_error_message := Reference.null_property "error" |}.

Lemma alert_text_witness :
  shown (fetchData Reference.sample_codec (stalled 5000) (mount ∅))
  = (None, Error, Some "Request timed out. Please try again.")
  /\ shown (fetchData Reference.sample_codec (Reference.refused 5000) (mount ∅))
     = (None, Error, Some "Invalid data structure from GitHub API")
  /\ shown (fetchData Reference.sample_codec (refused_null 5000) (mount ∅))
     = (None, Error, Some "Cannot read properties of null (reading 'error')").
Proof.
  split; [|split].
  - apply (proj1 (alert_text Reference.sample_codec (stalled 5000) ∅
                    (cache_check_empty _ _) eq_refl)).
    unfold FETCH_TIMEOUT. simpl. lia.
  - apply (proj1 (proj2 (alert_text Reference.sample_codec
                           (Reference.refused 5000) ∅
                           (cache_check_empty _ _) eq_refl)
                    ltac:(unfold FETCH_TIMEOUT; simpl; lia))
             502 "Invalid data structure from GitHub API").
    + reflexivity.
    + discriminate.
  - apply (proj1 (proj2 (proj2 (proj2 (alert_text Reference.sample_codec
                                         (refused_null 5000) ∅
                                         (cache_check_empty _ _) eq_refl)
                                  ltac:(unfold FETCH_TIMEOUT; simpl; lia))))
             500).
    reflexivity.
Defined.

Lemma second_mount_is_served_from_cache_witness :
  (shown (fetchData Reference.sample_codec (Reference.answered 9000)
            (mount (localStorage
                      (fetchData Reference.sample_codec
                         (Reference.answered 5000) (mount ∅)))))
   = (Some Reference.sample_data, Success, None)
   /\ requests (fetchData Reference.sample_codec (Reference.answered 9000)
                  (mount (localStorage
                            (fetchData Reference.sample_codec
                               (Reference.answered 5000) (mount ∅)))))
      = []
   /\ localStorage (fetchData Reference.sample_codec (Reference.answered 9000)
                      (mount (localStorage
                                (fetchData Reference.sample_codec
                                   (Reference.answered 5000) (mount ∅)))))
      = localStorage (fetchData Reference.sample_codec
                        (Reference.answered 5000) (mount ∅)))
  /\ requests (fetchData Reference.sample_codec (Reference.answered 3605080)
                 (mount (localStorage
                           (fetchData Reference.sample_codec
                              (Reference.answered 5000) (mount ∅)))))
     = [API_URL].
Proof.
  split.
  - apply (proj1 (second_mount_is_served_from_cache Reference.sample_codec
                    (Reference.answered 5000) ∅ (Some Reference.sample_data)
                    (Reference.answered 9000)
                    eq_refl eq_refl (cache_check_empty _ _) eq_refl eq_refl)).
    unfold CACHE_TTL. simpl. lia.
  - apply (proj2 (second_mount_is_served_from_cache Reference.sample_codec
                    (Reference.answered 5000) ∅ (Some Reference.sample_data)
                    (Reference.answered 3605080)
                    eq_refl eq_refl (cache_check_empty _ _) eq_refl eq_refl)).
    unfold CACHE_TTL. simpl. lia.
Defined.

End WidgetCoverage.

(** ** The view, the page and the route together *)

Module ViewFacts.
Import JS Widget WidgetFacts WidgetCoverage WidgetView.




End ViewFacts.

Module PageFacts.
Import JS JSFacts Proxy ProxyFacts ProxyCoverage.
Import Transport.

(** The route never puts an error object under a success status, nor a
    payload under another one: the widget can read every response. *)
Lemma received_GET host today u :
  (exists entries values,
     GET host today u = success_response (payload_of host today entries values)
     /\ received (GET host today u)
        = Some (Widget.ApiOk
                  (inr (Some (data_of (payload_of host today entries values))))))
  \/ (exists error status,
        GET host today u = error_response error status
        /\ (status < 200 \/ 299 < status)
        /\ received (GET host today u)
           = Some (Widget.ApiNotOk status
                     (Widget.ErrorDataObject (Some error)))).
Proof.
  unfold GET.
  destruct (GET_try_cases host today u)
    as [(e & -> & _)|[(r & _ & Hok & ->)|[(d & _ & _ & ->)
                                         |(d & en & v & _ & _ & _ & _ & ->)]]].
  - right. unfold catch.
    destruct (instanceofError e && _); eexists _, _;
      (split; [reflexivity|split; [lia|reflexivity]]).
  - right. eexists _, _. split; [reflexivity|].
    unfold Proxy.ok in Hok.
    assert (Hr : upstream_status r < 200 \/ 299 < upstream_status r).
    { destruct (Z.leb_spec 200 (upstream_status r)),
               (Z.leb_spec (upstream_status r) 299);
        simpl in Hok; try discriminate; lia. }
    split; [exact Hr|].
    unfold received, Transport.ok, error_response. simpl. rewrite Hok.
    reflexivity.
  - right. eexists _, _. split; [reflexivity|split; [lia|reflexivity]].
  - left. exists en, v. split; reflexivity.
Qed.

(** X18.  What a visitor sees comes from the route.  When the widget has
    no usable cache, stays mounted and gets the answer of the route before
    its own timer fires, it shows the payload of a 200 answer as its data:
    at most 365 days, none of them after the day of the request.  Of any
    other answer it shows the error text in its alert; where that text is
    empty, the alert gives the status after ["Failed to fetch: "]. *)
Theorem page_shows_the_answer host today u codec env
    (store : gmap string string) answer :
  Widget.cache_check codec (Widget.now_at_mount env) store = None ->
  Widget.unmounted env = false ->
  Widget.latency env < Widget.FETCH_TIMEOUT ->
  received (GET host today u) = Some answer ->
  Widget.settles env = inr answer ->
  (status (GET host today u) = 200 ->
   exists payload,
     body (GET host today u) = PayloadBody payload
     /\ WidgetFacts.shown (Widget.fetchData codec env (Widget.mount store))
        = (Some (data_of payload), Widget.Success, None)
     /\ (length (Widget.contributions (data_of payload)) <= 365)%nat
     /\ (forall a, In a (Widget.contributions (data_of payload)) ->
                   String.leb (Widget.date a) today = true))
  /\ (status (GET host today u) <> 200 ->
      exists error,
        body (GET host today u) = ErrorBody error
        /\ WidgetFacts.shown (Widget.fetchData codec env (Widget.mount store))
           = (None, Widget.Error,
              Some (if truthy_string error then error
                    else "Failed to fetch: "
                           +:+ Number_toString (status (GET host today u))))).
Proof.
  intros E Hm Hl Hr Hs.
  rewrite (WidgetCoverage.fetchData_miss_cases codec env (Widget.mount store) E).
  unfold Widget.settled. rewrite Hm, Hs. simpl.
  destruct (Z.leb_spec Widget.FETCH_TIMEOUT (Widget.latency env)) as [Hge|_];
    [lia|].
  destruct (received_GET host today u)
    as [(entries & values & HG & Hrec)|(error & st & HG & Hst & Hrec)];
    rewrite Hrec in Hr; injection Hr as <-; rewrite HG; simpl.
  - split; [|intros H; contradiction].
    intros _. exists (payload_of host today entries values).
    split; [reflexivity|]. split; [reflexivity|]. split.
    + rewrite length_map. apply lastYearData_length.
    + intros a Ha. apply in_map_iff in Ha as (c & <- & Hc).
      now apply payload_incl in Hc.
  - split; [intros H; lia|].
    intros _. exists error. split; [reflexivity|].
    destruct (truthy_string error); reflexivity.
Qed.

(** A mount that is given the answer of the route for [u]. *)
Definition visit (now : Z) (answer : Widget.ApiResponse) : Widget.Env :=
  {| Widget.now_at_mount := now;
     Widget.now_at_result := now + 150;
     Widget.latency := 150;
     Widget.settles := inr answer;
     Widget.unmounted := false;
     Widget.setItem_throws := false;
     Widget.null_error_message := Reference.null_property "error" |}.

Lemma page_shows_the_answer_witness :
  WidgetFacts.shown
    (Widget.fetchData Reference.sample_codec
       (visit 5000 (Widget.ApiOk (inr (Some Reference.sample_data))))
       (Widget.mount ∅))
  = (Some Reference.sample_data, Widget.Success, None)
  /\ WidgetFacts.shown
       (Widget.fetchData Reference.sample_codec
          (visit 5000
             (Widget.ApiNotOk 504
                (Widget.ErrorDataObject (Some "Request timed out"))))
          (Widget.mount ∅))
     = (None, Widget.Error, Some "Request timed out").
Proof.
  split.
  - destruct (proj1 (page_shows_the_answer Reference.utcHost "2024-01-03"
                       (Reference.upstream_of Reference.scenario)
                       Reference.sample_codec
                       (visit 5000 (Widget.ApiOk (inr (Some Reference.sample_data))))
                       ∅ (Widget.ApiOk (inr (Some Reference.sample_data)))
                       (WidgetCoverage.cache_check_empty _ _) eq_refl
                       ltac:(unfold Widget.FETCH_TIMEOUT; simpl; lia)
                       eq_refl eq_refl) eq_refl)
      as (payload & Hb & Hshown & _).
    injection Hb as <-. exact Hshown.
  - destruct (proj2 (page_shows_the_answer Reference.utcHost "2024-01-03"
                       Reference.slow_upstream
                       Reference.sample_codec
                       (visit 5000
                          (Widget.ApiNotOk 504
                             (Widget.ErrorDataObject
                                (Some "Request timed out"))))
                       ∅ (Widget.ApiNotOk 504
                            (Widget.ErrorDataObject
                               (Some "Request timed out")))
                       (WidgetCoverage.cache_check_empty _ _) eq_refl
                       ltac:(unfold Widget.FETCH_TIMEOUT; simpl; lia)
                       eq_refl eq_refl) ltac:(simpl; lia))
      as (error & Hb & Hshown).
    injection Hb as <-. exact Hshown.
Defined.

End PageFacts.

(** ** The sitemap options *)

Module SitemapFacts.
Import Sitemap.

#[local] Arguments String.append : simpl nomatch.

Lemma prefix_app (p s : string) :
  String.prefix p s = true <-> exists post, s = p +:+ post.
Proof.
  revert s. induction p as [|a p IH]; intros s; simpl.
  - split; [intros _; now exists s|intros _; now destruct s].
  - destruct s as [|b s]; simpl.
    + split; [discriminate|intros [post H]; discriminate H].
    + destruct (Ascii.ascii_dec a b) as [->|Hab].
      * rewrite IH. split; intros [post H]; exists post; simpl in *; congruence.
      * split; [discriminate|intros [post H]; simpl in H; congruence].
Qed.

(** [includes] finds the search string exactly when it occurs. *)
Lemma includes_spec (p s : string) :
  includes p s = true <-> exists pre post, s = pre +:+ (p +:+ post).
Proof.
  induction s as [|a s IH]; cbn [includes].
  - rewrite orb_false_r, prefix_app. split.
    + intros [post H]. now exists "", post.
    + intros (pre & post & H). destruct pre; [now exists post|discriminate H].
  - rewrite orb_true_iff, IH, prefix_app. split.
    + intros [[post H]|(pre & post & H)].
      * now exists "", post.
      * exists (String a pre), post. simpl. now rewrite H.
    + intros (pre & post & H). destruct pre as [|b pre]; simpl in H.
      * left. now exists post.
      * right. exists pre, post. congruence.
Qed.

(** A URL has one of the three words as a path segment: after a slash,
    and before a slash or the end. *)
Definition main_segment (url : string) : Prop :=
  exists pre word post,
    url = pre +:+ ("/" +:+ (word +:+ post))
    /\ In word ["about"; "cv"; "projects"]
    /\ (post = "" \/ exists rest, post = "/" +:+ rest).

Lemma append_assoc (a b c : string) : (a +:+ b) +:+ c = a +:+ (b +:+ c).
Proof. induction a as [|x a IH]; simpl; [reflexivity|now rewrite IH]. Qed.

Lemma append_nil_r (a : string) : a +:+ "" = a.
Proof. induction a as [|x a IH]; simpl; [reflexivity|now rewrite IH]. Qed.

Lemma match_here_spec (s : string) :
  match_here s = true <->
  exists word post,
    s = "/" +:+ (word +:+ post)
    /\ In word ["about"; "cv"; "projects"]
    /\ (post = "" \/ exists rest, post = "/" +:+ rest).
Proof.
  unfold match_here. rewrite existsb_exists. split.
  - intros (word & Hin & H). apply orb_true_iff in H as [H|H].
    + apply prefix_app in H as [rest H].
      exists word, ("/" +:+ rest). split; [|split; [exact Hin|right; eauto]].
      rewrite H. change ("/" +:+ word +:+ "/") with ("/" +:+ (word +:+ "/")).
      simpl. now rewrite append_assoc.
    + apply String.eqb_eq in H. exists word, "".
      split; [|split; [exact Hin|now left]].
      rewrite H. simpl. now rewrite append_nil_r.
  - intros (word & post & H & Hin & [->|[rest ->]]); exists word;
      (split; [exact Hin|]); apply orb_true_iff.
    + right. apply String.eqb_eq. rewrite H. simpl. now rewrite append_nil_r.
    + left. apply prefix_app. exists rest. rewrite H. simpl.
      now rewrite append_assoc.
Qed.

Lemma matches_spec (s : string) : matches s = true <-> main_segment s.
Proof.
  unfold main_segment. induction s as [|a s IH].
  - cbn [matches]. rewrite orb_false_r, match_here_spec. split.
    + intros (word & post & H & Hin & Hpost). discriminate H.
    + intros (pre & word & post & H & _). destruct pre; discriminate H.
  - cbn [matches]. rewrite orb_true_iff, IH, match_here_spec. split.
    + intros [(word & post & H & Hin & Hpost)|(pre & word & post & H & Hin & Hpost)].
      * exists "", word, post. auto.
      * exists (String a pre), word, post. simpl. rewrite H. auto.
    + intros (pre & word & post & H & Hin & Hpost).
      destruct pre as [|b pre]; simpl in H.
      * left. exists word, post. auto.
      * right. exists pre, word, post. split; [now injection H|auto].
Qed.

(** X19.  [serialize] keeps the URL and stamps the build time, and gives
    one of three priorities: 1.0 with a weekly change frequency to the
    homepage URL and to no other; 0.8 to every other URL that has
    [about], [cv] or [projects] as a path segment, wherever in the URL
    that segment stands; 0.6 to the rest; the last two with a monthly
    change frequency. *)
Theorem priority_by_path_segment now item :
  let home := "https://shayhenderson.dev/" in
  let out := serialize now item in
  url out = url item
  /\ lastmod out = Some now
  /\ (priority out = Some (QArith_base.Qmake 1 1) <-> url item = home)
  /\ (priority out = Some (QArith_base.Qmake 8 10) <->
      url item <> home /\ main_segment (url item))
  /\ (priority out = Some (QArith_base.Qmake 6 10) <->
      url item <> home /\ ~ main_segment (url item))
  /\ (changefreq out = Some "weekly" <-> url item = home)
  /\ (changefreq out = Some "monthly" <-> url item <> home).
Proof.
  intros home out. subst home out. unfold serialize.
  destruct (String.eqb_spec (url item) "https://shayhenderson.dev/") as [E|E];
    simpl.
  - repeat split; try discriminate; try tauto;
      try (intros [H _]; contradiction).
  - destruct (matches (url item)) eqn:Hm; simpl.
    + apply matches_spec in Hm.
      repeat split; try discriminate; try tauto; try contradiction;
        try (intros [_ H]; contradiction).
    + assert (Hn : ~ main_segment (url item)).
      { intros H. apply matches_spec in H. congruence. }
      repeat split; try discriminate; try tauto; try contradiction;
        try (intros [_ H]; contradiction).
Qed.

(** X20.  [filter] keeps a page exactly when ["/404"] occurs nowhere in
    its URL: the 404 page is left out, and so is every page with a path
    segment that begins with 404. *)
Theorem filter_drops_404 page :
  (filter page = false <-> exists pre post, page = pre +:+ ("/404" +:+ post))
  /\ (forall pre segment post,
        page = pre +:+ ("/" +:+ (segment +:+ post)) ->
        String.prefix "404" segment = true ->
        filter page = false).
Proof.
  unfold filter. rewrite negb_false_iff, includes_spec. split; [reflexivity|].
  intros pre segment post E H. apply prefix_app in H as [rest Hs].
  rewrite negb_false_iff, includes_spec.
  exists pre, (rest +:+ post). rewrite E, Hs. simpl. reflexivity.
Qed.

End SitemapFacts.

(** ** The error boundary *)

Module ErrorBoundaryFacts.
Import JS ErrorBoundary.

Lemma run_snoc DEV errors thrown :
  run DEV (errors ++ [thrown]) = caught DEV (run DEV errors) thrown.
Proof. unfold run. now rewrite fold_left_app. Qed.

Lemma console_length DEV errors acc :
  length (snd (fold_left (caught DEV) errors acc))
  = (length (snd acc) + if DEV then length errors else 0)%nat.
Proof.
  revert acc. induction errors as [|x errors IH]; intros acc; simpl.
  - destruct DEV; lia.
  - rewrite IH. simpl. rewrite length_app. unfold componentDidCatch.
    destruct DEV; simpl; lia.
Qed.

(** X21.  Before any error the boundary renders its children.  After an
    error, and after any number of further ones, it renders the fallback
    it was given, or the default panel where the fallback is missing or
    falsy, and it holds the error caught last; nothing brings the children
    back.  The console gets one entry for each error in development, and
    none otherwise. *)
Theorem boundary_stays_on_fallback DEV props errors error errorInfo :
  let after := run DEV (errors ++ [(error, errorInfo)]) in
  render props (fst (run DEV [])) = children props
  /\ render props (fst after)
     = (if truthy (fallback props) then fallback props else default_panel)
  /\ ErrorBoundary.error (fst after) = Some error
  /\ length (snd after) = (if DEV then S (length errors) else 0)%nat.
Proof.
  intros after. subst after. rewrite run_snoc. simpl.
  repeat split.
  unfold run. rewrite length_app, console_length. unfold componentDidCatch.
  destruct DEV; simpl; lia.
Qed.

End ErrorBoundaryFacts.

(** ** The earlier widget and the route *)

Module EarlierWidgetFacts.
Import JS JSFacts Proxy ProxyFacts ProxyCoverage EarlierWidget.

Lemma filter_all {A : Type} (f : A -> bool) (l : list A) :
  (forall x, In x l -> f x = true) -> List.filter f l = l.
Proof.
  induction l as [|x l IH]; intros H; simpl; [reflexivity|].
  rewrite (H x (or_introl eq_refl)), IH; [reflexivity|].
  intros y Hy. apply H. now right.
Qed.

Lemma select_accepts host currentYear json sel :
  select host currentYear (JsonData json) = inr sel ->
  invalid_structure json = false.
Proof.
  unfold select. simpl.
  destruct (invalid_structure json); [discriminate|reflexivity].
Qed.

(** Two comparators that agree on the elements of a list sort it
    alike. *)
Lemma sort_insert_ext {A : Type} (f g : A -> A -> Z) x (l : list A) :
  (forall y, In y l -> f x y = g x y) ->
  sort_insert f x l = sort_insert g x l.
Proof.
  induction l as [|y l IH]; intros H; simpl; [reflexivity|].
  rewrite (H y (or_introl eq_refl)), IH; [reflexivity|].
  intros z Hz. apply H. now right.
Qed.

Lemma Array_sort_ext {A : Type} (f g : A -> A -> Z) (l : list A) :
  (forall a b, In a l -> In b l -> f a b = g a b) ->
  Array_sort f l = Array_sort g l.
Proof.
  induction l as [|x l IH]; intros H; simpl; [reflexivity|].
  change (fold_right (sort_insert f) [] l) with (Array_sort f l).
  change (fold_right (sort_insert g) [] l) with (Array_sort g l).
  rewrite IH by (intros a b Ha Hb; apply H; now right).
  apply sort_insert_ext. intros y Hy. apply H; [now left|right].
  eapply Permutation_in; [symmetry; apply Array_sort_Permutation|exact Hy].
Qed.

Lemma last_default {A : Type} (l : list A) (y d d' : A) :
  List.last (y :: l) d = List.last (y :: l) d'.
Proof.
  revert y. induction l as [|z l IH]; intros y; [reflexivity|].
  change (List.last (y :: z :: l) d) with (List.last (z :: l) d).
  change (List.last (y :: z :: l) d') with (List.last (z :: l) d').
  apply IH.
Qed.

Lemma last_In {A : Type} (x : A) (l : list A) :
  In (List.last (x :: l) x) (x :: l).
Proof.
  revert x. induction l as [|y l IH]; intros x; [now left|].
  right. change (List.last (x :: y :: l) x) with (List.last (y :: l) x).
  rewrite (last_default l y x y). apply IH.
Qed.

(** Two hosts that read the same local year off every date of a window
    give it the same year range. *)
Lemma yearRange_of_ext client server (window : list ExternalActivity) :
  (forall c, In c window ->
     getFullYear client (Date_new client (date c))
     = getFullYear server (Date_new server (date c))) ->
  yearRange_of client window = yearRange_of server window.
Proof.
  destruct window as [|first rest]; [reflexivity|]. intros H.
  unfold yearRange_of.
  rewrite (H first (or_introl eq_refl)), (H _ (last_In first rest)).
  reflexivity.
Qed.

(** X22.  Moving the selection from the widget, in the browser, to the
    route, on the server, changed it for future dates only.  For a
    delivered body that the earlier widget accepted, in which no entry is
    dated after the day of the request and on whose dates the collations of
    browser and server agree, the route answers 200 with the window the
    widget selected.  Each side reads the year range off that window in
    its own local time: the two ranges are the same whenever browser and
    server read the same local year off each date.  The route returns the
    sum the widget showed whenever the body gives the widget no yearly
    total to show instead. *)
Theorem selection_moved_to_the_route client server today currentYear u json
    sel :
  delivered u json ->
  select client currentYear (JsonData json) = inr sel ->
  (forall c, In c (entries_of (contributions json)) ->
             String.leb (date c) today = true) ->
  (forall a b,
     In a (entries_of (contributions json)) ->
     In b (entries_of (contributions json)) ->
     localeCompare client (date a) (date b)
     = localeCompare server (date a) (date b)) ->
  exists payload,
    GET server today u = success_response payload
    /\ payload_contributions payload = selected sel
    /\ selected_yearRange sel = yearRange_of client (selected sel)
    /\ yearRange payload = yearRange_of server (selected sel)
    /\ ((forall c, In c (selected sel) ->
           getFullYear client (Date_new client (date c))
           = getFullYear server (Date_new server (date c))) ->
        yearRange payload = selected_yearRange sel)
    /\ ((forall n, total_at_year (total json) currentYear = Some n -> n = 0) ->
        (forall n, total_lastYear (total json) = Some n -> n = 0) ->
        lastYearTotal payload = selected_total sel).
Proof.
  intros Hd Hsel Hpast Hcmp.
  pose proof (select_accepts _ _ _ _ Hsel) as Hs.
  destruct (GET_accepted server today u json Hd Hs)
    as (entries & values & He & Hv & HG).
  exists (payload_of server today entries values). split; [exact HG|].
  unfold select in Hsel. simpl in Hsel. rewrite Hs, He in Hsel. simpl in Hsel.
  rewrite He in Hpast, Hcmp. simpl in Hpast, Hcmp.
  assert (Hw : lastYearData server today entries
               = Array_slice (-365)
                   (Array_sort
                      (fun a b => localeCompare client (date a) (date b))
                      entries)).
  { unfold lastYearData, sortedContributions.
    rewrite (filter_all _ _ Hpast). f_equal.
    apply Array_sort_ext. intros a b Ha Hb. symmetry. now apply Hcmp. }
  destruct (match entries with
            | [] => false
            | sample :: _ => negb (truthy_string (date sample))
            end); [discriminate|].
  injection Hsel as <-. simpl. rewrite <- Hw.
  split; [reflexivity|]. split; [reflexivity|]. split; [reflexivity|].
  split.
  - intros Hyears. symmetry. now apply yearRange_of_ext.
  - intros Hyear Hlast. unfold or_else.
    destruct (total_at_year (total json) currentYear) as [n|] eqn:E1.
    + rewrite (Hyear n eq_refl). simpl.
      destruct (total_lastYear (total json)) as [m|] eqn:E2;
        [rewrite (Hlast m eq_refl)|]; reflexivity.
    + destruct (total_lastYear (total json)) as [m|] eqn:E2;
        [rewrite (Hlast m eq_refl)|]; reflexivity.
Qed.

(** The scenario of the specification, selected in a browser five hours
    behind UTC and on a server at UTC: the same window, and the year
    ranges ["2023 - 2024"] and ["2024"]. *)
Lemma selection_moved_to_the_route_witness :
  exists payload,
    GET Reference.utcHost "2024-01-03" (Reference.upstream_of Reference.scenario)
    = success_response payload
    /\ payload_contributions payload
       = [Reference.day "2024-01-01" 2 1; Reference.day "2024-01-02" 0 0]
    /\ yearRange_of Reference.westHost
         [Reference.day "2024-01-01" 2 1; Reference.day "2024-01-02" 0 0]
       = "2023 - 2024"
    /\ yearRange payload = "2024"
    /\ ((forall n,
           total_at_year (total Reference.scenario) 2025 = Some n -> n = 0) ->
        (forall n, total_lastYear (total Reference.scenario) = Some n -> n = 0) ->
        lastYearTotal payload = 2).
Proof.
  destruct (selection_moved_to_the_route Reference.westHost Reference.utcHost
              "2024-01-03" 2025
              (Reference.upstream_of Reference.scenario) Reference.scenario
              {| selected :=
                   [Reference.day "2024-01-01" 2 1;
                    Reference.day "2024-01-02" 0 0];
                 selected_yearRange := "2023 - 2024";
                 selected_total := 2 |})
    as (payload & HG & Hw & Hc & Hy & _ & Ht).
  - apply upstream_of_delivered.
  - reflexivity.
  - intros c Hc. simpl in Hc. destruct Hc as [<-|[<-|[]]]; reflexivity.
  - intros a b _ _. reflexivity.
  - exists payload. split; [exact HG|]. split; [exact Hw|].
    split; [symmetry; exact Hc|]. split; [|exact Ht].
    rewrite Hy. reflexivity.
Defined.

End EarlierWidgetFacts.
